(** * IoT smart hydration tracking: the analysis, forecast and
      recommendation pipeline of [hydration_dashboard.py]

    The repository holds two versions of [hydration_dashboard.py]: the
    Firebase dashboard and its "Windows Compatible" variant.  They share
    [_generate_simulated_data] and [analyze_user_patterns] and differ in
    [forecast_consumption] and [generate_recommendations]; the shared part
    is embedded once, the two others in the modules [Firebase] and
    [Windows].

    Numbers.  The Python code computes on float64 values (pandas columns,
    numpy scalars).  A float is embedded as an exact rational or one of the
    three special values NaN, +inf, -inf; finite arithmetic is exact (no
    rounding, no overflow) and the sign of a zero is not kept.  What is
    kept is what the code's control flow depends on: NaN propagation, NaN
    making every comparison false, pandas skipping NaN in its reductions,
    and a division by zero giving NaN or an infinity instead of raising.

    Dates.  A time is a number of seconds since 1970 and a date a number
    of days.  A pandas timestamp holds the times from 1677-09-21 to
    2262-04-11 only, a [datetime] the years 1 to 9999: the calls that
    leave these ranges raise here as they do in Python, inside or outside
    the [try] blocks of the code. *)

From Stdlib Require Import ZArith QArith String Bool Lia Lqa List.
From Stdlib Require Import Sorted Permutation.
Import ListNotations.

Set Implicit Arguments.

(* ================================================================== *)
(** * Floats *)

Inductive pyfloat : Type :=
| Fin (q : Q)
| NaN
| PInf
| NInf.

Definition Qlt_bool (a b : Q) : bool := negb (Qle_bool b a).

Definition is_nan (x : pyfloat) : bool :=
  match x with NaN => true | _ => false end.

Definition is_finite (x : pyfloat) : bool :=
  match x with Fin _ => true | _ => false end.

(** [x == 0.0]. *)
Definition is_zero (x : pyfloat) : bool :=
  match x with Fin q => Qeq_bool q 0 | _ => false end.

(** Unary minus. *)
Definition fneg (x : pyfloat) : pyfloat :=
  match x with
  | Fin q => Fin (- q)
  | NaN => NaN
  | PInf => NInf
  | NInf => PInf
  end.

Definition fadd (x y : pyfloat) : pyfloat :=
  match x, y with
  | NaN, _ | _, NaN => NaN
  | Fin a, Fin b => Fin (a + b)
  | PInf, NInf | NInf, PInf => NaN
  | PInf, _ | _, PInf => PInf
  | NInf, _ | _, NInf => NInf
  end.

Definition fsub (x y : pyfloat) : pyfloat := fadd x (fneg y).

(** Sign of a float that is not NaN: -1, 0 or 1. *)
Definition fsign (x : pyfloat) : Z :=
  match x with
  | Fin q => Z.sgn (Qnum q)
  | PInf => 1
  | NInf => -1
  | NaN => 0
  end.

Definition inf_of_sign (s : Z) : pyfloat :=
  if (s <? 0)%Z then NInf else if (0 <? s)%Z then PInf else NaN.

Definition fmul (x y : pyfloat) : pyfloat :=
  match x, y with
  | NaN, _ | _, NaN => NaN
  | Fin a, Fin b => Fin (a * b)
  | _, _ => inf_of_sign (fsign x * fsign y)
  end.

(** numpy division: a zero divisor gives NaN (0/0) or an infinity, it does
    not raise. *)
Definition fdiv (x y : pyfloat) : pyfloat :=
  match x, y with
  | NaN, _ | _, NaN => NaN
  | Fin a, Fin b =>
      if Qeq_bool b 0 then inf_of_sign (Z.sgn (Qnum a)) else Fin (a / b)
  | Fin _, _ => Fin 0
  | _, Fin b => if Qlt_bool b 0 then fneg x else x
  | _, _ => NaN
  end.

(** Comparisons: every comparison with NaN is false. *)
Definition flt (x y : pyfloat) : bool :=
  match x, y with
  | NaN, _ | _, NaN => false
  | Fin a, Fin b => Qlt_bool a b
  | NInf, NInf => false
  | NInf, _ => true
  | _, PInf => negb (match x with PInf => true | _ => false end)
  | _, _ => false
  end.

Definition fle (x y : pyfloat) : bool :=
  match x, y with
  | NaN, _ | _, NaN => false
  | Fin a, Fin b => Qle_bool a b
  | NInf, _ => true
  | _, PInf => true
  | _, _ => false
  end.

Definition fgt (x y : pyfloat) : bool := flt y x.
Definition fge (x y : pyfloat) : bool := fle y x.

(** Square root of a non-negative rational, rounded down to a multiple of
    [2^-52 / den]; it is exact on squares, in particular on 0. *)
Definition sqrtQ (q : Q) : Q :=
  Qmake (Z.sqrt (Qnum q * Zpos (Qden q) * 2 ^ 104))
        (Qden q * 2 ^ 52)%positive.

Definition fsqrt (x : pyfloat) : pyfloat :=
  match x with
  | Fin q => if Qlt_bool q 0 then NaN else Fin (sqrtQ q)
  | PInf => PInf
  | _ => NaN
  end.

(* ================================================================== *)
(** * pandas reductions (all with the default [skipna=True]) *)

Definition dropna (xs : list pyfloat) : list pyfloat :=
  filter (fun x => negb (is_nan x)) xs.

(** One step of a NaN-skipping sum. *)
Definition nanadd (acc x : pyfloat) : pyfloat :=
  if is_nan x then acc else fadd acc x.

(** [Series.sum()]. *)
Definition series_sum (xs : list pyfloat) : pyfloat :=
  fold_left nanadd xs (Fin 0).

Definition count (xs : list pyfloat) : nat := length (dropna xs).

Definition Qnat (n : nat) : Q := inject_Z (Z.of_nat n).

(** [Series.mean()]: NaN on a series without a valid value. *)
Definition series_mean (xs : list pyfloat) : pyfloat :=
  match count xs with
  | O => NaN
  | n => fdiv (series_sum xs) (Fin (Qnat n))
  end.

(** [Series.std()]: sample standard deviation ([ddof=1]), NaN when fewer
    than two valid values. *)
Definition series_std (xs : list pyfloat) : pyfloat :=
  match count xs with
  | O | S O => NaN
  | n =>
      let m := series_mean xs in
      let sq := map (fun x => let d := fsub x m in fmul d d) (dropna xs) in
      fsqrt (fdiv (series_sum sq) (Fin (Qnat (n - 1))))
  end.

Definition fmax2 (a b : pyfloat) : pyfloat := if flt a b then b else a.
Definition fmin2 (a b : pyfloat) : pyfloat := if flt b a then b else a.

(** [Series.max()] / [Series.min()]. *)
Definition series_max (xs : list pyfloat) : pyfloat :=
  match dropna xs with
  | [] => NaN
  | x :: r => fold_left fmax2 r x
  end.

Definition series_min (xs : list pyfloat) : pyfloat :=
  match dropna xs with
  | [] => NaN
  | x :: r => fold_left fmin2 r x
  end.

(** [Series.diff()]: the first entry has no predecessor and is NaN. *)
Fixpoint diff_from (prev : pyfloat) (xs : list pyfloat) : list pyfloat :=
  match xs with
  | [] => []
  | x :: r => fsub x prev :: diff_from x r
  end.

Definition diff (xs : list pyfloat) : list pyfloat :=
  match xs with
  | [] => []
  | x :: r => NaN :: diff_from x r
  end.

(** [Series.clip(lower=lo)]: NaN stays NaN. *)
Definition clip_lower (lo : pyfloat) (x : pyfloat) : pyfloat :=
  if flt x lo then lo else x.

(** A series indexed by integers (dates as day numbers, hours, week days),
    kept sorted by index as [groupby] returns it. *)
Definition series : Type := list (Z * pyfloat).

Definition values (s : series) : list pyfloat := map snd s.
Definition index (s : series) : list Z := map fst s.

(** Adds [v] to the group of key [k], creating the group at its sorted
    position when it is new. *)
Fixpoint group_add (k : Z) (v : pyfloat) (acc : series) : series :=
  match acc with
  | [] => [(k, nanadd (Fin 0) v)]
  | (k', s) :: rest =>
      if (k <? k')%Z then (k, nanadd (Fin 0) v) :: acc
      else if (k =? k')%Z then (k', nanadd s v) :: rest
      else (k', s) :: group_add k v rest
  end.

(** [frame.groupby(key)[col].sum()]. *)
Definition groupby_sum {R : Type} (key : R -> Z) (col : R -> pyfloat)
    (frame : list R) : series :=
  fold_left (fun acc r => group_add (key r) (col r) acc) frame [].

(** [Series.idxmax()]: index of the first maximal valid value; [None]
    where pandas has no valid value to pick (it raises ValueError). *)
Fixpoint idxmax_from (bk : Z) (bv : pyfloat) (s : series) : Z :=
  match s with
  | [] => bk
  | (k, v) :: rest =>
      if flt bv v then idxmax_from k v rest else idxmax_from bk bv rest
  end.

Fixpoint idxmax (s : series) : option Z :=
  match s with
  | [] => None
  | (k, v) :: rest =>
      if is_nan v then idxmax rest else Some (idxmax_from k v rest)
  end.

(* ================================================================== *)
(** * The data frame of readings *)

(** Timestamps are seconds since 1970-01-01 00:00 (a Thursday). *)
Definition dt_date (ts : Z) : Z := (ts / 86400)%Z.
Definition dt_hour (ts : Z) : Z := ((ts mod 86400) / 3600)%Z.
Definition dt_dayofweek (ts : Z) : Z := ((ts / 86400 + 3) mod 7)%Z.

Record Row : Type := mkRow {
  timestamp : Z;
  water_level_percent : pyfloat;
  volume_ml : pyfloat;
  user_id : string;
  device_id : string;
  consumption_ml : pyfloat;
  is_drinking_event : bool;
  date : Z;
  daily_consumption : pyfloat
}.

Definition DataFrame : Type := list Row.

(** [s[-n:]]: the last [n] characters, the whole string when it is
    shorter. *)
Definition last_chars (n : nat) (s : string) : string :=
  substring (String.length s - n) n s.

(** [frame.groupby('date')[col].cumsum()]: running per-date sum in row
    order; a NaN entry stays NaN and is skipped by the running sum. *)
Fixpoint group_cumsum (acc : series) (keys : list Z) (col : list pyfloat)
    : list pyfloat :=
  match keys, col with
  | k :: keys', v :: col' =>
      let acc' := group_add k v acc in
      let run := match find (fun kv => (fst kv =? k)%Z) acc' with
                 | Some kv => snd kv
                 | None => NaN
                 end in
      (if is_nan v then NaN else run) :: group_cumsum acc' keys' col'
  | _, _ => []
  end.

(** [-data['volume_ml'].diff().clip(lower=0)]: the unary minus binds
    weaker than the attribute-and-call chain, so it negates the clipped
    differences. *)
Definition consumption_column (volumes : list pyfloat) : list pyfloat :=
  map fneg (map (clip_lower (Fin 0)) (diff volumes)).

(** The part of [_generate_simulated_data] that follows the random walk:
    from the timestamps and the simulated [water_levels] to the frame.
    The random walk itself (clock, seeded generator) is the data source
    and stays outside. *)
Definition _generate_simulated_data (uid : string) (timestamps : list Z)
    (water_levels : list pyfloat) : DataFrame :=
  (* volumes = [level * 10 for level in water_levels] *)
  let volumes := map (fun level => fmul level (Fin 10)) water_levels in
  (* data['consumption_ml'] = -data['volume_ml'].diff().clip(lower=0) *)
  let consumption := consumption_column volumes in
  (* data['is_drinking_event'] = data['consumption_ml'] > 50 *)
  let drinking := map (fun c => fgt c (Fin 50)) consumption in
  let dates := map dt_date timestamps in
  let daily := group_cumsum [] dates consumption in
  (* 'device_id': f'DEVICE_{user_id[-3:]}' *)
  let device := ("DEVICE_" ++ last_chars 3 uid)%string in
  map (fun '(ts, (lvl, (vol, (c, (ev, (d, dc)))))) =>
         mkRow ts lvl vol uid device c ev d dc)
      (combine timestamps
        (combine water_levels
          (combine volumes
            (combine consumption
              (combine drinking
                (combine dates daily)))))).

(* ================================================================== *)
(** * Exceptions and the monad of the dashboard's methods *)

(** The exceptions the embedded code can meet.  [KeyboardInterrupt] and
    [SystemExit] are not subclasses of [Exception]: a bare [except:]
    catches them, [except Exception] does not. *)
Inductive exn : Type :=
| ValueError
| IndexError
| LinAlgError
| RuntimeError
| OverflowError
| OutOfBoundsDatetime
| KeyboardInterrupt
| SystemExit.

Definition is_Exception (e : exn) : bool :=
  match e with
  | KeyboardInterrupt | SystemExit => false
  | _ => true
  end.

Inductive result (A : Type) : Type :=
| Ok (a : A)
| Err (e : exn).

Arguments Ok {A} a.
Arguments Err {A} e.

(** A method of the dashboard: it reads and may update [self] and either
    returns or raises. *)
Definition Py (S A : Type) : Type := S -> result A * S.

Definition ret {S A : Type} (a : A) : Py S A := fun s => (Ok a, s).

Definition raise {S A : Type} (e : exn) : Py S A := fun s => (Err e, s).

Definition bind {S A B : Type} (m : Py S A) (k : A -> Py S B) : Py S B :=
  fun s =>
    match m s with
    | (Ok a, s') => k a s'
    | (Err e, s') => (Err e, s')
    end.

(** A library call that does not touch [self]. *)
Definition call {S A : Type} (r : result A) : Py S A := fun s => (r, s).

(** [try: m  except: h] (bare except: every exception is caught). *)
Definition try_except {S A : Type} (m : Py S A) (h : exn -> Py S A)
    : Py S A :=
  fun s =>
    match m s with
    | (Ok a, s') => (Ok a, s')
    | (Err e, s') => h e s'
    end.

(** [try: m  except Exception as e: h e]. *)
Definition try_except_Exception {S A : Type} (m : Py S A)
    (h : exn -> Py S A) : Py S A :=
  fun s =>
    match m s with
    | (Ok a, s') => (Ok a, s')
    | (Err e, s') => if is_Exception e then h e s' else (Err e, s')
    end.

Declare Scope py_scope.
Delimit Scope py_scope with py.
Notation "x <- m ;; k" := (bind m (fun x => k))
  (at level 61, m at next level, right associativity) : py_scope.

(* ================================================================== *)
(** * Pattern analysis (shared by the two versions) *)

(** The populated dictionary [analyze_user_patterns] returns.  The empty
    dictionary [{}] is [None] of [option Analysis]. *)
Record Analysis : Type := mkAnalysis {
  analysis_user_id : string;
  total_consumption_ml : pyfloat;
  avg_daily_consumption_ml : pyfloat;
  std_daily_consumption_ml : pyfloat;
  max_daily_consumption_ml : pyfloat;
  min_daily_consumption_ml : pyfloat;
  avg_drinking_events_per_day : pyfloat;
  peak_hydration_hour : Z;
  peak_hydration_day : Z;
  consistency_score : pyfloat;
  days_analyzed : nat
}.

Definition float_of_bool (b : bool) : pyfloat :=
  if b then Fin 1 else Fin 0.

(** [s.idxmax()] as a call that may raise. *)
Definition idxmax_call (s : series) : result Z :=
  match idxmax s with
  | Some k => Ok k
  | None => Err ValueError
  end.

(** [daily_stats['consumption_ml']]: consumption summed per date. *)
Definition daily_totals (data : DataFrame) : series :=
  groupby_sum date consumption_ml data.

Definition analyze_user_patterns {S : Type} (uid : string)
    (data : DataFrame) : Py S (option Analysis) :=
  match data with
  | [] =>
      (* if data.empty: return {} *)
      ret None
  | _ =>
      let daily_stats := daily_totals data in
      let drinking_events :=
        groupby_sum date (fun r => float_of_bool (is_drinking_event r)) data in
      let hourly_pattern :=
        groupby_sum (fun r => dt_hour (timestamp r)) consumption_ml data in
      let weekly_pattern :=
        groupby_sum (fun r => dt_dayofweek (timestamp r)) consumption_ml data in
      (peak_hour <- call (idxmax_call hourly_pattern) ;;
       peak_day <- call (idxmax_call weekly_pattern) ;;
       ret (Some {|
         analysis_user_id := uid;
         total_consumption_ml := series_sum (map consumption_ml data);
         avg_daily_consumption_ml := series_mean (values daily_stats);
         std_daily_consumption_ml := series_std (values daily_stats);
         max_daily_consumption_ml := series_max (values daily_stats);
         min_daily_consumption_ml := series_min (values daily_stats);
         avg_drinking_events_per_day := series_mean (values drinking_events);
         peak_hydration_hour := peak_hour;
         peak_hydration_day := peak_day;
         consistency_score :=
           fsub (Fin 1) (fdiv (series_std (values daily_stats))
                              (series_mean (values daily_stats)));
         days_analyzed := length daily_stats
       |}))%py
  end.

(* ================================================================== *)
(** * Forecast frames and recommendations (shared data model) *)

Record ForecastPoint : Type := mkForecastPoint {
  forecast_date : Z;
  forecasted_consumption_ml : pyfloat;
  lower_bound : pyfloat;
  upper_bound : pyfloat
}.

(** A forecast frame; [pd.DataFrame()] is the empty list and [.empty] is
    emptiness of the list. *)
Definition Forecast : Type := list ForecastPoint.

(** [(a + b)] on two series: pandas aligns on the index (outer join of
    two increasing indexes) and gives NaN where one side has no entry. *)
Fixpoint series_add (a b : series) : series :=
  match a with
  | [] => map (fun kv => (fst kv, NaN)) b
  | (ka, va) :: a' =>
      (fix against (b : series) : series :=
         match b with
         | [] => map (fun kv => (fst kv, NaN)) a
         | (kb, vb) :: b' =>
             if (ka <? kb)%Z then (ka, NaN) :: series_add a' b
             else if (ka =? kb)%Z then (ka, fadd va vb) :: series_add a' b'
             else (kb, NaN) :: against b'
         end) b
  end.

Definition series_div (s : series) (d : pyfloat) : series :=
  map (fun kv => (fst kv, fdiv (snd kv) d)) s.

(** pandas timestamps are 64-bit counts of nanoseconds: the midnights
    they can hold run from 1677-09-22 to 2262-04-11, as day numbers. *)
Definition TIMESTAMP_MIN_DAY : Z := (-106751)%Z.
Definition TIMESTAMP_MAX_DAY : Z := 106751%Z.

Definition in_timestamp_range (d : Z) : bool :=
  ((TIMESTAMP_MIN_DAY <=? d) && (d <=? TIMESTAMP_MAX_DAY))%Z.

(** [pd.to_datetime(s.index)]: raises on a date no timestamp can hold. *)
Definition to_datetime (s : series) : result series :=
  if forallb (fun kv => in_timestamp_range (fst kv)) s then Ok s
  else Err OutOfBoundsDatetime.

(** [t + timedelta(days=n)] on a timestamp: it raises when the sum is
    none (an [OverflowError] in some pandas releases: an [Exception] as
    well, which is all the handlers of the code look at). *)
Definition add_days (d : Z) (n : Z) : result Z :=
  if in_timestamp_range (d + n) then Ok (d + n)%Z
  else Err OutOfBoundsDatetime.

(** [pd.date_range(start=start, periods=n)] at daily frequency: a
    negative count is refused, and so is a range whose last day lies past
    the largest timestamp. *)
Definition date_range (start : Z) (periods : Z) : result (list Z) :=
  if (periods <? 0)%Z then Err ValueError
  else if ((0 <? periods) && (TIMESTAMP_MAX_DAY <? start + (periods - 1)))%Z
  then Err OutOfBoundsDatetime
  else Ok (map (fun i => (start + Z.of_nat i)%Z) (seq 0 (Z.to_nat periods))).

(** [s.index[-1]]. *)
Definition index_last (s : series) : result Z :=
  match rev (index s) with
  | k :: _ => Ok k
  | [] => Err IndexError
  end.

(** [pd.Series(vals, index=idx)]: the lengths have to agree. *)
Definition make_series (vals : list pyfloat) (idx : list Z) : result series :=
  if Nat.eqb (length vals) (length idx) then Ok (combine idx vals)
  else Err ValueError.

(** The flat-mean fallback series:
    [pd.Series([daily.mean()] * forecast_days,
               index=pd.date_range(start=daily.index[-1] + timedelta(days=1),
                                   periods=forecast_days))]. *)
Definition flat_mean_series {S : Type} (daily_consumption : series)
    (forecast_days : Z) : Py S series :=
  (let vals := repeat (series_mean (values daily_consumption))
                      (Z.to_nat forecast_days) in
   last_date <- call (index_last daily_consumption) ;;
   start <- call (add_days last_date 1) ;;
   idx <- call (date_range start forecast_days) ;;
   call (make_series vals idx))%py.

(** [pd.DataFrame({'date': fv.index, 'forecasted_consumption_ml': fv.values,
     'lower_bound': fv.values * 0.8, 'upper_bound': fv.values * 1.2})]. *)
Definition forecast_frame (forecast_values : series) : Forecast :=
  map (fun kv =>
         {| forecast_date := fst kv;
            forecasted_consumption_ml := snd kv;
            lower_bound := fmul (snd kv) (Fin (8 # 10));
            upper_bound := fmul (snd kv) (Fin (12 # 10)) |})
      forecast_values.

Inductive Priority : Type := HIGH | MEDIUM | LOW | INFO.

(** The message templates with the numbers they interpolate; the wording
    differs between the two versions and is not modelled. *)
Inductive Message : Type :=
| MsgIncreaseIntake (current_avg deficit : pyfloat)
| MsgMinorAdjustment (deficit : pyfloat)
| MsgGreatJob
| MsgImproveConsistency
| MsgTimingOptimization
| MsgProjectedShortfall (deficit : pyfloat).

Record Recommendation : Type := mkRecommendation {
  priority : Priority;
  category : string;
  message : Message;
  action : string
}.

(** The populated dictionary [generate_recommendations] returns; [{}] is
    [None] of [option RecommendationSet]. *)
Record RecommendationSet : Type := mkRecommendationSet {
  rs_user_id : string;
  current_daily_avg_ml : pyfloat;
  recommended_daily_ml : pyfloat;
  performance_ratio : pyfloat;
  meeting_goal : bool;
  recommendations : list Recommendation
}.

Definition RECOMMENDED_DAILY_ML : pyfloat := Fin 2000.

(** The if / elif / else that appends the intake recommendation. *)
Definition intake_recommendation (current_avg ratio : pyfloat)
    : Recommendation :=
  if flt ratio (Fin (7 # 10)) then
    {| priority := HIGH; category := "Increase Intake";
       message := MsgIncreaseIntake current_avg
                    (fsub RECOMMENDED_DAILY_ML current_avg);
       action := "Set reminders every 2 hours to drink water" |}
  else if flt ratio (Fin (9 # 10)) then
    {| priority := MEDIUM; category := "Minor Adjustment";
       message := MsgMinorAdjustment (fsub RECOMMENDED_DAILY_ML current_avg);
       action := "Add one extra glass of water with each meal" |}
  else
    {| priority := INFO; category := "Great Job!";
       message := MsgGreatJob;
       action := "Maintain current hydration routine" |}.

Definition consistency_recommendation : Recommendation :=
  {| priority := MEDIUM; category := "Improve Consistency";
     message := MsgImproveConsistency;
     action := "Set fixed hydration times throughout the day" |}.

Definition timing_recommendation : Recommendation :=
  {| priority := LOW; category := "Timing Optimization";
     message := MsgTimingOptimization;
     action := "Start hydrating earlier in the day" |}.

Definition shortfall_recommendation (avg_forecast : pyfloat)
    : Recommendation :=
  {| priority := MEDIUM; category := "Projected Shortfall";
     message := MsgProjectedShortfall
                  (fsub RECOMMENDED_DAILY_ML avg_forecast);
     action := "Preemptively increase water intake" |}.

(** The rules that follow the intake rule, each appending at most one
    entry to [recommendations['recommendations']]. *)
Definition append_consistency (a : Analysis) (recs : list Recommendation)
    : list Recommendation :=
  if flt (consistency_score a) (Fin (7 # 10))
  then recs ++ [consistency_recommendation] else recs.

Definition append_timing (a : Analysis) (recs : list Recommendation)
    : list Recommendation :=
  let peak_hour := peak_hydration_hour a in
  if (18 <? peak_hour)%Z then recs ++ [timing_recommendation] else recs.

Definition append_shortfall (forecast : Forecast)
    (recs : list Recommendation) : list Recommendation :=
  match forecast with
  | [] => recs
  | _ =>
      let avg_forecast :=
        series_mean (map forecasted_consumption_ml forecast) in
      if flt avg_forecast (fmul RECOMMENDED_DAILY_ML (Fin (8 # 10)))
      then recs ++ [shortfall_recommendation avg_forecast] else recs
  end.

(* ================================================================== *)
(** * The Firebase dashboard *)

Module Firebase.

Record Dashboard : Type := mkDashboard {
  users_data : list (string * DataFrame);
  devices_data : list (string * DataFrame);
  forecasts : list (string * Forecast)
}.

Section Forecaster.

(** The two statsmodels fits, each with its [forecast(steps=...)]:
    [ExponentialSmoothing(daily, seasonal_periods=7, trend='add',
    seasonal='add').fit().forecast(steps)] and
    [ARIMA(daily, order=(1, 1, 1)).fit().forecast(steps)].  Either may
    raise. *)
Variable holt_winters : series -> Z -> result series.
Variable arima : series -> Z -> result series.

(** [try: forecast_x = fit(...)  except: forecast_x = None]. *)
Definition fit_or_None (fit : series -> Z -> result series)
    (daily_consumption : series) (forecast_days : Z)
    : Py Dashboard (option series) :=
  try_except
    (f <- call (fit daily_consumption forecast_days) ;; ret (Some f))%py
    (fun _ => ret None).

(** The ensemble: mean of both, the one that fitted, or the flat mean. *)
Definition combine_forecasts (daily_consumption : series)
    (forecast_days : Z) (forecast_hw forecast_arima : option series)
    : Py Dashboard series :=
  match forecast_hw, forecast_arima with
  | Some hw, Some ar => ret (series_div (series_add hw ar) (Fin 2))
  | Some hw, None => ret hw
  | None, Some ar => ret ar
  | None, None => flat_mean_series daily_consumption forecast_days
  end.

(** The body of the outer [try]. *)
Definition forecast_body (data : DataFrame) (forecast_days : Z)
    : Py Dashboard Forecast :=
  (* daily_consumption = data.groupby('date')['consumption_ml'].sum()
     daily_consumption.index = pd.to_datetime(daily_consumption.index) *)
  (daily_consumption <- call (to_datetime (daily_totals data)) ;;
   forecast_hw <- fit_or_None holt_winters daily_consumption
                    forecast_days ;;
   forecast_arima <- fit_or_None arima daily_consumption
                       forecast_days ;;
   forecast_values <- combine_forecasts daily_consumption forecast_days
                        forecast_hw forecast_arima ;;
   ret (forecast_frame forecast_values))%py.

Definition forecast_consumption (data : DataFrame) (forecast_days : Z)
    : Py Dashboard Forecast :=
  if (Z.of_nat (length data) <? 48)%Z then
    (* Need at least 2 days of data *)
    ret []
  else
    try_except_Exception (forecast_body data forecast_days)
      (fun _ => ret []).

End Forecaster.

Definition generate_recommendations (analysis : option Analysis)
    (forecast : Forecast) : Py Dashboard (option RecommendationSet) :=
  match analysis, forecast with
  | None, _ | _, [] =>
      (* if not analysis or forecast.empty: return {} *)
      ret None
  | Some a, _ =>
      let current_avg := avg_daily_consumption_ml a in
      let ratio := fdiv current_avg RECOMMENDED_DAILY_ML in
      let recs := [] ++ [intake_recommendation current_avg ratio] in
      let recs := append_consistency a recs in
      let recs := append_timing a recs in
      let recs := append_shortfall forecast recs in
      ret (Some {|
        rs_user_id := analysis_user_id a;
        current_daily_avg_ml := current_avg;
        recommended_daily_ml := RECOMMENDED_DAILY_ML;
        performance_ratio := ratio;
        meeting_goal := fge ratio (Fin (9 # 10));
        recommendations := recs
      |})
  end.

End Firebase.

(* ================================================================== *)
(** * The Windows-compatible dashboard *)

Module Windows.

Record Dashboard : Type := mkDashboard {
  output_dir : string;
  users_data : list (string * DataFrame);
  forecasts : list (string * Forecast)
}.

Section Forecaster.

(** Whether the statsmodels import succeeded, and its ARIMA fit. *)
Variable HAS_STATSMODELS : bool.
Variable arima : series -> Z -> result series.

Definition forecast_body (data : DataFrame) (forecast_days : Z)
    : Py Dashboard Forecast :=
  (daily_consumption <- call (to_datetime (daily_totals data)) ;;
   forecast_values <-
     (if HAS_STATSMODELS then
        try_except (call (arima daily_consumption forecast_days))
          (fun _ => flat_mean_series daily_consumption forecast_days)
      else flat_mean_series daily_consumption forecast_days) ;;
   ret (forecast_frame forecast_values))%py.

Definition forecast_consumption (data : DataFrame) (forecast_days : Z)
    : Py Dashboard Forecast :=
  if (Z.of_nat (length data) <? 48)%Z then ret []
  else
    try_except_Exception (forecast_body data forecast_days)
      (fun _ => ret []).

End Forecaster.

(** This version has neither the timing nor the forecast rule, and does
    not look at [forecast]. *)
Definition generate_recommendations (analysis : option Analysis)
    (forecast : Forecast) : Py Dashboard (option RecommendationSet) :=
  match analysis with
  | None =>
      (* if not analysis: return {} *)
      ret None
  | Some a =>
      let current_avg := avg_daily_consumption_ml a in
      let ratio := fdiv current_avg RECOMMENDED_DAILY_ML in
      let recs := [] ++ [intake_recommendation current_avg ratio] in
      let recs := append_consistency a recs in
      ret (Some {|
        rs_user_id := analysis_user_id a;
        current_daily_avg_ml := current_avg;
        recommended_daily_ml := RECOMMENDED_DAILY_ML;
        performance_ratio := ratio;
        meeting_goal := fge ratio (Fin (9 # 10));
        recommendations := recs
      |})
  end.

End Windows.


(* ================================================================== *)
(** * Vocabulary of the properties *)

(** A float that is not an infinity (a finite value or NaN): what a
    sensor reading, or a difference of two, can be. *)
Definition no_inf (x : pyfloat) : bool :=
  match x with PInf | NInf => false | _ => true end.

(** Every consumption entry of the frame is finite or NaN. *)
Definition finite_readings (data : DataFrame) : Prop :=
  Forall (fun r => no_inf (consumption_ml r) = true) data.

(** Every value of the series is finite. *)
Definition all_finite (s : series) : Prop :=
  Forall (fun kv => is_finite (snd kv) = true) s.

(** Every date of the frame is a date a timestamp can hold, and so are
    the [horizon] days after it (the day after it when the horizon is 0). *)
Definition within_timestamp_range (data : DataFrame) (horizon : Z) : bool :=
  forallb (fun r => ((TIMESTAMP_MIN_DAY <=? date r)
                     && (date r + Z.max 1 horizon <=? TIMESTAMP_MAX_DAY))%Z)
          data.

(** The bounds of a forecast point are the fixed 20% band. *)
Definition band_ok (p : ForecastPoint) : Prop :=
  lower_bound p = fmul (forecasted_consumption_ml p) (Fin (8 # 10))
  /\ upper_bound p = fmul (forecasted_consumption_ml p) (Fin (12 # 10)).

(** The tiered ensemble policy in the words of the specification, on the
    point estimates alone: the mean of both fits, the one that succeeded,
    or the historical mean repeated over the horizon. *)
Definition ensemble_policy (seasonal autoregressive : option (list pyfloat))
    (historical_mean : pyfloat) (horizon : nat) : list pyfloat :=
  match seasonal, autoregressive with
  | Some hw, Some ar =>
      map (fun p => fdiv (fadd (fst p) (snd p)) (Fin 2)) (combine hw ar)
  | Some hw, None => hw
  | None, Some ar => ar
  | None, None => repeat historical_mean horizon
  end.

(** What a fit contributes to the policy: its values, or nothing when it
    raised. *)
Definition fitted_values (r : result series) : option (list pyfloat) :=
  match r with
  | Ok f => Some (values f)
  | Err _ => None
  end.

(** The [None]-or-forecast a fit leaves behind its [try]. *)
Definition optional (r : result series) : option series :=
  match r with Ok f => Some f | Err _ => None end.

(** The recommendation sequence in the words of the specification: the
    four rules in their fixed order, each conditional rule contributing
    one entry when its condition holds and none otherwise. *)
Definition rule_sequence (a : Analysis) (forecast : Forecast)
    : list Recommendation :=
  let avg := avg_daily_consumption_ml a in
  let avg_forecast := series_mean (map forecasted_consumption_ml forecast) in
  [intake_recommendation avg (fdiv avg (Fin 2000))]
  ++ (if flt (consistency_score a) (Fin (7 # 10))
      then [consistency_recommendation] else [])
  ++ (if (18 <? peak_hydration_hour a)%Z
      then [timing_recommendation] else [])
  ++ (if negb (Nat.eqb (length forecast) 0)
         && flt avg_forecast (Fin (2000 * (8 # 10)))
      then [shortfall_recommendation avg_forecast] else []).

(** The order the claim describes, for a version that may lack some of
    the conditional rules: intake first, then at most one entry of each
    conditional rule, in this order, each only when its condition holds. *)
Definition in_rule_order (a : Analysis) (forecast : Forecast)
    (recs : list Recommendation) : Prop :=
  let avg := avg_daily_consumption_ml a in
  let avg_forecast := series_mean (map forecasted_consumption_ml forecast) in
  exists c t f : list Recommendation,
    recs = [intake_recommendation avg (fdiv avg (Fin 2000))] ++ c ++ t ++ f
    /\ (c = [] \/ (c = [consistency_recommendation]
                   /\ flt (consistency_score a) (Fin (7 # 10)) = true))
    /\ (t = [] \/ (t = [timing_recommendation]
                   /\ (18 < peak_hydration_hour a)%Z))
    /\ (f = [] \/ (f = [shortfall_recommendation avg_forecast]
                   /\ forecast <> []
                   /\ flt avg_forecast (Fin (2000 * (8 # 10))) = true)).

(** Categories of the intake rule. *)
Definition is_intake (r : Recommendation) : bool :=
  (String.eqb (category r) "Increase Intake"
   || String.eqb (category r) "Minor Adjustment"
   || String.eqb (category r) "Great Job!")%bool.

(** The (priority, category) pairs of the intake recommendations in a
    sequence. *)
Definition intake_fired (recs : list Recommendation)
    : list (Priority * string) :=
  map (fun r => (priority r, category r)) (filter is_intake recs).

(** Exactly one intake recommendation fired, and it is the one the
    thresholds on [ratio] select. *)
Definition intake_verdict (ratio : pyfloat) (recs : list Recommendation)
    : Prop :=
  exists (p : Priority) (c : string),
    intake_fired recs = [(p, c)]
    /\ (p = HIGH /\ c = "Increase Intake"%string
        <-> flt ratio (Fin (7 # 10)) = true)
    /\ (p = MEDIUM /\ c = "Minor Adjustment"%string
        <-> fle (Fin (7 # 10)) ratio = true
            /\ flt ratio (Fin (9 # 10)) = true)
    /\ (p = INFO /\ c = "Great Job!"%string
        <-> fge ratio (Fin (9 # 10)) = true).


(** ** Concrete inputs *)

(** 2023-11-15 00:00, a Wednesday. *)
Definition t0 : Z := 1700006400%Z.

Definition fb0 : Firebase.Dashboard := Firebase.mkDashboard [] [] [].
Definition win0 : Windows.Dashboard := Windows.mkDashboard "." [] [].

(** A fit that always raises, as the seasonal fit does on a series
    shorter than two seasonal periods. *)
Definition fit_fails (_ : series) (_ : Z) : result series := Err ValueError.

(** A fit that continues the series with the constant [v] on the [steps]
    days after its last date. *)
Definition fit_constant (v : pyfloat) (s : series) (steps : Z)
    : result series :=
  match index_last s with
  | Ok d =>
      match date_range (d + 1) steps with
      | Ok idx => Ok (map (fun k => (k, v)) idx)
      | Err e => Err e
      end
  | Err e => Err e
  end.

(** [n] readings every [step] seconds from [t0], the bottle untouched at
    100%. *)
Definition steady_frame (n : nat) (step : Z) : DataFrame :=
  _generate_simulated_data "USER_001"
    (map (fun i => (t0 + step * Z.of_nat i)%Z) (seq 0 n))
    (repeat (Fin 100) n).

(** One calendar day of half-hourly readings (00:00 to 23:30). *)
Definition one_day_frame : DataFrame := steady_frame 48 1800.

(** 47 readings two hours apart: almost four days of history. *)
Definition sparse_frame : DataFrame := steady_frame 47 7200.

(** Two readings on two consecutive days, nothing drunk. *)
Definition idle_frame : DataFrame := steady_frame 2 86400.

(** An analysis of a user below goal, irregular, drinking in the evening. *)
Definition evening_analysis : Analysis :=
  {| analysis_user_id := "USER_001";
     total_consumption_ml := Fin 8400;
     avg_daily_consumption_ml := Fin 1200;
     std_daily_consumption_ml := Fin 600;
     max_daily_consumption_ml := Fin 2000;
     min_daily_consumption_ml := Fin 400;
     avg_drinking_events_per_day := Fin 8;
     peak_hydration_hour := 20;
     peak_hydration_day := 2;
     consistency_score := Fin (1 # 2);
     days_analyzed := 7 |}.


(** The same user meeting the goal. *)
Definition good_analysis : Analysis :=
  {| analysis_user_id := "USER_001";
     total_consumption_ml := Fin 14000;
     avg_daily_consumption_ml := Fin 2000;
     std_daily_consumption_ml := Fin 1000;
     max_daily_consumption_ml := Fin 3000;
     min_daily_consumption_ml := Fin 1000;
     avg_drinking_events_per_day := Fin 8;
     peak_hydration_hour := 20;
     peak_hydration_day := 2;
     consistency_score := Fin (1 # 2);
     days_analyzed := 7 |}.

(** A one-week forecast at a constant level. *)
Definition flat_forecast (v : Q) : Forecast :=
  forecast_frame (map (fun i => ((19690 + Z.of_nat i)%Z, Fin v)) (seq 0 7)).


(* ================================================================== *)
(** * The simulated data source *)

(** A [datetime] runs from year 1 to year 9999, a [timedelta] holds at
    most 999999999 days, and a pandas timestamp is a 64-bit count of
    nanoseconds (1677-09-21 to 2262-04-11).  All in whole seconds since
    1970. *)
Definition DATETIME_MIN : Z := (-62135596800)%Z.
Definition DATETIME_MAX : Z := 253402300799%Z.
Definition TIMEDELTA_MAX_DAYS : Z := 999999999%Z.
Definition TIMESTAMP_MIN : Z := (-9223372036)%Z.
Definition TIMESTAMP_MAX : Z := 9223372036%Z.

(** [timedelta(days=days)], in seconds. *)
Definition timedelta_days (days : Z) : result Z :=
  if (Z.abs days <=? TIMEDELTA_MAX_DAYS)%Z then Ok (86400 * days)%Z
  else Err OverflowError.

(** [t - delta] on a [datetime]. *)
Definition datetime_sub (t delta : Z) : result Z :=
  if ((DATETIME_MIN <=? t - delta) && (t - delta <=? DATETIME_MAX))%Z
  then Ok (t - delta)%Z
  else Err OverflowError.

(** [pd.Timestamp(t)]. *)
Definition to_timestamp (t : Z) : result Z :=
  if ((TIMESTAMP_MIN <=? t) && (t <=? TIMESTAMP_MAX))%Z then Ok t
  else Err OutOfBoundsDatetime.

(** [pd.date_range(start=start_time, end=end_time, freq='30min')]: both
    ends have to be timestamps; both are kept, and the range is empty when
    the start lies after the end. *)
Definition half_hour_range (start_time end_time : Z) : result (list Z) :=
  match to_timestamp start_time, to_timestamp end_time with
  | Ok t, Ok e =>
      Ok (if (e <? t)%Z then []
          else map (fun i => (t + 1800 * Z.of_nat i)%Z)
                   (seq 0 (Z.to_nat ((e - t) / 1800) + 1)))
  | Err x, _ | _, Err x => Err x
  end.

(** The first lines of [_generate_simulated_data], [end_time] being what
    the clock gives:
    [start_time = end_time - timedelta(days=days)
     timestamps = pd.date_range(start=start_time, end=end_time,
                                freq='30min')]. *)
Definition sample_times (end_time : Z) (days : Z) : result (list Z) :=
  match timedelta_days days with
  | Ok delta =>
      match datetime_sub end_time delta with
      | Ok start_time => half_hour_range start_time end_time
      | Err x => Err x
      end
  | Err x => Err x
  end.

(** The window of [days] days that ends at [end_time] lies within the
    timestamp range. *)
Definition window_in_range (end_time : Z) (days : Z) : bool :=
  ((TIMESTAMP_MIN <=? end_time - 86400 * days)
   && (end_time - 86400 * days <=? TIMESTAMP_MAX)
   && (TIMESTAMP_MIN <=? end_time) && (end_time <=? TIMESTAMP_MAX))%Z.

(** The half hours of that window, from its start. *)
Definition half_hours (end_time : Z) (days : Z) : list Z :=
  let start_time := (end_time - 86400 * days)%Z in
  if (days <? 0)%Z then []
  else map (fun i => (start_time + 1800 * Z.of_nat i)%Z)
           (seq 0 (Z.to_nat (48 * days) + 1)).

(** [max(0, min(100, current_level))]. *)
Definition clamp_level (current_level : Q) : Q :=
  let m := if Qlt_bool current_level 100 then current_level else 100 in
  if Qlt_bool 0 m then m else 0.

(** One turn of the loop over [daily_pattern].  The generator is the
    stream [draws] of uniform draws in [0, 1) with the position of the
    next one; [np.random.uniform(50, 200)] is [50 + (200 - 50) * u] on the
    next draw [u], and the refill draw is only taken when the level is
    below 20. *)
Definition walk_step (draws : nat -> Q) (st : Q * nat) (pattern_val : Q)
    : Q * nat :=
  let '(current_level, pos) := st in
  (* if np.random.random() < pattern_val * 0.3: *)
  let drink := Qlt_bool (draws pos) (pattern_val * (3 # 10)) in
  let pos := S pos in
  let '(current_level, pos) :=
    if drink then
      let consumption := 50 + (200 - 50) * draws pos in
      (current_level - (consumption / 1000) * 100, S pos)
    else (current_level, pos) in
  (* if current_level < 20 and np.random.random() < 0.7: *)
  let '(current_level, pos) :=
    if Qlt_bool current_level 20 then
      if Qlt_bool (draws pos) (7 # 10) then (100, S pos)
      else (current_level, S pos)
    else (current_level, pos) in
  (clamp_level current_level, pos).

(** The loop: the levels appended to [water_levels]. *)
Fixpoint walk (draws : nat -> Q) (st : Q * nat) (daily_pattern : list Q)
    : list Q :=
  match daily_pattern with
  | [] => []
  | pattern_val :: rest =>
      let st' := walk_step draws st pattern_val in
      fst st' :: walk draws st' rest
  end.

(** What [_generate_simulated_data] builds from its timestamps:
    [pattern i] is the clipped daily pattern at point [i] (it carries the
    sine and the Gaussian noise) and [draws] are the uniform draws that
    follow. *)
Definition generated_frame (pattern : nat -> Q) (draws : nat -> Q)
    (uid : string) (timestamps : list Z) : DataFrame :=
  let n_points := length timestamps in
  let daily_pattern := map pattern (seq 0 n_points) in
  let water_levels := walk draws (100, O) daily_pattern in
  _generate_simulated_data uid timestamps (map Fin water_levels).

(** The whole of [_generate_simulated_data]: it raises when the
    timestamps cannot be made. *)
Definition simulated_frame (end_time : Z) (pattern : nat -> Q)
    (draws : nat -> Q) (uid : string) (days : Z) : result DataFrame :=
  match sample_times end_time days with
  | Ok timestamps => Ok (generated_frame pattern draws uid timestamps)
  | Err x => Err x
  end.

(** Consecutive levels: each one is a refill to 100 or the one before
    lowered by less than 20 points. *)
Fixpoint steps_from (prev : Q) (levels : list Q) : Prop :=
  match levels with
  | [] => True
  | l :: rest =>
      (l == 100 \/ (prev - 20 < l /\ l <= prev)) /\ steps_from l rest
  end.

(** The three other groupings of [analyze_user_patterns]. *)
Definition drinking_events (data : DataFrame) : series :=
  groupby_sum date (fun r => float_of_bool (is_drinking_event r)) data.

Definition hourly_pattern (data : DataFrame) : series :=
  groupby_sum (fun r => dt_hour (timestamp r)) consumption_ml data.

Definition weekly_pattern (data : DataFrame) : series :=
  groupby_sum (fun r => dt_dayofweek (timestamp r)) consumption_ml data.

(** The finite value of a float, 0 for the others. *)
Definition qval (x : pyfloat) : Q :=
  match x with Fin q => q | _ => 0 end.

(** Sum of the finite values of a list. *)
Definition qsum (xs : list pyfloat) : Q :=
  fold_right (fun x acc => qval x + acc) 0 xs.

(** Every water level is finite. *)
Definition finite_levels (water_levels : list pyfloat) : Prop :=
  Forall (fun l => is_finite l = true) water_levels.

(* ================================================================== *)
(** * The callers: [fetch_user_data], the loop of [main], the gauge *)

Module FirebaseApp.

(** [fetch_user_data]: the generation sits in a [try] whose handler
    returns the empty frame. *)
Definition fetch_user_data (end_time : Z) (pattern draws : nat -> Q)
    (uid : string) (days : Z) : Py Firebase.Dashboard DataFrame :=
  try_except_Exception
    (call (simulated_frame end_time pattern draws uid days))
    (fun _ => ret []).

Section Main.

Variable holt_winters : series -> Z -> result series.
Variable arima : series -> Z -> result series.

(** One turn of the loop of [main] up to the recommendations (the
    rendering that follows is outside): [None] is the [continue] on an
    empty frame. *)
Definition process_user (end_time : Z) (pattern draws : nat -> Q)
    (uid : string)
    : Py Firebase.Dashboard
         (option (option Analysis * Forecast * option RecommendationSet)) :=
  (data <- fetch_user_data end_time pattern draws uid 14 ;;
   match data with
   | [] => ret None
   | _ =>
       analysis <- analyze_user_patterns uid data ;;
       forecast <- Firebase.forecast_consumption holt_winters arima data 7 ;;
       recommendations <- Firebase.generate_recommendations analysis forecast ;;
       ret (Some (analysis, forecast, recommendations))
   end)%py.

End Main.

End FirebaseApp.

Module WindowsApp.

(** [fetch_user_data]: no handler here, what the generation raises goes
    on to the caller. *)
Definition fetch_user_data (end_time : Z) (pattern draws : nat -> Q)
    (uid : string) (days : Z) : Py Windows.Dashboard DataFrame :=
  call (simulated_frame end_time pattern draws uid days).

Section Main.

Variable HAS_STATSMODELS : bool.
Variable arima : series -> Z -> result series.

Definition process_user (end_time : Z) (pattern draws : nat -> Q)
    (uid : string)
    : Py Windows.Dashboard
         (option (option Analysis * Forecast * option RecommendationSet)) :=
  (data <- fetch_user_data end_time pattern draws uid 14 ;;
   match data with
   | [] => ret None
   | _ =>
       analysis <- analyze_user_patterns uid data ;;
       forecast <- Windows.forecast_consumption HAS_STATSMODELS arima data 7 ;;
       recommendations <- Windows.generate_recommendations analysis forecast ;;
       ret (Some (analysis, forecast, recommendations))
   end)%py.

End Main.

End WindowsApp.

(** The performance gauge of [visualize_dashboard]:
    [performance = analysis.get('avg_daily_consumption_ml', 0) / 2000;
     performance = min(performance, 1.5)]. *)
Definition gauge_performance (analysis : option Analysis) : pyfloat :=
  let avg := match analysis with
             | Some a => avg_daily_consumption_ml a
             | None => Fin 0
             end in
  let performance := fdiv avg (Fin 2000) in
  fmin2 performance (Fin (15 # 10)).

(** [color = '#4ECDC4' if performance >= 0.9 else '#FF6B6B']. *)
Definition gauge_color (performance : pyfloat) : string :=
  if fge performance (Fin (9 # 10)) then "#4ECDC4" else "#FF6B6B".

(** The band of a forecast point lies around its estimate: below and
    above it for an estimate that is not negative, the other way round for
    one that is not positive. *)
Definition band_ordered (p : ForecastPoint) : Prop :=
  let est := forecasted_consumption_ml p in
  (fle (Fin 0) est = true ->
     fle (lower_bound p) est = true /\ fle est (upper_bound p) = true)
  /\ (fle est (Fin 0) = true ->
        fle (upper_bound p) est = true /\ fle est (lower_bound p) = true).

(** A hand-made frame of a user who drinks 2000 ml on each of three days
    (the readings carry their consumption directly). *)
Definition reading (ts : Z) (c : Q) : Row :=
  {| timestamp := ts;
     water_level_percent := Fin 50;
     volume_ml := Fin 500;
     user_id := "USER_001";
     device_id := "DEVICE_001";
     consumption_ml := Fin c;
     is_drinking_event := fgt (Fin c) (Fin 50);
     date := dt_date ts;
     daily_consumption := Fin c |}.

Definition steady_drinker : DataFrame :=
  [reading (t0 + 28800) 1000; reading (t0 + 72000) 1000;
   reading (t0 + 86400 + 43200) 2000;
   reading (t0 + 172800 + 32400) 1500;
   reading (t0 + 172800 + 75600) 500]%Z.

(** A stream of draws and a pattern for the examples: every draw is 1/4
    and the pattern is 1, so each turn drinks 87.5 ml and the bottle is
    refilled as soon as it falls below 20%. *)
Definition quarter_draws (_ : nat) : Q := 1 # 4.
Definition full_pattern (_ : nat) : Q := 1.

(* ================================================================== *)
(** * Properties *)

(** ** Floats *)

Lemma Qlt_bool_iff (a b : Q) : Qlt_bool a b = true <-> a < b.
Proof.
  unfold Qlt_bool. rewrite negb_true_iff.
  split; intro H.
  - destruct (Qlt_le_dec a b) as [L | L]; [exact L |].
    apply Qle_bool_iff in L. congruence.
  - destruct (Qle_bool b a) eqn:E; [| reflexivity].
    apply Qle_bool_iff in E. apply Qle_not_lt in E. contradiction.
Qed.

Lemma Qlt_bool_false_iff (a b : Q) : Qlt_bool a b = false <-> b <= a.
Proof.
  unfold Qlt_bool. rewrite negb_false_iff. apply Qle_bool_iff.
Qed.

Lemma flt_nan_l (x : pyfloat) : flt NaN x = false.
Proof. reflexivity. Qed.

Lemma flt_nan_r (x : pyfloat) : flt x NaN = false.
Proof. destruct x; reflexivity. Qed.

(** [clip(lower=0)] never leaves a negative value. *)
Lemma clip_lower_0_not_negative (x : pyfloat) :
  flt (clip_lower (Fin 0) x) (Fin 0) = false.
Proof.
  unfold clip_lower. destruct (flt x (Fin 0)) eqn:E.
  - reflexivity.
  - exact E.
Qed.

(** Negation swaps the two sides of zero. *)
Lemma fneg_positive (x : pyfloat) :
  fgt (fneg x) (Fin 0) = flt x (Fin 0).
Proof.
  unfold fgt. destruct x as [q | | |]; simpl; try reflexivity.
  destruct (Qlt_bool q 0) eqn:E.
  - apply Qlt_bool_iff. apply Qlt_bool_iff in E. lra.
  - apply Qlt_bool_false_iff. apply Qlt_bool_false_iff in E. lra.
Qed.

(** ** Event extraction *)

(** No sample of the consumption column is positive, whatever the
    volumes: a drop in volume is recorded as 0 and a rise as a negative
    amount. *)
Lemma consumption_column_never_positive (volumes : list pyfloat) :
  Forall (fun c => fgt c (Fin 0) = false) (consumption_column volumes).
Proof.
  unfold consumption_column.
  apply Forall_forall. intros c Hc.
  apply in_map_iff in Hc. destruct Hc as [d [<- Hd]].
  apply in_map_iff in Hd. destruct Hd as [x [<- _]].
  rewrite fneg_positive. apply clip_lower_0_not_negative.
Qed.

(** Hence no sample is ever flagged as a drinking event. *)
Lemma never_a_drinking_event (volumes : list pyfloat) :
  Forall (fun c => fgt c (Fin 50) = false) (consumption_column volumes).
Proof.
  eapply Forall_impl; [| apply consumption_column_never_positive].
  intros c Hc. unfold fgt in *.
  destruct c as [q | | |]; simpl in *; try reflexivity; try discriminate.
  apply Qlt_bool_false_iff. apply Qlt_bool_false_iff in Hc. lra.
Qed.

(** C1 (evaluation of the code): a reading pair whose level drops from
    100% to 90% (100 ml drunk) gets consumption 0, and a pair whose level
    rises from 10% to 100% (a refill) gets consumption -900; the claim
    expects 100 and 0. *)
Theorem C1_consumption_sign_slip :
  map consumption_ml
      (_generate_simulated_data "USER_001" [t0; t0 + 1800]%Z
         [Fin 100; Fin 90])
    = [NaN; Fin 0]
  /\ map consumption_ml
      (_generate_simulated_data "USER_001" [t0; t0 + 1800]%Z
         [Fin 10; Fin 100])
    = [NaN; Fin (- (900))]
  /\ map is_drinking_event
      (_generate_simulated_data "USER_001" [t0; t0 + 1800]%Z
         [Fin 100; Fin 90])
    = [false; false].
Proof. vm_compute. repeat split. Qed.

(** Every row of the frame carries a non-positive (or NaN) consumption
    and is not a drinking event. *)
Lemma frame_never_positive (uid : string) (timestamps : list Z)
    (water_levels : list pyfloat) :
  Forall (fun r => fgt (consumption_ml r) (Fin 0) = false
                   /\ is_drinking_event r = false)
         (_generate_simulated_data uid timestamps water_levels).
Proof.
  apply Forall_forall. intros r Hr.
  unfold _generate_simulated_data in Hr.
  apply in_map_iff in Hr.
  destruct Hr as [[ts [lvl [vol [c [ev [d dc]]]]]] [<- Hin]].
  do 3 apply in_combine_r in Hin.
  pose proof (in_combine_l _ _ _ _ Hin) as Hc.
  apply in_combine_r, in_combine_l in Hin.
  simpl. split.
  - pose proof (consumption_column_never_positive
                  (map (fun level => fmul level (Fin 10)) water_levels)) as F.
    rewrite Forall_forall in F. apply F. exact Hc.
  - apply in_map_iff in Hin. destruct Hin as [c' [<- Hc']].
    pose proof (never_a_drinking_event
                  (map (fun level => fmul level (Fin 10)) water_levels)) as F.
    rewrite Forall_forall in F. apply F. exact Hc'.
Qed.

(** ** Grouping *)

Lemma group_add_nonempty (k : Z) (v : pyfloat) (acc : series) :
  group_add k v acc <> [].
Proof.
  destruct acc as [| [k' s] rest]; simpl.
  - discriminate.
  - destruct (k <? k')%Z; [discriminate |].
    destruct (k =? k')%Z; discriminate.
Qed.

Lemma nanadd_finite (q : Q) (v : pyfloat) :
  no_inf v = true -> is_finite (nanadd (Fin q) v) = true.
Proof. destruct v; simpl; intro H; try reflexivity; discriminate. Qed.

Lemma group_add_finite (k : Z) (v : pyfloat) (acc : series) :
  no_inf v = true -> all_finite acc -> all_finite (group_add k v acc).
Proof.
  intros Hv. unfold all_finite.
  induction acc as [| [k' s] rest IH]; intro Hacc; simpl.
  - constructor; [| constructor]. simpl. apply nanadd_finite, Hv.
  - inversion Hacc as [| ? ? Hs Hrest]; subst. simpl in Hs.
    destruct (k <? k')%Z.
    + constructor; [simpl; apply nanadd_finite, Hv | exact Hacc].
    + destruct (k =? k')%Z.
      * constructor; [| exact Hrest]. simpl.
        destruct s; try discriminate. apply nanadd_finite, Hv.
      * constructor; [exact Hs | apply IH, Hrest].
Qed.

Section Groupby.

Variable R : Type.
Variable key : R -> Z.
Variable col : R -> pyfloat.

Lemma groupby_fold_nonempty (frame : list R) (acc : series) :
  acc <> [] ->
  fold_left (fun acc r => group_add (key r) (col r) acc) frame acc <> [].
Proof.
  revert acc. induction frame as [| r rest IH]; intros acc Hacc; simpl.
  - exact Hacc.
  - apply IH, group_add_nonempty.
Qed.

Lemma groupby_sum_nonempty (frame : list R) :
  frame <> [] -> groupby_sum key col frame <> [].
Proof.
  destruct frame as [| r rest]; [congruence | intros _].
  unfold groupby_sum. simpl. apply groupby_fold_nonempty. discriminate.
Qed.

Lemma groupby_fold_finite (frame : list R) (acc : series) :
  Forall (fun r => no_inf (col r) = true) frame ->
  all_finite acc ->
  all_finite (fold_left (fun acc r => group_add (key r) (col r) acc) frame acc).
Proof.
  revert acc. induction frame as [| r rest IH]; intros acc Hf Hacc; simpl.
  - exact Hacc.
  - inversion Hf; subst. apply IH; [assumption |].
    apply group_add_finite; assumption.
Qed.

Lemma groupby_sum_finite (frame : list R) :
  Forall (fun r => no_inf (col r) = true) frame ->
  all_finite (groupby_sum key col frame).
Proof.
  intro Hf. unfold groupby_sum. apply groupby_fold_finite; [exact Hf |].
  constructor.
Qed.

End Groupby.

Lemma idxmax_defined (s : series) :
  s <> [] -> all_finite s -> exists k, idxmax s = Some k.
Proof.
  destruct s as [| [k v] rest]; [congruence |].
  intros _ Hs. inversion Hs as [| ? ? Hv _]; subst. simpl in Hv.
  destruct v; try discriminate. simpl. eexists. reflexivity.
Qed.

(** ** Pattern analysis *)

(** On a non-empty frame of finite readings [analyze_user_patterns]
    returns a populated dictionary and leaves [self] alone. *)
Lemma analyze_returns (S : Type) (uid : string) (data : DataFrame) (s : S) :
  data <> [] -> finite_readings data ->
  exists a, analyze_user_patterns uid data s = (Ok (Some a), s)
    /\ avg_daily_consumption_ml a = series_mean (values (daily_totals data))
    /\ std_daily_consumption_ml a = series_std (values (daily_totals data))
    /\ consistency_score a =
         fsub (Fin 1) (fdiv (std_daily_consumption_ml a)
                            (avg_daily_consumption_ml a)).
Proof.
  intros Hne Hfin.
  destruct (idxmax_defined
              (s := groupby_sum (fun r => dt_hour (timestamp r)) consumption_ml data))
    as [h Hh].
  { apply groupby_sum_nonempty, Hne. }
  { apply groupby_sum_finite, Hfin. }
  destruct (idxmax_defined
              (s := groupby_sum (fun r => dt_dayofweek (timestamp r))
                      consumption_ml data))
    as [d Hd].
  { apply groupby_sum_nonempty, Hne. }
  { apply groupby_sum_finite, Hfin. }
  destruct data as [| r rest]; [congruence |].
  unfold analyze_user_patterns, bind, call, idxmax_call, ret.
  rewrite Hh, Hd.
  eexists. split; [reflexivity |]. simpl. repeat split.
Qed.

(** C4 (counterexample): on an empty frame the analyzer raises nothing;
    it returns the empty dictionary. *)
Lemma C4_no_error_on_empty :
  fst (analyze_user_patterns "USER_001" [] fb0) = Ok None.
Proof. reflexivity. Qed.

(** C4 (amended): on an empty sample set the Pattern Analyzer raises no
    error and returns the empty dictionary, leaving the dashboard as it
    was; on a non-empty sample set it never returns the empty dictionary,
    so "no data" stays distinguishable from "user drank 0 ml". *)
Theorem C4_empty_data_returns_empty_dict (S : Type) (uid : string) (s : S) :
  analyze_user_patterns uid [] s = (Ok None, s)
  /\ forall data : DataFrame, data <> [] ->
       fst (analyze_user_patterns uid data s) <> Ok None.
Proof.
  split; [reflexivity |].
  intros data Hne. destruct data as [| r rest]; [congruence |].
  unfold analyze_user_patterns, bind, call, idxmax_call, ret.
  destruct (idxmax (groupby_sum (fun r0 => dt_hour (timestamp r0))
                      consumption_ml (r :: rest))); simpl; [| discriminate].
  destruct (idxmax (groupby_sum (fun r0 => dt_dayofweek (timestamp r0))
                      consumption_ml (r :: rest))); simpl; discriminate.
Qed.

Lemma C4_witness :
  analyze_user_patterns "USER_001" [] fb0 = (Ok None, fb0)
  /\ idle_frame <> []
  /\ fst (analyze_user_patterns "USER_001" idle_frame fb0) <> Ok None.
Proof.
  assert (Hne : idle_frame <> []) by (vm_compute; discriminate).
  destruct (C4_empty_data_returns_empty_dict "USER_001" fb0) as [H0 H1].
  split; [exact H0 |]. split; [exact Hne |]. exact (H1 idle_frame Hne).
Defined.

(** ** Consistency score *)

(** Dividing by a zero never gives a finite value. *)
Lemma fdiv_zero_not_finite (x : pyfloat) (q : Q) :
  q == 0 -> is_finite (fdiv x (Fin q)) = false.
Proof.
  intro Hq. apply Qeq_bool_iff in Hq.
  destruct x as [a | | |]; simpl.
  - rewrite Hq. unfold inf_of_sign.
    destruct (Z.sgn (Qnum a) <? 0)%Z; [reflexivity |].
    destruct (0 <? Z.sgn (Qnum a))%Z; reflexivity.
  - reflexivity.
  - destruct (Qlt_bool q 0); reflexivity.
  - destruct (Qlt_bool q 0); reflexivity.
Qed.

Lemma fsub_not_finite (x y : pyfloat) :
  is_finite y = false -> is_finite (fsub x y) = false.
Proof.
  destruct y; simpl; try discriminate; intros _; destruct x; reflexivity.
Qed.

(** C5 (counterexample): two days on which nothing was drunk.  The daily
    mean is exactly 0 and the score is the NaN of 0/0, not a sentinel
    such as 0. *)
Lemma C5_zero_mean_gives_nan :
  match fst (analyze_user_patterns "USER_001" idle_frame fb0) with
  | Ok (Some a) =>
      is_zero (avg_daily_consumption_ml a) = true
      /\ is_zero (std_daily_consumption_ml a) = true
      /\ consistency_score a = NaN
  | _ => False
  end.
Proof. vm_compute. repeat split. Qed.

(** C5 (amended): for every non-empty frame of finite readings the
    analysis is returned with consistency_score = 1 - std/mean of the
    daily totals, with no special case: when the mean is exactly 0 the
    division is carried out all the same and the score is NaN or an
    infinity, never a finite sentinel. *)
Theorem C5_consistency_score_unclamped (S : Type) (uid : string)
    (data : DataFrame) (s : S) :
  data <> [] -> finite_readings data ->
  exists a, analyze_user_patterns uid data s = (Ok (Some a), s)
    /\ consistency_score a =
         fsub (Fin 1) (fdiv (series_std (values (daily_totals data)))
                            (series_mean (values (daily_totals data))))
    /\ (forall q, series_mean (values (daily_totals data)) = Fin q ->
                  q == 0 -> is_finite (consistency_score a) = false).
Proof.
  intros Hne Hfin.
  destruct (analyze_returns uid s Hne Hfin) as [a [Ha [Havg [Hstd Hcs]]]].
  exists a. split; [exact Ha |]. split.
  - rewrite Hcs, Havg, Hstd. reflexivity.
  - intros q Hm Hq. rewrite Hcs, Havg, Hm.
    apply fsub_not_finite, fdiv_zero_not_finite, Hq.
Qed.

Lemma idle_frame_finite : finite_readings idle_frame.
Proof. vm_compute. repeat constructor. Qed.

Lemma C5_witness :
  exists a, analyze_user_patterns "USER_001" idle_frame fb0 = (Ok (Some a), fb0)
    /\ consistency_score a =
         fsub (Fin 1) (fdiv (series_std (values (daily_totals idle_frame)))
                            (series_mean (values (daily_totals idle_frame))))
    /\ (forall q, series_mean (values (daily_totals idle_frame)) = Fin q ->
                  q == 0 -> is_finite (consistency_score a) = false).
Proof.
  apply (@C5_consistency_score_unclamped Firebase.Dashboard "USER_001"
           idle_frame fb0).
  - vm_compute. discriminate.
  - exact idle_frame_finite.
Defined.

(** ** Forecast frames *)

Lemma forecast_frame_values (fv : series) :
  map forecasted_consumption_ml (forecast_frame fv) = values fv.
Proof.
  unfold forecast_frame, values. rewrite map_map. reflexivity.
Qed.

Lemma forecast_frame_length (fv : series) :
  length (forecast_frame fv) = length fv.
Proof. unfold forecast_frame. apply length_map. Qed.

(** Every frame built by [forecast_frame] carries the fixed band. *)
Lemma forecast_frame_band (fv : series) : Forall band_ok (forecast_frame fv).
Proof.
  unfold forecast_frame. apply Forall_forall. intros p Hp.
  apply in_map_iff in Hp. destruct Hp as [kv [<- _]].
  split; reflexivity.
Qed.

Lemma series_add_same_index (a b : series) :
  index a = index b ->
  index (series_add a b) = index a
  /\ values (series_add a b)
     = map (fun p => fadd (fst p) (snd p)) (combine (values a) (values b)).
Proof.
  revert b. induction a as [| [ka va] a' IH]; intros b Hidx.
  - destruct b; [split; reflexivity | discriminate].
  - destruct b as [| [kb vb] b']; [discriminate |].
    simpl in Hidx. injection Hidx as Hk Hrest. subst kb.
    simpl. rewrite Z.ltb_irrefl, Z.eqb_refl. simpl.
    destruct (IH b' Hrest) as [Hi Hv].
    unfold index, values in *. rewrite Hi, Hv. split; reflexivity.
Qed.

Lemma series_div_values (s : series) (d : pyfloat) :
  values (series_div s d) = map (fun v => fdiv v d) (values s).
Proof. unfold series_div, values. rewrite !map_map. reflexivity. Qed.

Lemma series_div_length (s : series) (d : pyfloat) :
  length (series_div s d) = length s.
Proof. unfold series_div. apply length_map. Qed.

Lemma index_length (s : series) : length (index s) = length s.
Proof. unfold index. apply length_map. Qed.

Lemma index_last_defined (s : series) :
  s <> [] -> exists k, index_last s = Ok k.
Proof.
  intro Hne. unfold index_last.
  destruct (rev (index s)) as [| k r] eqn:E.
  - exfalso. apply Hne.
    assert (L : length (rev (index s)) = 0%nat) by (rewrite E; reflexivity).
    rewrite length_rev, index_length in L.
    destruct s; [reflexivity | discriminate].
  - exists k. reflexivity.
Qed.

Lemma map_snd_combine (A B : Type) (a : list A) (b : list B) :
  length a = length b -> map snd (combine a b) = b.
Proof.
  revert b. induction a as [| x a IH]; intros [| y b] H; simpl in *;
    try reflexivity; try discriminate.
  f_equal. apply IH. lia.
Qed.

(** ** Groups and their keys *)

Lemma group_add_index (k0 : Z) (v : pyfloat) (acc : series) (k : Z) :
  In k (index (group_add k0 v acc)) <-> k = k0 \/ In k (index acc).
Proof.
  unfold index. induction acc as [| [k' s] rest IH]; simpl.
  - intuition.
  - destruct (k0 <? k')%Z eqn:E1; simpl; [intuition |].
    destruct (k0 =? k')%Z eqn:E2; simpl.
    + apply Z.eqb_eq in E2. subst. intuition.
    + rewrite IH. intuition.
Qed.

Lemma group_add_sorted (k0 : Z) (v : pyfloat) (acc : series) :
  StronglySorted Z.lt (index acc) ->
  StronglySorted Z.lt (index (group_add k0 v acc)).
Proof.
  unfold index. induction acc as [| [k' s] rest IH]; simpl; intro H.
  - repeat constructor.
  - inversion H as [| ? ? Hrest Hall]; subst.
    destruct (k0 <? k')%Z eqn:E1; simpl.
    + apply Z.ltb_lt in E1. constructor; [exact H |].
      constructor; [exact E1 |].
      eapply Forall_impl; [| exact Hall]. intros; lia.
    + destruct (k0 =? k')%Z eqn:E2; simpl.
      * exact H.
      * apply Z.ltb_ge in E1. apply Z.eqb_neq in E2.
        constructor; [apply IH, Hrest |].
        apply Forall_forall. intros x Hx.
        apply (group_add_index k0 v rest x) in Hx.
        destruct Hx as [-> | Hx]; [lia |].
        rewrite Forall_forall in Hall. apply Hall, Hx.
Qed.

Section GroupKeys.

Variable R : Type.
Variable key : R -> Z.
Variable col : R -> pyfloat.

Lemma groupby_fold_index (frame : list R) (acc : series) (k : Z) :
  In k (index (fold_left (fun acc r => group_add (key r) (col r) acc)
                 frame acc))
  <-> In k (map key frame) \/ In k (index acc).
Proof.
  revert acc. induction frame as [| r rest IH]; intro acc; simpl.
  - intuition.
  - rewrite IH, group_add_index. intuition.
Qed.

(** The index of a grouped sum holds exactly the keys of the frame. *)
Lemma groupby_sum_index (frame : list R) (k : Z) :
  In k (index (groupby_sum key col frame)) <-> In k (map key frame).
Proof.
  unfold groupby_sum. rewrite groupby_fold_index. simpl. intuition.
Qed.

Lemma groupby_fold_sorted (frame : list R) (acc : series) :
  StronglySorted Z.lt (index acc) ->
  StronglySorted Z.lt
    (index (fold_left (fun acc r => group_add (key r) (col r) acc)
              frame acc)).
Proof.
  revert acc. induction frame as [| r rest IH]; intros acc H; simpl.
  - exact H.
  - apply IH, group_add_sorted, H.
Qed.

(** ... in strictly increasing order. *)
Lemma groupby_sum_sorted (frame : list R) :
  StronglySorted Z.lt (index (groupby_sum key col frame)).
Proof.
  unfold groupby_sum. apply groupby_fold_sorted. constructor.
Qed.

End GroupKeys.

Lemma sorted_lt_NoDup (l : list Z) : StronglySorted Z.lt l -> NoDup l.
Proof.
  induction 1 as [| x l Hs IH Hall]; constructor; [| exact IH].
  intro Hin. rewrite Forall_forall in Hall. specialize (Hall x Hin). lia.
Qed.

Lemma map_fst_combine (A B : Type) (a : list A) (b : list B) :
  length a = length b -> map fst (combine a b) = a.
Proof.
  revert b. induction a as [| x a IH]; intros [| y b] H; simpl in *;
    try reflexivity; try discriminate.
  f_equal. apply IH. lia.
Qed.

(** ** Dates a timestamp can hold *)

Lemma to_datetime_cases (s : series) :
  to_datetime s = Ok s \/ to_datetime s = Err OutOfBoundsDatetime.
Proof.
  unfold to_datetime.
  destruct (forallb (fun kv => in_timestamp_range (fst kv)) s);
    [left | right]; reflexivity.
Qed.

Lemma index_last_in (s : series) (k : Z) :
  index_last s = Ok k -> In k (index s).
Proof.
  unfold index_last.
  destruct (rev (index s)) as [| k0 r] eqn:E; [discriminate |].
  intro H. injection H as <-.
  apply in_rev. rewrite E. left. reflexivity.
Qed.

(** In a frame within the timestamp range every date of the daily series
    is a timestamp, and so are the days of the horizon after it. *)
Lemma within_range_date (data : DataFrame) (n k : Z) :
  within_timestamp_range data n = true ->
  In k (index (daily_totals data)) ->
  (TIMESTAMP_MIN_DAY <= k)%Z /\ (k + Z.max 1 n <= TIMESTAMP_MAX_DAY)%Z.
Proof.
  intros H Hin.
  apply (groupby_sum_index date consumption_ml data) in Hin.
  apply in_map_iff in Hin. destruct Hin as [r [<- Hr]].
  unfold within_timestamp_range in H. rewrite forallb_forall in H.
  specialize (H r Hr). apply andb_prop in H. destruct H as [H1 H2].
  apply Z.leb_le in H1. apply Z.leb_le in H2. split; assumption.
Qed.

Lemma within_range_to_datetime (data : DataFrame) (n : Z) :
  within_timestamp_range data n = true ->
  to_datetime (daily_totals data) = Ok (daily_totals data).
Proof.
  intro H. unfold to_datetime.
  assert (F : forallb (fun kv : Z * pyfloat => in_timestamp_range (fst kv))
                (daily_totals data) = true).
  { apply forallb_forall. intros [k v] Hin.
    assert (Hk : In k (index (daily_totals data))).
    { unfold index. apply in_map_iff. exists (k, v).
      split; [reflexivity | exact Hin]. }
    destruct (within_range_date data n k H Hk) as [H1 H2].
    unfold in_timestamp_range. cbn [fst].
    apply andb_true_intro. split; apply Z.leb_le; lia. }
  rewrite F. reflexivity.
Qed.

Lemma add_days_ok (d n : Z) :
  (TIMESTAMP_MIN_DAY <= d + n)%Z -> (d + n <= TIMESTAMP_MAX_DAY)%Z ->
  add_days d n = Ok (d + n)%Z.
Proof.
  intros H1 H2. unfold add_days, in_timestamp_range.
  apply Z.leb_le in H1. apply Z.leb_le in H2. rewrite H1, H2. reflexivity.
Qed.

(** A range that ends on a timestamp is the run of its days. *)
Lemma date_range_ok (start n : Z) :
  (0 <= n)%Z -> (start + Z.max 1 n - 1 <= TIMESTAMP_MAX_DAY)%Z ->
  date_range start n
  = Ok (map (fun i => (start + Z.of_nat i)%Z) (seq 0 (Z.to_nat n))).
Proof.
  intros Hn Hmax. unfold date_range.
  destruct (n <? 0)%Z eqn:E; [apply Z.ltb_lt in E; lia |].
  destruct (0 <? n)%Z eqn:E0; [| reflexivity].
  apply Z.ltb_lt in E0.
  destruct (TIMESTAMP_MAX_DAY <? start + (n - 1))%Z eqn:E1;
    [apply Z.ltb_lt in E1; lia | reflexivity].
Qed.

Lemma date_range_inv (start n : Z) (idx : list Z) :
  date_range start n = Ok idx ->
  idx = map (fun i => (start + Z.of_nat i)%Z) (seq 0 (Z.to_nat n)).
Proof.
  unfold date_range.
  destruct (n <? 0)%Z; [discriminate |].
  destruct ((0 <? n) && (TIMESTAMP_MAX_DAY <? start + (n - 1)))%Z;
    [discriminate |].
  intro H. injection H as <-. reflexivity.
Qed.

(** A range whose last day lies past the largest timestamp is refused. *)
Lemma date_range_out_of_bounds (start n : Z) :
  (1 <= n)%Z -> (TIMESTAMP_MAX_DAY < start + n - 1)%Z ->
  date_range start n = Err OutOfBoundsDatetime.
Proof.
  intros Hn Hmax. unfold date_range.
  destruct (n <? 0)%Z eqn:E; [apply Z.ltb_lt in E; lia |].
  assert (E0 : (0 <? n)%Z = true) by (apply Z.ltb_lt; lia).
  assert (E1 : (TIMESTAMP_MAX_DAY <? start + (n - 1))%Z = true)
    by (apply Z.ltb_lt; lia).
  rewrite E0, E1. reflexivity.
Qed.

(** ** The flat-mean fallback *)

(** The flat-mean series in full: with a horizon that is not negative and
    stays within the timestamp range, the historical mean on each of the
    [n] days after the last date. *)
Lemma flat_mean_series_eq (S : Type) (daily : series) (n : Z) (last : Z)
    (s : S) :
  index_last daily = Ok last -> (0 <= n)%Z ->
  (TIMESTAMP_MIN_DAY <= last)%Z ->
  (last + Z.max 1 n <= TIMESTAMP_MAX_DAY)%Z ->
  exists fv,
    flat_mean_series daily n s = (Ok fv, s)
    /\ index fv = map (fun i => (last + 1 + Z.of_nat i)%Z)
                      (seq 0 (Z.to_nat n))
    /\ values fv = repeat (series_mean (values daily)) (Z.to_nat n).
Proof.
  intros Hk Hn Hmin Hmax.
  unfold flat_mean_series, bind, call. rewrite Hk.
  rewrite add_days_ok by lia.
  rewrite date_range_ok by lia.
  unfold make_series.
  rewrite repeat_length, length_map, length_seq, Nat.eqb_refl.
  eexists. split; [reflexivity |]. split.
  - unfold index. apply map_fst_combine.
    rewrite repeat_length, length_map, length_seq. reflexivity.
  - unfold values. apply map_snd_combine.
    rewrite repeat_length, length_map, length_seq. reflexivity.
Qed.

(** Past the timestamp range the fallback raises. *)
Lemma flat_mean_series_out_of_bounds (S : Type) (daily : series) (n : Z)
    (last : Z) (s : S) :
  index_last daily = Ok last -> (0 <= n)%Z ->
  (TIMESTAMP_MAX_DAY < last + Z.max 1 n)%Z ->
  flat_mean_series daily n s = (Err OutOfBoundsDatetime, s).
Proof.
  intros Hk Hn Hmax.
  unfold flat_mean_series, bind, call. rewrite Hk.
  unfold add_days, in_timestamp_range.
  destruct ((TIMESTAMP_MIN_DAY <=? last + 1)
            && (last + 1 <=? TIMESTAMP_MAX_DAY))%Z eqn:E; [| reflexivity].
  apply andb_prop in E. destruct E as [_ E]. apply Z.leb_le in E.
  rewrite date_range_out_of_bounds by lia. reflexivity.
Qed.

(** Whatever its arguments, the fallback leaves [self] alone, and what it
    raises is an [Exception]. *)
Lemma flat_mean_series_safe (S : Type) (daily : series) (forecast_days : Z)
    (s : S) :
  (exists fv, flat_mean_series daily forecast_days s = (Ok fv, s))
  \/ (exists e, flat_mean_series daily forecast_days s = (Err e, s)
                /\ is_Exception e = true).
Proof.
  unfold flat_mean_series, bind, call, index_last, add_days, date_range,
    make_series.
  destruct (rev (index daily)) as [| k r].
  - right. exists IndexError. split; reflexivity.
  - destruct (in_timestamp_range (k + 1)).
    + destruct (forecast_days <? 0)%Z.
      * right. exists ValueError. split; reflexivity.
      * destruct ((0 <? forecast_days)
                  && (TIMESTAMP_MAX_DAY <? k + 1 + (forecast_days - 1)))%Z.
        -- right. exists OutOfBoundsDatetime. split; reflexivity.
        -- match goal with
           | |- context [Nat.eqb ?a ?b] => destruct (Nat.eqb a b)
           end.
           ++ left. eexists. reflexivity.
           ++ right. exists ValueError. split; reflexivity.
    + right. exists OutOfBoundsDatetime. split; reflexivity.
Qed.

Lemma daily_totals_nonempty (data : DataFrame) :
  (48 <= Z.of_nat (length data))%Z -> daily_totals data <> [].
Proof.
  intro H. apply groupby_sum_nonempty. destruct data; [simpl in H; lia |].
  discriminate.
Qed.

(** With at least 48 rows and a horizon that is not negative and stays
    within the timestamp range, the fallback returns the historical mean
    on each of the [forecast_days] days. *)
Lemma flat_mean_series_ok (S : Type) (data : DataFrame) (forecast_days : Z)
    (s : S) :
  (48 <= Z.of_nat (length data))%Z -> (0 <= forecast_days)%Z ->
  within_timestamp_range data forecast_days = true ->
  exists fv,
    flat_mean_series (daily_totals data) forecast_days s = (Ok fv, s)
    /\ values fv = repeat (series_mean (values (daily_totals data)))
                          (Z.to_nat forecast_days).
Proof.
  intros Hlen Hn Hr.
  destruct (index_last_defined (daily_totals_nonempty data Hlen))
    as [k Hk].
  destruct (within_range_date data forecast_days k Hr (index_last_in _ Hk))
    as [Hmin Hmax].
  destruct (@flat_mean_series_eq S _ _ _ s Hk Hn Hmin Hmax)
    as [fv [Hfv [_ Hvals]]].
  exists fv. split; assumption.
Qed.

(** ** The Firebase forecaster *)

Section FirebaseForecaster.

Variable holt_winters : series -> Z -> result series.
Variable arima : series -> Z -> result series.

Lemma fit_or_None_spec (fit : series -> Z -> result series) (daily : series)
    (n : Z) (s : Firebase.Dashboard) :
  Firebase.fit_or_None fit daily n s = (Ok (optional (fit daily n)), s).
Proof.
  unfold Firebase.fit_or_None, try_except, bind, call, ret.
  destruct (fit daily n); reflexivity.
Qed.

(** The body of the [try]: the conversion of the dates, then the
    ensemble over the two fits. *)
Lemma firebase_body_spec (data : DataFrame) (n : Z) (s : Firebase.Dashboard) :
  Firebase.forecast_body holt_winters arima data n s
  = match to_datetime (daily_totals data) with
    | Ok daily =>
        match Firebase.combine_forecasts daily n
                (optional (holt_winters daily n))
                (optional (arima daily n)) s with
        | (Ok fv, s') => (Ok (forecast_frame fv), s')
        | (Err e, s') => (Err e, s')
        end
    | Err e => (Err e, s)
    end.
Proof.
  unfold Firebase.forecast_body, bind, call.
  destruct (to_datetime (daily_totals data)) as [daily | e];
    [| reflexivity].
  rewrite !fit_or_None_spec. reflexivity.
Qed.

(** The ensemble step leaves [self] alone and raises only [Exception]s. *)
Lemma firebase_combine_safe (daily : series) (n : Z)
    (fhw far : option series) (s : Firebase.Dashboard) :
  (exists fv, Firebase.combine_forecasts daily n fhw far s = (Ok fv, s))
  \/ (exists e, Firebase.combine_forecasts daily n fhw far s = (Err e, s)
                /\ is_Exception e = true).
Proof.
  unfold Firebase.combine_forecasts.
  destruct fhw as [hw |], far as [ar |];
    try (left; eexists; reflexivity).
  apply flat_mean_series_safe.
Qed.

Lemma firebase_never_raises (data : DataFrame) (n : Z)
    (s : Firebase.Dashboard) :
  exists fc,
    Firebase.forecast_consumption holt_winters arima data n s = (Ok fc, s)
    /\ (fc = [] \/ exists fv, fc = forecast_frame fv).
Proof.
  unfold Firebase.forecast_consumption.
  destruct (Z.of_nat (length data) <? 48)%Z.
  - exists []. split; [reflexivity | left; reflexivity].
  - unfold try_except_Exception. rewrite firebase_body_spec.
    destruct (to_datetime_cases (daily_totals data)) as [E | E]; rewrite E.
    + destruct (firebase_combine_safe (daily_totals data) n
                  (optional (holt_winters (daily_totals data) n))
                  (optional (arima (daily_totals data) n)) s)
        as [[fv H] | [e [H He]]]; rewrite H.
      * eexists. split; [reflexivity | right; eexists; reflexivity].
      * rewrite He. exists []. split; [reflexivity | left; reflexivity].
    + exists []. split; [reflexivity | left; reflexivity].
Qed.

End FirebaseForecaster.

Lemma fitted_values_optional (r : result series) :
  fitted_values r = option_map values (optional r).
Proof. destruct r; reflexivity. Qed.

Lemma ensemble_policy_length (hw ar : option (list pyfloat)) (m : pyfloat)
    (k : nat) :
  (forall vs, hw = Some vs -> length vs = k) ->
  (forall vs, ar = Some vs -> length vs = k) ->
  length (ensemble_policy hw ar m k) = k.
Proof.
  intros Hhw Har. unfold ensemble_policy.
  destruct hw as [h |], ar as [a |].
  - rewrite length_map, length_combine, (Hhw h eq_refl), (Har a eq_refl).
    apply Nat.min_id.
  - apply Hhw. reflexivity.
  - apply Har. reflexivity.
  - apply repeat_length.
Qed.

(** With at least 48 rows and a horizon that is not negative and stays
    within the timestamp range, the Firebase forecaster returns the frame
    of the ensemble policy. *)
Lemma firebase_forecast_spec (holt_winters arima : series -> Z -> result series)
    (data : DataFrame) (n : Z) (s : Firebase.Dashboard) :
  (48 <= Z.of_nat (length data))%Z -> (0 <= n)%Z ->
  within_timestamp_range data n = true ->
  (forall f g, holt_winters (daily_totals data) n = Ok f ->
               arima (daily_totals data) n = Ok g -> index f = index g) ->
  exists fv,
    Firebase.forecast_consumption holt_winters arima data n s
      = (Ok (forecast_frame fv), s)
    /\ values fv
       = ensemble_policy (fitted_values (holt_winters (daily_totals data) n))
                         (fitted_values (arima (daily_totals data) n))
                         (series_mean (values (daily_totals data)))
                         (Z.to_nat n).
Proof.
  intros Hlen Hn Hr Hidx.
  unfold Firebase.forecast_consumption.
  destruct (Z.of_nat (length data) <? 48)%Z eqn:E;
    [apply Z.ltb_lt in E; lia |].
  unfold try_except_Exception.
  rewrite firebase_body_spec, (within_range_to_datetime data n Hr).
  destruct (holt_winters (daily_totals data) n) as [hw | ehw] eqn:Ehw;
    destruct (arima (daily_totals data) n) as [ar | ear] eqn:Ear; simpl.
  - eexists. split; [reflexivity |].
    rewrite series_div_values.
    destruct (series_add_same_index hw ar (Hidx hw ar eq_refl eq_refl))
      as [_ Hv].
    rewrite Hv, map_map. reflexivity.
  - exists hw. split; reflexivity.
  - exists ar. split; reflexivity.
  - destruct (@flat_mean_series_ok Firebase.Dashboard data n s Hlen Hn Hr)
      as [fv [Hfv Hvals]].
    rewrite Hfv. exists fv. split; [reflexivity | exact Hvals].
Qed.

(** ** The Windows forecaster *)

(** The body of the [try]: the conversion of the dates, then the fit or
    the fallback. *)
Lemma windows_body_spec (has : bool) (arima : series -> Z -> result series)
    (data : DataFrame) (n : Z) (s : Windows.Dashboard) :
  Windows.forecast_body has arima data n s
  = match to_datetime (daily_totals data) with
    | Ok daily =>
        match (if has then
                 match arima daily n with
                 | Ok f => (Ok f, s)
                 | Err _ => flat_mean_series daily n s
                 end
               else flat_mean_series daily n s) with
        | (Ok fv, s') => (Ok (forecast_frame fv), s')
        | (Err e, s') => (Err e, s')
        end
    | Err e => (Err e, s)
    end.
Proof.
  unfold Windows.forecast_body, bind, call, try_except, ret.
  destruct (to_datetime (daily_totals data)) as [daily | e];
    [| reflexivity].
  destruct has; [destruct (arima daily n) |]; reflexivity.
Qed.

Lemma windows_never_raises (has : bool) (arima : series -> Z -> result series)
    (data : DataFrame) (n : Z) (s : Windows.Dashboard) :
  exists fc,
    Windows.forecast_consumption has arima data n s = (Ok fc, s)
    /\ (fc = [] \/ exists fv, fc = forecast_frame fv).
Proof.
  unfold Windows.forecast_consumption.
  destruct (Z.of_nat (length data) <? 48)%Z.
  - exists []. split; [reflexivity | left; reflexivity].
  - unfold try_except_Exception. rewrite windows_body_spec.
    destruct (to_datetime_cases (daily_totals data)) as [E | E]; rewrite E;
      [| exists []; split; [reflexivity | left; reflexivity]].
    destruct (flat_mean_series_safe (daily_totals data) n s)
      as [[fv H] | [e [H He]]].
    + destruct has; [destruct (arima (daily_totals data) n) |];
        try rewrite H;
        (eexists; split; [reflexivity | right; eexists; reflexivity]).
    + destruct has; [destruct (arima (daily_totals data) n) |];
        try rewrite H; try rewrite He;
        (eexists; split;
         [reflexivity
         | first [left; reflexivity | right; eexists; reflexivity]]).
Qed.

Lemma windows_forecast_spec (has : bool)
    (arima : series -> Z -> result series)
    (data : DataFrame) (n : Z) (s : Windows.Dashboard) :
  (48 <= Z.of_nat (length data))%Z -> (0 <= n)%Z ->
  within_timestamp_range data n = true ->
  exists fv,
    Windows.forecast_consumption has arima data n s
      = (Ok (forecast_frame fv), s)
    /\ values fv
       = ensemble_policy None
           (if has then fitted_values (arima (daily_totals data) n) else None)
           (series_mean (values (daily_totals data)))
           (Z.to_nat n).
Proof.
  intros Hlen Hn Hr.
  unfold Windows.forecast_consumption.
  destruct (Z.of_nat (length data) <? 48)%Z eqn:E;
    [apply Z.ltb_lt in E; lia |].
  destruct (@flat_mean_series_ok Windows.Dashboard data n s Hlen Hn Hr)
    as [fv [Hfv Hvals]].
  unfold try_except_Exception.
  rewrite windows_body_spec, (within_range_to_datetime data n Hr).
  destruct has; [destruct (arima (daily_totals data) n) as [ar | e] |];
    simpl; try rewrite Hfv.
  - exists ar. split; reflexivity.
  - exists fv. split; [reflexivity | exact Hvals].
  - exists fv. split; [reflexivity | exact Hvals].
Qed.

(** Past the timestamp range the fallback gives no forecast: when
    neither fit succeeds and the horizon goes beyond the last timestamp,
    both versions return the empty frame. *)
Lemma fallback_past_timestamp_range
    (holt_winters arima : series -> Z -> result series) (has : bool)
    (data : DataFrame) (n : Z) (last : Z) (e1 e2 : exn)
    (s : Firebase.Dashboard) (w : Windows.Dashboard) :
  (0 <= n)%Z ->
  index_last (daily_totals data) = Ok last ->
  (TIMESTAMP_MAX_DAY < last + Z.max 1 n)%Z ->
  holt_winters (daily_totals data) n = Err e1 ->
  arima (daily_totals data) n = Err e2 ->
  Firebase.forecast_consumption holt_winters arima data n s = (Ok [], s)
  /\ Windows.forecast_consumption has arima data n w = (Ok [], w).
Proof.
  intros Hn Hlast Hmax Hhw Har. split.
  - unfold Firebase.forecast_consumption.
    destruct (Z.of_nat (length data) <? 48)%Z; [reflexivity |].
    unfold try_except_Exception. rewrite firebase_body_spec.
    destruct (to_datetime_cases (daily_totals data)) as [E | E]; rewrite E;
      [| reflexivity].
    rewrite Hhw, Har. simpl.
    rewrite (@flat_mean_series_out_of_bounds Firebase.Dashboard _ _ _ s
               Hlast Hn Hmax).
    reflexivity.
  - unfold Windows.forecast_consumption.
    destruct (Z.of_nat (length data) <? 48)%Z; [reflexivity |].
    unfold try_except_Exception. rewrite windows_body_spec.
    destruct (to_datetime_cases (daily_totals data)) as [E | E]; rewrite E;
      [| reflexivity].
    rewrite Har.
    rewrite (@flat_mean_series_out_of_bounds Windows.Dashboard _ _ _ w
               Hlast Hn Hmax).
    destruct has; reflexivity.
Qed.

(** The length guard of both forecasters looks at the number of rows only. *)
Lemma forecast_guard_counts_rows (holt_winters arima : series -> Z -> result series)
    (has : bool) (data : DataFrame) (n : Z)
    (s : Firebase.Dashboard) (w : Windows.Dashboard) :
  (Z.of_nat (length data) < 48)%Z ->
  Firebase.forecast_consumption holt_winters arima data n s = (Ok [], s)
  /\ Windows.forecast_consumption has arima data n w = (Ok [], w).
Proof.
  intro H. apply Z.ltb_lt in H.
  unfold Firebase.forecast_consumption, Windows.forecast_consumption.
  rewrite H. split; reflexivity.
Qed.

(** ** Claims on the forecaster *)

Lemma fitted_values_length (r : result series) (k : nat) :
  (forall f, r = Ok f -> length f = k) ->
  forall vs, fitted_values r = Some vs -> length vs = k.
Proof.
  intros H vs E. destruct r as [f | e]; simpl in E; [| discriminate].
  injection E as <-. unfold values. rewrite length_map. apply H. reflexivity.
Qed.

(** C3 (evaluation of the code): 48 half-hourly rows, all of one calendar
    day, pass the length guard and are forecast (7 points, in both versions),
    while 47 rows spread over four dates are refused.  The guard counts
    rows against 48, which at the half-hourly cadence is one day, not the
    two days its comment asks for. *)
Theorem C3_guard_counts_rows_not_days :
  length one_day_frame = 48%nat
  /\ map date one_day_frame = repeat 19676%Z 48
  /\ match fst (Firebase.forecast_consumption fit_fails fit_fails
                  one_day_frame 7 fb0) with
     | Ok fc => length fc = 7%nat
     | Err _ => False
     end
  /\ match fst (Windows.forecast_consumption false fit_fails
                  one_day_frame 7 win0) with
     | Ok fc => length fc = 7%nat
     | Err _ => False
     end
  /\ length sparse_frame = 47%nat
  /\ index (daily_totals sparse_frame) = [19676; 19677; 19678; 19679]%Z
  /\ fst (Firebase.forecast_consumption fit_fails fit_fails
            sparse_frame 7 fb0) = Ok []
  /\ fst (Windows.forecast_consumption false fit_fails
            sparse_frame 7 win0) = Ok [].
Proof. vm_compute. repeat split. Qed.

(** C6: whenever the length guard is passed (at least 48 rows), the
    horizon is not negative and the dates of the frame and the days of
    the horizon after them are dates a timestamp can hold, a forecast is
    returned whose point estimates follow the tiered policy: the mean of
    the two fits when both succeed (they forecast over the same index),
    the one that succeeded when only one did, and the historical mean of
    the daily series repeated over the horizon when none did.  The Windows
    version has no seasonal fit: its estimates are the autoregressive fit
    when statsmodels is there and the fit succeeds, and the repeated
    historical mean otherwise. *)
Theorem C6_tiered_ensemble_policy
    (holt_winters arima : series -> Z -> result series) (has : bool)
    (data : DataFrame) (n : Z)
    (s : Firebase.Dashboard) (w : Windows.Dashboard) :
  (48 <= Z.of_nat (length data))%Z -> (0 <= n)%Z ->
  within_timestamp_range data n = true ->
  (forall f g, holt_winters (daily_totals data) n = Ok f ->
               arima (daily_totals data) n = Ok g -> index f = index g) ->
  (exists fc,
     Firebase.forecast_consumption holt_winters arima data n s = (Ok fc, s)
     /\ map forecasted_consumption_ml fc
        = ensemble_policy
            (fitted_values (holt_winters (daily_totals data) n))
            (fitted_values (arima (daily_totals data) n))
            (series_mean (values (daily_totals data))) (Z.to_nat n))
  /\ (exists fc,
        Windows.forecast_consumption has arima data n w = (Ok fc, w)
        /\ map forecasted_consumption_ml fc
           = ensemble_policy None
               (if has then fitted_values (arima (daily_totals data) n)
                else None)
               (series_mean (values (daily_totals data))) (Z.to_nat n)).
Proof.
  intros Hlen Hn Hr Hidx. split.
  - destruct (firebase_forecast_spec holt_winters arima data s Hlen Hn Hr
                Hidx) as [fv [Hrun Hvals]].
    exists (forecast_frame fv). split; [exact Hrun |].
    rewrite forecast_frame_values. exact Hvals.
  - destruct (windows_forecast_spec has arima data w Hlen Hn Hr)
      as [fv [Hrun Hvals]].
    exists (forecast_frame fv). split; [exact Hrun |].
    rewrite forecast_frame_values. exact Hvals.
Qed.

Lemma fit_constant_index (v : pyfloat) (d : series) (n : Z) (f : series) :
  fit_constant v d n = Ok f ->
  exists k, index_last d = Ok k
    /\ index f = map (fun i => (k + 1 + Z.of_nat i)%Z) (seq 0 (Z.to_nat n)).
Proof.
  unfold fit_constant.
  destruct (index_last d) as [k | e]; [| discriminate].
  destruct (date_range (k + 1) n) as [idx | e] eqn:E; [| discriminate].
  intro H. injection H as <-. exists k. split; [reflexivity |].
  apply date_range_inv in E. subst idx.
  unfold index. rewrite !map_map. apply map_ext. intro i. reflexivity.
Qed.

Lemma fit_constant_same_index (u v : pyfloat) (d : series) (n : Z)
    (f g : series) :
  fit_constant u d n = Ok f -> fit_constant v d n = Ok g -> index f = index g.
Proof.
  intros Hf Hg.
  destruct (fit_constant_index _ _ _ Hf) as [k [Hk ->]].
  destruct (fit_constant_index _ _ _ Hg) as [k' [Hk' ->]].
  rewrite Hk in Hk'. injection Hk' as <-. reflexivity.
Qed.

Lemma fit_constant_length (v : pyfloat) (d : series) (n : Z) (f : series) :
  fit_constant v d n = Ok f -> length f = Z.to_nat n.
Proof.
  intro Hf. destruct (fit_constant_index _ _ _ Hf) as [k [_ Hi]].
  rewrite <- index_length, Hi, length_map, length_seq. reflexivity.
Qed.

Lemma one_day_frame_length : (48 <= Z.of_nat (length one_day_frame))%Z.
Proof. vm_compute. discriminate. Qed.

Lemma C6_witness :
  (exists fc,
     Firebase.forecast_consumption (fit_constant (Fin 1000))
       (fit_constant (Fin 2000)) one_day_frame 3 fb0 = (Ok fc, fb0)
     /\ map forecasted_consumption_ml fc
        = ensemble_policy
            (fitted_values (fit_constant (Fin 1000)
                              (daily_totals one_day_frame) 3))
            (fitted_values (fit_constant (Fin 2000)
                              (daily_totals one_day_frame) 3))
            (series_mean (values (daily_totals one_day_frame)))
            (Z.to_nat 3))
  /\ (exists fc,
        Windows.forecast_consumption true (fit_constant (Fin 2000))
          one_day_frame 3 win0 = (Ok fc, win0)
        /\ map forecasted_consumption_ml fc
           = ensemble_policy None
               (if true
                then fitted_values (fit_constant (Fin 2000)
                                      (daily_totals one_day_frame) 3)
                else None)
               (series_mean (values (daily_totals one_day_frame)))
               (Z.to_nat 3)).
Proof.
  apply (C6_tiered_ensemble_policy (fit_constant (Fin 1000))
           (fit_constant (Fin 2000)) true one_day_frame (n := 3) fb0 win0).
  - exact one_day_frame_length.
  - lia.
  - reflexivity.
  - intros f g. apply fit_constant_same_index.
Defined.

(** C7: whenever the length guard is passed (at least 48 rows), the
    horizon [forecast_days] is not negative, the dates of the frame and
    the days of the horizon after them are dates a timestamp can hold, and
    each statsmodels forecast has [steps] entries over the same index, the
    returned frame has exactly [forecast_days] points, and every point has
    lower_bound = 0.8 x estimate and upper_bound = 1.2 x estimate. *)
Theorem C7_forecast_length_and_band
    (holt_winters arima : series -> Z -> result series) (has : bool)
    (data : DataFrame) (forecast_days : Z)
    (s : Firebase.Dashboard) (w : Windows.Dashboard) :
  (48 <= Z.of_nat (length data))%Z -> (0 <= forecast_days)%Z ->
  within_timestamp_range data forecast_days = true ->
  (forall f, holt_winters (daily_totals data) forecast_days = Ok f ->
             length f = Z.to_nat forecast_days) ->
  (forall g, arima (daily_totals data) forecast_days = Ok g ->
             length g = Z.to_nat forecast_days) ->
  (forall f g, holt_winters (daily_totals data) forecast_days = Ok f ->
               arima (daily_totals data) forecast_days = Ok g ->
               index f = index g) ->
  (exists fc,
     Firebase.forecast_consumption holt_winters arima data forecast_days s
       = (Ok fc, s)
     /\ Z.of_nat (length fc) = forecast_days
     /\ Forall band_ok fc)
  /\ (exists fc,
        Windows.forecast_consumption has arima data forecast_days w
          = (Ok fc, w)
        /\ Z.of_nat (length fc) = forecast_days
        /\ Forall band_ok fc).
Proof.
  intros Hlen Hn Hr Hhw Har Hidx. split.
  - destruct (firebase_forecast_spec holt_winters arima data s Hlen Hn Hr
                Hidx) as [fv [Hrun Hvals]].
    exists (forecast_frame fv). split; [exact Hrun |].
    split; [| apply forecast_frame_band].
    rewrite forecast_frame_length.
    replace (length fv) with (length (values fv))
      by (unfold values; apply length_map).
    rewrite Hvals, ensemble_policy_length.
    + apply Z2Nat.id, Hn.
    + apply fitted_values_length, Hhw.
    + apply fitted_values_length, Har.
  - destruct (windows_forecast_spec has arima data w Hlen Hn Hr)
      as [fv [Hrun Hvals]].
    exists (forecast_frame fv). split; [exact Hrun |].
    split; [| apply forecast_frame_band].
    rewrite forecast_frame_length.
    replace (length fv) with (length (values fv))
      by (unfold values; apply length_map).
    rewrite Hvals, ensemble_policy_length.
    + apply Z2Nat.id, Hn.
    + discriminate.
    + destruct has; [apply fitted_values_length, Har | discriminate].
Qed.

Lemma C7_witness :
  (exists fc,
     Firebase.forecast_consumption (fit_constant (Fin 1000))
       (fit_constant (Fin 2000)) one_day_frame 3 fb0 = (Ok fc, fb0)
     /\ Z.of_nat (length fc) = 3%Z
     /\ Forall band_ok fc)
  /\ (exists fc,
        Windows.forecast_consumption false (fit_constant (Fin 2000))
          one_day_frame 3 win0 = (Ok fc, win0)
        /\ Z.of_nat (length fc) = 3%Z
        /\ Forall band_ok fc).
Proof.
  apply (C7_forecast_length_and_band (fit_constant (Fin 1000))
           (fit_constant (Fin 2000)) false one_day_frame
           (forecast_days := 3) fb0 win0).
  - exact one_day_frame_length.
  - lia.
  - reflexivity.
  - intro f. apply fit_constant_length.
  - intro g. apply fit_constant_length.
  - intros f g. apply fit_constant_same_index.
Defined.

(** Past the timestamp range: a horizon of 100000 days from the same
    frame ends in the year 2297.  The fallback raises inside the [try]
    and both versions return the empty frame. *)
Example forecast_past_the_timestamp_range :
  within_timestamp_range one_day_frame 100000 = false
  /\ fst (Firebase.forecast_consumption fit_fails fit_fails
            one_day_frame 100000 fb0) = Ok []
  /\ fst (Windows.forecast_consumption true fit_fails
            one_day_frame 100000 win0) = Ok [].
Proof. vm_compute. repeat split. Qed.

(** C10: for every frame, horizon and behaviour of the statsmodels fits
    (whatever they return or raise), [forecast_consumption] returns: its
    result is a forecast frame or the empty frame, never an exception, and
    the dashboard is left as it was.  Both versions. *)
Theorem C10_forecast_never_raises
    (holt_winters arima : series -> Z -> result series) (has : bool)
    (data : DataFrame) (forecast_days : Z)
    (s : Firebase.Dashboard) (w : Windows.Dashboard) :
  (exists fc,
     Firebase.forecast_consumption holt_winters arima data forecast_days s
       = (Ok fc, s)
     /\ (fc = [] \/ exists fv, fc = forecast_frame fv))
  /\ (exists fc,
        Windows.forecast_consumption has arima data forecast_days w
          = (Ok fc, w)
        /\ (fc = [] \/ exists fv, fc = forecast_frame fv)).
Proof.
  split.
  - apply firebase_never_raises.
  - apply windows_never_raises.
Qed.

(** A fit interrupted from the keyboard and a negative horizon: the bare
    [except:] swallows the interrupt, the fallback then fails on the
    negative period count, and the outer handler returns the empty frame. *)
Example forecast_swallows_everything :
  Firebase.forecast_consumption (fun _ _ => Err KeyboardInterrupt)
    (fun _ _ => Err LinAlgError) one_day_frame (-1) fb0 = (Ok [], fb0).
Proof. vm_compute. reflexivity. Qed.

(** ** Recommendations *)

(** What the Firebase version returns on a non-empty forecast. *)
Lemma firebase_recommendations_spec (a : Analysis) (forecast : Forecast)
    (s : Firebase.Dashboard) :
  forecast <> [] ->
  Firebase.generate_recommendations (Some a) forecast s
  = (Ok (Some {|
       rs_user_id := analysis_user_id a;
       current_daily_avg_ml := avg_daily_consumption_ml a;
       recommended_daily_ml := Fin 2000;
       performance_ratio := fdiv (avg_daily_consumption_ml a) (Fin 2000);
       meeting_goal :=
         fge (fdiv (avg_daily_consumption_ml a) (Fin 2000)) (Fin (9 # 10));
       recommendations := rule_sequence a forecast |}), s).
Proof.
  intro Hne. destruct forecast as [| p f]; [congruence |].
  unfold Firebase.generate_recommendations, ret, rule_sequence.
  unfold append_shortfall, append_timing, append_consistency.
  change (fmul RECOMMENDED_DAILY_ML (Fin (8 # 10)))
    with (Fin (2000 * (8 # 10))).
  change RECOMMENDED_DAILY_ML with (Fin 2000).
  destruct (flt (consistency_score a) (Fin (7 # 10)));
    destruct (18 <? peak_hydration_hour a)%Z;
    destruct (flt (series_mean (map forecasted_consumption_ml (p :: f)))
                  (Fin (2000 * (8 # 10))));
    reflexivity.
Qed.

(** With an empty forecast the Firebase version returns the empty
    dictionary, whatever the analysis. *)
Lemma firebase_empty_forecast (analysis : option Analysis)
    (s : Firebase.Dashboard) :
  Firebase.generate_recommendations analysis [] s = (Ok None, s).
Proof. destruct analysis; reflexivity. Qed.

(** What the Windows version returns, whatever the forecast. *)
Lemma windows_recommendations_spec (a : Analysis) (forecast : Forecast)
    (w : Windows.Dashboard) :
  Windows.generate_recommendations (Some a) forecast w
  = (Ok (Some {|
       rs_user_id := analysis_user_id a;
       current_daily_avg_ml := avg_daily_consumption_ml a;
       recommended_daily_ml := Fin 2000;
       performance_ratio := fdiv (avg_daily_consumption_ml a) (Fin 2000);
       meeting_goal :=
         fge (fdiv (avg_daily_consumption_ml a) (Fin 2000)) (Fin (9 # 10));
       recommendations :=
         [intake_recommendation (avg_daily_consumption_ml a)
            (fdiv (avg_daily_consumption_ml a) (Fin 2000))]
         ++ (if flt (consistency_score a) (Fin (7 # 10))
             then [consistency_recommendation] else []) |}), w).
Proof.
  unfold Windows.generate_recommendations, ret, append_consistency.
  change RECOMMENDED_DAILY_ML with (Fin 2000).
  destruct (flt (consistency_score a) (Fin (7 # 10))); reflexivity.
Qed.

Lemma rule_sequence_in_order (a : Analysis) (forecast : Forecast) :
  in_rule_order a forecast (rule_sequence a forecast).
Proof.
  unfold in_rule_order, rule_sequence.
  eexists _, _, _. split; [reflexivity |].
  split; [| split].
  - destruct (flt (consistency_score a) (Fin (7 # 10)));
      [right; split; reflexivity | left; reflexivity].
  - destruct (18 <? peak_hydration_hour a)%Z eqn:E;
      [right; split; [reflexivity | apply Z.ltb_lt, E] | left; reflexivity].
  - destruct forecast as [| p f]; [left; reflexivity |].
    cbn [length Nat.eqb negb andb].
    destruct (flt (series_mean (map forecasted_consumption_ml (p :: f)))
                  (Fin (2000 * (8 # 10))));
      [right; repeat split; discriminate | left; reflexivity].
Qed.

(** C2 (evaluation of the code): a populated analysis (below goal,
    irregular, evening peak) with an empty forecast.  The Firebase version
    returns the empty dictionary: no recommendation at all.  The Windows
    version returns the intake and consistency recommendations; it has no
    timing rule, so the evening peak goes unreported there. *)
Theorem C2_empty_forecast_drops_recommendations :
  Firebase.generate_recommendations (Some evening_analysis) [] fb0
    = (Ok None, fb0)
  /\ match fst (Windows.generate_recommendations (Some evening_analysis) []
                  win0) with
     | Ok (Some rs) =>
         map category (recommendations rs)
         = ["Increase Intake"; "Improve Consistency"]%string
     | _ => False
     end
  /\ match fst (Firebase.generate_recommendations (Some evening_analysis)
                  (flat_forecast 2000) fb0) with
     | Ok (Some rs) =>
         map category (recommendations rs)
         = ["Increase Intake"; "Improve Consistency";
            "Timing Optimization"]%string
     | _ => False
     end.
Proof. vm_compute. repeat split. Qed.

(** ** The intake rule *)

Lemma ratio_not_nan (avg : pyfloat) :
  is_nan avg = false -> is_nan (fdiv avg (Fin 2000)) = false.
Proof. destruct avg; intro H; try discriminate; reflexivity. Qed.

Lemma is_intake_intake (avg ratio : pyfloat) :
  is_intake (intake_recommendation avg ratio) = true.
Proof.
  unfold intake_recommendation.
  destruct (flt ratio (Fin (7 # 10))); [reflexivity |].
  destruct (flt ratio (Fin (9 # 10))); reflexivity.
Qed.

Ltac to_Q :=
  repeat match goal with
  | H : Qlt_bool _ _ = true |- _ => apply Qlt_bool_iff in H
  | H : Qlt_bool _ _ = false |- _ => apply Qlt_bool_false_iff in H
  | H : Qle_bool _ _ = true |- _ => apply Qle_bool_iff in H
  | |- Qlt_bool _ _ = true => apply Qlt_bool_iff
  | |- Qlt_bool _ _ = false => apply Qlt_bool_false_iff
  | |- Qle_bool _ _ = true => apply Qle_bool_iff
  end.

(** The three branches against the thresholds, for a ratio that is a
    number. *)
Lemma intake_branches (avg ratio : pyfloat) :
  is_nan ratio = false ->
  let r := intake_recommendation avg ratio in
  (priority r = HIGH /\ category r = "Increase Intake"%string
   <-> flt ratio (Fin (7 # 10)) = true)
  /\ (priority r = MEDIUM /\ category r = "Minor Adjustment"%string
      <-> fle (Fin (7 # 10)) ratio = true /\ flt ratio (Fin (9 # 10)) = true)
  /\ (priority r = INFO /\ category r = "Great Job!"%string
      <-> fge ratio (Fin (9 # 10)) = true).
Proof.
  intros Hnan r. subst r. unfold intake_recommendation, fge.
  destruct ratio as [q | | |]; try discriminate; simpl.
  - destruct (Qlt_bool q (7 # 10)) eqn:E7;
      [| destruct (Qlt_bool q (9 # 10)) eqn:E9]; simpl;
      repeat split; intros;
      repeat match goal with H : _ /\ _ |- _ => destruct H end;
      first [ reflexivity | congruence | (to_Q; lra) | (exfalso; to_Q; lra) ].
  - repeat split; intros;
      repeat match goal with H : _ /\ _ |- _ => destruct H end; congruence.
  - repeat split; intros;
      repeat match goal with H : _ /\ _ |- _ => destruct H end; congruence.
Qed.

(** Among the recommendations of a sequence that starts with the intake
    recommendation and goes on without another one, exactly one intake
    recommendation fired: the one the thresholds select. *)
Lemma intake_verdict_intro (avg ratio : pyfloat) (rest : list Recommendation) :
  is_nan ratio = false ->
  filter is_intake rest = [] ->
  intake_verdict ratio ([intake_recommendation avg ratio] ++ rest).
Proof.
  intros Hnan Hrest.
  exists (priority (intake_recommendation avg ratio)),
         (category (intake_recommendation avg ratio)).
  split.
  - unfold intake_fired. simpl. rewrite is_intake_intake, Hrest. reflexivity.
  - apply intake_branches, Hnan.
Qed.

Lemma conditional_rules_not_intake (a : Analysis) (forecast : Forecast) :
  filter is_intake
    ((if flt (consistency_score a) (Fin (7 # 10))
      then [consistency_recommendation] else [])
     ++ (if (18 <? peak_hydration_hour a)%Z
         then [timing_recommendation] else [])
     ++ (if negb (Nat.eqb (length forecast) 0)
            && flt (series_mean (map forecasted_consumption_ml forecast))
                   (Fin (2000 * (8 # 10)))
         then [shortfall_recommendation
                 (series_mean (map forecasted_consumption_ml forecast))]
         else []))
  = [].
Proof.
  destruct (flt (consistency_score a) (Fin (7 # 10)));
    destruct (18 <? peak_hydration_hour a)%Z;
    destruct (negb (Nat.eqb (length forecast) 0)
              && flt (series_mean (map forecasted_consumption_ml forecast))
                     (Fin (2000 * (8 # 10))));
    reflexivity.
Qed.




Lemma flat_forecast_nonempty (v : Q) : flat_forecast v <> [].
Proof. discriminate. Qed.


(** The thresholds themselves: the boundary values 0.7 and 0.9 belong to
    the upper branch. *)
Example intake_boundaries :
  map (fun q => priority (intake_recommendation (Fin (q * 2000)) (Fin q)))
      [69999 # 100000; 7 # 10; 89999 # 100000; 9 # 10; 15 # 10]
  = [HIGH; MEDIUM; MEDIUM; INFO; INFO].
Proof. vm_compute. reflexivity. Qed.

(** A NaN average is no number: every comparison fails and the code falls
    through to its last branch. *)
Example intake_on_nan (avg : pyfloat) :
  priority (intake_recommendation avg NaN) = INFO
  /\ fge NaN (Fin (9 # 10)) = false.
Proof. split; reflexivity. Qed.

(** C9: the recommendations of a returned set are in the fixed rule
    order, built by appending: the intake recommendation first, then the
    consistency recommendation (only when consistency_score < 0.7), then
    the timing recommendation (only when peak_hydration_hour > 18), then
    the forecast-shortfall recommendation (only when the forecast is
    non-empty and its mean is below 2000 x 0.8), each at most once.  The
    Firebase version returns exactly the four-rule sequence; the Windows
    version has the first two rules only. *)
Theorem C9_fixed_rule_order (a : Analysis) (forecast forecast' : Forecast)
    (s : Firebase.Dashboard) (w : Windows.Dashboard) :
  forecast <> [] ->
  (exists rs,
     Firebase.generate_recommendations (Some a) forecast s = (Ok (Some rs), s)
     /\ recommendations rs = rule_sequence a forecast
     /\ in_rule_order a forecast (recommendations rs))
  /\ (exists rs,
        Windows.generate_recommendations (Some a) forecast' w
          = (Ok (Some rs), w)
        /\ in_rule_order a forecast' (recommendations rs)).
Proof.
  intro Hne. split.
  - eexists. split; [apply firebase_recommendations_spec, Hne |].
    split; [reflexivity |]. apply rule_sequence_in_order.
  - eexists. split; [apply windows_recommendations_spec |].
    simpl. unfold in_rule_order.
    exists (if flt (consistency_score a) (Fin (7 # 10))
            then [consistency_recommendation] else []), [], [].
    split; [rewrite !app_nil_r; reflexivity |].
    split; [| split; left; reflexivity].
    destruct (flt (consistency_score a) (Fin (7 # 10)));
      [right; split; reflexivity | left; reflexivity].
Qed.

Lemma C9_witness :
  (exists rs,
     Firebase.generate_recommendations (Some good_analysis)
       (flat_forecast 1000) fb0 = (Ok (Some rs), fb0)
     /\ recommendations rs = rule_sequence good_analysis (flat_forecast 1000)
     /\ in_rule_order good_analysis (flat_forecast 1000) (recommendations rs))
  /\ (exists rs,
        Windows.generate_recommendations (Some good_analysis) [] win0
          = (Ok (Some rs), win0)
        /\ in_rule_order good_analysis [] (recommendations rs)).
Proof.
  apply (C9_fixed_rule_order good_analysis (forecast := flat_forecast 1000)
           [] fb0 win0).
  apply flat_forecast_nonempty.
Defined.

(** The sequence is not sorted by priority: a user who meets the goal but
    is irregular, drinks late and is forecast short gets INFO before
    MEDIUM before LOW before MEDIUM. *)
Example priorities_left_in_rule_order :
  map priority (rule_sequence good_analysis (flat_forecast 1000))
  = [INFO; MEDIUM; LOW; MEDIUM].
Proof. vm_compute. reflexivity. Qed.

(* ================================================================== *)
(** * Further properties *)

(** ** The simulated bottle *)

Lemma clamp_level_bounds (x : Q) : 0 <= clamp_level x /\ clamp_level x <= 100.
Proof.
  unfold clamp_level.
  destruct (Qlt_bool x 100) eqn:E1.
  - destruct (Qlt_bool 0 x) eqn:E2; to_Q; split; lra.
  - destruct (Qlt_bool 0 100) eqn:E2; to_Q; split; lra.
Qed.

Lemma walk_step_bounds (draws : nat -> Q) (st : Q * nat) (p : Q) :
  0 <= fst (walk_step draws st p) /\ fst (walk_step draws st p) <= 100.
Proof.
  unfold walk_step. destruct st as [lvl pos].
  repeat match goal with
         | |- context [let '(_, _) := (if ?b then _ else _) in _] =>
             destruct b
         end; simpl; apply clamp_level_bounds.
Qed.

Lemma walk_bounds (draws : nat -> Q) (st : Q * nat) (daily_pattern : list Q) :
  Forall (fun l => 0 <= l /\ l <= 100) (walk draws st daily_pattern).
Proof.
  revert st. induction daily_pattern as [| p rest IH]; intro st; simpl.
  - constructor.
  - constructor; [apply walk_step_bounds | apply IH].
Qed.

Lemma walk_length (draws : nat -> Q) (st : Q * nat) (daily_pattern : list Q) :
  length (walk draws st daily_pattern) = length daily_pattern.
Proof.
  revert st. induction daily_pattern as [| p rest IH]; intro st; simpl;
    [reflexivity | f_equal; apply IH].
Qed.

(** X1: whatever the pattern, the draws and the state the loop starts
    from, there is one simulated water level per pattern value and every
    level lies between 0 and 100. *)
Theorem X1_levels_within_bottle (draws : nat -> Q) (st : Q * nat)
    (daily_pattern : list Q) :
  Forall (fun l => 0 <= l /\ l <= 100) (walk draws st daily_pattern)
  /\ length (walk draws st daily_pattern) = length daily_pattern.
Proof.
  split; [apply walk_bounds | apply walk_length].
Qed.

Lemma clamp_level_id (x : Q) : 0 <= x -> x <= 100 -> clamp_level x == x.
Proof.
  intros H0 H1. unfold clamp_level.
  destruct (Qlt_bool x 100) eqn:E1.
  - destruct (Qlt_bool 0 x) eqn:E2; to_Q; lra.
  - destruct (Qlt_bool 0 100) eqn:E2; to_Q; lra.
Qed.

Lemma clamp_level_low (x : Q) : x <= 100 -> x <= clamp_level x.
Proof.
  intros H1. unfold clamp_level.
  destruct (Qlt_bool x 100) eqn:E1.
  - destruct (Qlt_bool 0 x) eqn:E2; to_Q; lra.
  - destruct (Qlt_bool 0 100) eqn:E2; to_Q; lra.
Qed.

Lemma clamp_level_high (x y : Q) : 0 <= y -> x <= y -> clamp_level x <= y.
Proof.
  intros H0 H1. unfold clamp_level.
  destruct (Qlt_bool x 100) eqn:E1.
  - destruct (Qlt_bool 0 x) eqn:E2; to_Q; lra.
  - destruct (Qlt_bool 0 100) eqn:E2; to_Q; lra.
Qed.

Lemma clamp_level_100 : clamp_level 100 == 100.
Proof. vm_compute. reflexivity. Qed.

(** One turn of the loop from a level inside the bottle. *)
Lemma walk_step_spec (draws : nat -> Q) (lvl : Q) (pos : nat) (p : Q) :
  (forall i, 0 <= draws i /\ draws i < 1) ->
  0 <= lvl -> lvl <= 100 ->
  let l := fst (walk_step draws (lvl, pos) p) in
  l == 100 \/ (lvl - 20 < l /\ l <= lvl).
Proof.
  intros Hd H0 H1. unfold walk_step.
  pose proof (Hd (S pos)) as [Hu0 Hu1].
  assert (Hdrop : lvl - (50 + (200 - 50) * draws (S pos)) / 1000 * 100
                  == lvl - 5 - 15 * draws (S pos)) by field.
  destruct (Qlt_bool (draws pos) (p * (3 # 10))).
  - destruct (Qlt_bool (lvl - (50 + (200 - 50) * draws (S pos)) / 1000 * 100) 20).
    + destruct (Qlt_bool (draws (S (S pos))) (7 # 10)); simpl.
      * left. apply clamp_level_100.
      * right. split.
        -- eapply Qlt_le_trans; [| apply clamp_level_low]; lra.
        -- apply clamp_level_high; lra.
    + simpl. right. split.
      * eapply Qlt_le_trans; [| apply clamp_level_low]; lra.
      * apply clamp_level_high; lra.
  - destruct (Qlt_bool lvl 20).
    + destruct (Qlt_bool (draws (S pos)) (7 # 10)); simpl.
      * left. apply clamp_level_100.
      * right. rewrite clamp_level_id by lra. lra.
    + simpl. right. rewrite clamp_level_id by lra. lra.
Qed.

Lemma walk_steps (draws : nat -> Q) (lvl : Q) (pos : nat)
    (daily_pattern : list Q) :
  (forall i, 0 <= draws i /\ draws i < 1) ->
  0 <= lvl -> lvl <= 100 ->
  steps_from lvl (walk draws (lvl, pos) daily_pattern).
Proof.
  intro Hd. revert lvl pos.
  induction daily_pattern as [| p rest IH]; intros lvl pos H0 H1.
  - exact I.
  - change (walk draws (lvl, pos) (p :: rest))
      with (fst (walk_step draws (lvl, pos) p)
            :: walk draws (walk_step draws (lvl, pos) p) rest).
    cbn [steps_from]. split; [apply walk_step_spec; assumption |].
    pose proof (walk_step_bounds draws (lvl, pos) p) as Hb.
    destruct (walk_step draws (lvl, pos) p) as [l pos'].
    cbn [fst] in *. apply IH; apply Hb.
Qed.

(** X2: when the draws are uniform draws (in [0, 1)), the simulated level
    starts from a full bottle and each reading is either a refill to 100
    or the reading before lowered by less than 20 points: the level never
    rises except by a refill. *)
Theorem X2_levels_fall_until_refill (draws : nat -> Q) (pos : nat)
    (daily_pattern : list Q) :
  (forall i, 0 <= draws i /\ draws i < 1) ->
  steps_from 100 (walk draws (100, pos) daily_pattern).
Proof.
  intro Hd. apply walk_steps; [exact Hd | lra | lra].
Qed.

Lemma X2_witness :
  steps_from 100
    (walk quarter_draws (100, O) (map full_pattern (seq 0 12))).
Proof.
  apply (X2_levels_fall_until_refill quarter_draws O
           (map full_pattern (seq 0 12))).
  intro i. unfold quarter_draws. split; lra.
Defined.

(** ** The simulated frame *)

Lemma diff_from_length (prev : pyfloat) (xs : list pyfloat) :
  length (diff_from prev xs) = length xs.
Proof.
  revert prev. induction xs as [| x r IH]; intro prev; simpl;
    [reflexivity | f_equal; apply IH].
Qed.

Lemma consumption_column_length (volumes : list pyfloat) :
  length (consumption_column volumes) = length volumes.
Proof.
  unfold consumption_column. rewrite !length_map.
  destruct volumes; simpl; [reflexivity | f_equal; apply diff_from_length].
Qed.

Lemma group_cumsum_length (acc : series) (keys : list Z)
    (col : list pyfloat) :
  length (group_cumsum acc keys col) = Nat.min (length keys) (length col).
Proof.
  revert acc col. induction keys as [| k keys IH]; intros acc col.
  - reflexivity.
  - destruct col as [| v col]; [reflexivity |].
    simpl. f_equal. apply IH.
Qed.

(** The frame has one row per timestamp when there is one level per
    timestamp. *)
Lemma frame_length (uid : string) (timestamps : list Z)
    (water_levels : list pyfloat) :
  length water_levels = length timestamps ->
  length (_generate_simulated_data uid timestamps water_levels)
  = length timestamps.
Proof.
  intro H. unfold _generate_simulated_data.
  rewrite length_map.
  repeat rewrite length_combine.
  rewrite group_cumsum_length.
  rewrite !length_map, consumption_column_length, !length_map, H.
  repeat rewrite Nat.min_id. reflexivity.
Qed.

Lemma half_hours_length (end_time days : Z) :
  (0 <= days)%Z ->
  Z.of_nat (length (half_hours end_time days)) = (48 * days + 1)%Z.
Proof.
  intro H. unfold half_hours.
  destruct (days <? 0)%Z eqn:E; [apply Z.ltb_lt in E; lia |].
  rewrite length_map, length_seq. lia.
Qed.

Lemma generated_frame_length (pattern draws : nat -> Q) (uid : string)
    (timestamps : list Z) :
  length (generated_frame pattern draws uid timestamps) = length timestamps.
Proof.
  unfold generated_frame. apply frame_length.
  rewrite length_map, walk_length, length_map, length_seq. reflexivity.
Qed.

(** Within the timestamp range the timestamps are the half hours of the
    window. *)
Lemma sample_times_ok (end_time days : Z) :
  window_in_range end_time days = true ->
  sample_times end_time days = Ok (half_hours end_time days).
Proof.
  unfold window_in_range. intro H.
  apply andb_prop in H. destruct H as [H H4].
  apply andb_prop in H. destruct H as [H H3].
  apply andb_prop in H. destruct H as [H1 H2].
  pose proof H1 as L1. pose proof H2 as L2.
  pose proof H3 as L3. pose proof H4 as L4.
  apply Z.leb_le in L1. apply Z.leb_le in L2.
  apply Z.leb_le in L3. apply Z.leb_le in L4.
  unfold TIMESTAMP_MIN, TIMESTAMP_MAX in L1, L2, L3, L4.
  unfold sample_times, timedelta_days.
  assert (E1 : (Z.abs days <=? TIMEDELTA_MAX_DAYS)%Z = true)
    by (apply Z.leb_le; unfold TIMEDELTA_MAX_DAYS; lia).
  rewrite E1. unfold datetime_sub.
  assert (E2 : ((DATETIME_MIN <=? end_time - 86400 * days)
                && (end_time - 86400 * days <=? DATETIME_MAX))%Z = true).
  { apply andb_true_intro.
    split; apply Z.leb_le; unfold DATETIME_MIN, DATETIME_MAX; lia. }
  rewrite E2. unfold half_hour_range, to_timestamp.
  rewrite H1, H2, H3, H4. cbn [andb]. f_equal.
  unfold half_hours. cbv zeta.
  destruct (days <? 0)%Z eqn:Ed.
  - apply Z.ltb_lt in Ed.
    assert (E : (end_time <? end_time - 86400 * days)%Z = true)
      by (apply Z.ltb_lt; lia).
    rewrite E. reflexivity.
  - apply Z.ltb_ge in Ed.
    assert (E : (end_time <? end_time - 86400 * days)%Z = false)
      by (apply Z.ltb_ge; lia).
    rewrite E.
    replace (end_time - (end_time - 86400 * days))%Z
      with (48 * days * 1800)%Z by lia.
    rewrite Z.div_mul by lia. reflexivity.
Qed.

(** Outside it the timestamps cannot be made. *)
Lemma sample_times_err (end_time days : Z) :
  window_in_range end_time days = false ->
  exists x, sample_times end_time days = Err x
            /\ (x = OverflowError \/ x = OutOfBoundsDatetime).
Proof.
  unfold window_in_range. intro H.
  unfold sample_times, timedelta_days.
  destruct (Z.abs days <=? TIMEDELTA_MAX_DAYS)%Z;
    [| exists OverflowError; split; [reflexivity | left; reflexivity]].
  unfold datetime_sub.
  destruct ((DATETIME_MIN <=? end_time - 86400 * days)
            && (end_time - 86400 * days <=? DATETIME_MAX))%Z;
    [| exists OverflowError; split; [reflexivity | left; reflexivity]].
  unfold half_hour_range, to_timestamp.
  destruct ((TIMESTAMP_MIN <=? end_time - 86400 * days)
            && (end_time - 86400 * days <=? TIMESTAMP_MAX))%Z eqn:E1;
    [| exists OutOfBoundsDatetime; split; [reflexivity | right; reflexivity]].
  rewrite <- andb_assoc in H. cbn [andb] in H. rewrite H.
  exists OutOfBoundsDatetime. split; [reflexivity | right; reflexivity].
Qed.

Lemma firebase_fetch_ok (end_time : Z) (pattern draws : nat -> Q)
    (uid : string) (days : Z) (s : Firebase.Dashboard) :
  window_in_range end_time days = true ->
  FirebaseApp.fetch_user_data end_time pattern draws uid days s
  = (Ok (generated_frame pattern draws uid (half_hours end_time days)), s).
Proof.
  intro H.
  unfold FirebaseApp.fetch_user_data, try_except_Exception, call,
    simulated_frame.
  rewrite (sample_times_ok _ _ H). reflexivity.
Qed.

(** The handler of the Firebase version turns the failure into the empty
    frame. *)
Lemma firebase_fetch_err (end_time : Z) (pattern draws : nat -> Q)
    (uid : string) (days : Z) (s : Firebase.Dashboard) :
  window_in_range end_time days = false ->
  FirebaseApp.fetch_user_data end_time pattern draws uid days s = (Ok [], s).
Proof.
  intro H. destruct (sample_times_err _ _ H) as [x [E Hx]].
  unfold FirebaseApp.fetch_user_data, try_except_Exception, call,
    simulated_frame.
  rewrite E. destruct Hx; subst; reflexivity.
Qed.

Lemma windows_fetch_ok (end_time : Z) (pattern draws : nat -> Q)
    (uid : string) (days : Z) (w : Windows.Dashboard) :
  window_in_range end_time days = true ->
  WindowsApp.fetch_user_data end_time pattern draws uid days w
  = (Ok (generated_frame pattern draws uid (half_hours end_time days)), w).
Proof.
  intro H. unfold WindowsApp.fetch_user_data, call, simulated_frame.
  rewrite (sample_times_ok _ _ H). reflexivity.
Qed.

(** The Windows version has no handler: the failure goes on. *)
Lemma windows_fetch_err (end_time : Z) (pattern draws : nat -> Q)
    (uid : string) (days : Z) (w : Windows.Dashboard) :
  window_in_range end_time days = false ->
  exists x,
    WindowsApp.fetch_user_data end_time pattern draws uid days w = (Err x, w)
    /\ (x = OverflowError \/ x = OutOfBoundsDatetime).
Proof.
  intro H. destruct (sample_times_err _ _ H) as [x [E Hx]].
  exists x. split; [| exact Hx].
  unfold WindowsApp.fetch_user_data, call, simulated_frame.
  rewrite E. reflexivity.
Qed.

(** X3: [fetch_user_data] on a window of [days] days that ends at the
    clock.  When the window lies within the timestamp range both versions
    return the same frame and leave the dashboard alone: 48 rows per day
    plus one for a non-negative number of days (both ends of the window
    are sampled), the empty frame for a negative one.  When it does not,
    the timestamps cannot be made: the Firebase version returns the empty
    frame, the Windows version raises. *)
Theorem X3_fetch_row_count (end_time : Z) (pattern draws : nat -> Q)
    (uid : string) (days : Z)
    (s : Firebase.Dashboard) (w : Windows.Dashboard) :
  if window_in_range end_time days then
    exists data,
      FirebaseApp.fetch_user_data end_time pattern draws uid days s
        = (Ok data, s)
      /\ WindowsApp.fetch_user_data end_time pattern draws uid days w
          = (Ok data, w)
      /\ ((0 <= days)%Z -> Z.of_nat (length data) = (48 * days + 1)%Z)
      /\ ((days < 0)%Z -> data = [])
  else
    FirebaseApp.fetch_user_data end_time pattern draws uid days s
      = (Ok [], s)
    /\ exists x,
         WindowsApp.fetch_user_data end_time pattern draws uid days w
           = (Err x, w)
         /\ (x = OverflowError \/ x = OutOfBoundsDatetime).
Proof.
  destruct (window_in_range end_time days) eqn:Hw.
  - exists (generated_frame pattern draws uid (half_hours end_time days)).
    split; [apply firebase_fetch_ok, Hw |].
    split; [apply windows_fetch_ok, Hw |]. split.
    + intro H. rewrite generated_frame_length. apply half_hours_length, H.
    + intro H. apply Z.ltb_lt in H.
      unfold half_hours. cbv zeta. rewrite H. reflexivity.
  - split; [apply firebase_fetch_err, Hw | apply windows_fetch_err, Hw].
Qed.

Lemma X3_witness :
  exists data,
    FirebaseApp.fetch_user_data t0 full_pattern quarter_draws "USER_001" 14
      fb0 = (Ok data, fb0)
    /\ Z.of_nat (length data) = 673%Z.
Proof.
  pose proof (X3_fetch_row_count t0 full_pattern quarter_draws "USER_001" 14
                fb0 win0) as H.
  change (window_in_range t0 14) with true in H.
  destruct H as [data [Hf [_ [Hn _]]]].
  exists data. split; [exact Hf |]. apply Hn. lia.
Defined.

(** A billion days of history: no [timedelta] holds them.  The Firebase
    version reports no data, the Windows version raises. *)
Example fetch_of_a_billion_days :
  FirebaseApp.fetch_user_data t0 full_pattern quarter_draws "USER_001"
    1000000000 fb0 = (Ok [], fb0)
  /\ WindowsApp.fetch_user_data t0 full_pattern quarter_draws "USER_001"
       1000000000 win0 = (Err OverflowError, win0).
Proof. split; reflexivity. Qed.

(** ** The arg-max *)

Ltac finite x :=
  destruct x; try discriminate.

Lemma idxmax_from_spec (s : series) (bk : Z) (bv : pyfloat) :
  is_finite bv = true -> all_finite s ->
  StronglySorted Z.lt (bk :: index s) ->
  exists vk,
    is_finite vk = true
    /\ ((idxmax_from bk bv s, vk) = (bk, bv)
        \/ In (idxmax_from bk bv s, vk) s)
    /\ fle bv vk = true
    /\ (idxmax_from bk bv s <> bk -> flt bv vk = true)
    /\ forall k' v', In (k', v') s ->
         fle v' vk = true
         /\ ((k' < idxmax_from bk bv s)%Z -> flt v' vk = true).
Proof.
  revert bk bv. induction s as [| [k1 v1] rest IH]; intros bk bv Hbv Hs Hsort.
  - exists bv. simpl. split; [exact Hbv |]. split; [left; reflexivity |].
    split; [finite bv; simpl; to_Q; lra |].
    split; [congruence | intros ? ? []].
  - inversion Hs as [| ? ? Hv1 Hrest]; subst. simpl in Hv1.
    unfold index in Hsort. simpl in Hsort.
    inversion Hsort as [| ? ? Hsort1 Hall]; subst.
    inversion Hall as [| ? ? Hbk1 Hall']; subst.
    simpl. destruct (flt bv v1) eqn:E.
    + destruct (IH k1 v1 Hv1 Hrest Hsort1)
        as [vk [Hfin [Hin [Hle [Hne Hmax]]]]].
      exists vk. split; [exact Hfin |]. split.
      { right. destruct Hin as [Hin | Hin];
          [left; symmetry; exact Hin | right; exact Hin]. }
      assert (Hlt : flt bv vk = true).
      { finite bv; finite v1; finite vk; simpl in *; to_Q; lra. }
      split; [finite bv; finite vk; simpl in *; to_Q; lra |].
      split; [intros _; exact Hlt |].
      intros k' v' [Heq | Hin'].
      * injection Heq as <- <-. split; [exact Hle |].
        intro Hk. apply Hne. lia.
      * apply Hmax, Hin'.
    + assert (Hsort' : StronglySorted Z.lt (bk :: index rest)).
      { constructor; [inversion Hsort1; assumption | exact Hall']. }
      destruct (IH bk bv Hbv Hrest Hsort')
        as [vk [Hfin [Hin [Hle [Hne Hmax]]]]].
      exists vk. split; [exact Hfin |]. split.
      { destruct Hin as [Hin | Hin];
          [left; exact Hin | right; right; exact Hin]. }
      split; [exact Hle |]. split; [exact Hne |].
      intros k' v' [Heq | Hin'].
      * injection Heq as <- <-. split.
        -- finite bv; finite v1; finite vk; simpl in *; to_Q; lra.
        -- intro Hk. assert (Hn : idxmax_from bk bv rest <> bk) by lia.
           specialize (Hne Hn).
           finite bv; finite v1; finite vk; simpl in *; to_Q; lra.
      * apply Hmax, Hin'.
Qed.

(** On a finite series with increasing index, [idxmax] returns the
    smallest index among those of maximal value. *)
Lemma idxmax_is_argmax (s : series) (k : Z) :
  all_finite s -> StronglySorted Z.lt (index s) ->
  idxmax s = Some k ->
  exists vk,
    In (k, vk) s
    /\ forall k' v', In (k', v') s ->
         fle v' vk = true /\ ((k' < k)%Z -> flt v' vk = true).
Proof.
  intros Hs Hsort Hk. destruct s as [| [k0 v0] rest]; [discriminate |].
  inversion Hs as [| ? ? Hv0 Hrest]; subst. simpl in Hv0.
  simpl in Hk. finite v0. simpl in Hk. injection Hk as <-.
  destruct (@idxmax_from_spec rest k0 (Fin q) eq_refl Hrest Hsort)
    as [vk [Hfin [Hin [Hle [Hne Hmax]]]]].
  exists vk. split.
  - destruct Hin as [Hin | Hin]; [left; symmetry; exact Hin | right; exact Hin].
  - intros k' v' [Heq | Hin'].
    + injection Heq as <- <-. split; [exact Hle |].
      intro Hlt. apply Hne. lia.
    + apply Hmax, Hin'.
Qed.

Lemma idxmax_in_index (s : series) (k : Z) :
  all_finite s -> StronglySorted Z.lt (index s) ->
  idxmax s = Some k -> In k (index s).
Proof.
  intros Hs Hsort Hk.
  destruct (idxmax_is_argmax Hs Hsort Hk) as [vk [Hin _]].
  unfold index. apply in_map_iff. exists (k, vk). split; [reflexivity | exact Hin].
Qed.

(** ** The analysis, field by field *)

Lemma analyze_fields (S : Type) (uid : string) (data : DataFrame) (s : S) :
  data <> [] -> finite_readings data ->
  exists a,
    analyze_user_patterns uid data s = (Ok (Some a), s)
    /\ idxmax (hourly_pattern data) = Some (peak_hydration_hour a)
    /\ idxmax (weekly_pattern data) = Some (peak_hydration_day a)
    /\ total_consumption_ml a = series_sum (map consumption_ml data)
    /\ avg_daily_consumption_ml a = series_mean (values (daily_totals data))
    /\ avg_drinking_events_per_day a
       = series_mean (values (drinking_events data))
    /\ days_analyzed a = length (daily_totals data).
Proof.
  intros Hne Hfin.
  destruct (idxmax_defined (s := hourly_pattern data)) as [h Hh].
  { apply groupby_sum_nonempty, Hne. }
  { apply groupby_sum_finite, Hfin. }
  destruct (idxmax_defined (s := weekly_pattern data)) as [d Hd].
  { apply groupby_sum_nonempty, Hne. }
  { apply groupby_sum_finite, Hfin. }
  destruct data as [| r rest]; [congruence |].
  unfold analyze_user_patterns, bind, call, idxmax_call, ret.
  fold (hourly_pattern (r :: rest)). fold (weekly_pattern (r :: rest)).
  rewrite Hh, Hd.
  eexists. split; [reflexivity |]. simpl. repeat split.
Qed.

Lemma dt_hour_range (ts : Z) : (0 <= dt_hour ts <= 23)%Z.
Proof.
  unfold dt_hour.
  pose proof (Z.mod_pos_bound ts 86400 ltac:(lia)) as H.
  split.
  - apply Z.div_pos; lia.
  - assert ((ts mod 86400) / 3600 < 24)%Z; [| lia].
    apply Z.div_lt_upper_bound; lia.
Qed.

Lemma dt_dayofweek_range (ts : Z) : (0 <= dt_dayofweek ts <= 6)%Z.
Proof.
  unfold dt_dayofweek.
  pose proof (Z.mod_pos_bound (ts / 86400 + 3) 7 ltac:(lia)). lia.
Qed.

(** X5: on a non-empty frame of finite readings the analysis is returned
    and its peak hour is an hour of day (0 to 23) at which some reading
    was taken, its peak day a day of week (0 to 6) on which some reading
    was taken. *)
Theorem X5_peaks_are_observed (S : Type) (uid : string) (data : DataFrame)
    (s : S) :
  data <> [] -> finite_readings data ->
  exists a,
    analyze_user_patterns uid data s = (Ok (Some a), s)
    /\ (0 <= peak_hydration_hour a <= 23)%Z
    /\ (0 <= peak_hydration_day a <= 6)%Z
    /\ (exists r, In r data /\ dt_hour (timestamp r) = peak_hydration_hour a)
    /\ (exists r, In r data
                  /\ dt_dayofweek (timestamp r) = peak_hydration_day a).
Proof.
  intros Hne Hfin.
  destruct (analyze_fields uid s Hne Hfin) as [a [Ha [Hh [Hd _]]]].
  exists a. split; [exact Ha |].
  apply idxmax_in_index in Hh;
    [| apply groupby_sum_finite, Hfin | apply groupby_sum_sorted].
  apply idxmax_in_index in Hd;
    [| apply groupby_sum_finite, Hfin | apply groupby_sum_sorted].
  apply groupby_sum_index, in_map_iff in Hh. destruct Hh as [rh [Eh Hrh]].
  apply groupby_sum_index, in_map_iff in Hd. destruct Hd as [rd [Ed Hrd]].
  rewrite <- Eh, <- Ed.
  split; [apply dt_hour_range |]. split; [apply dt_dayofweek_range |].
  split; [exists rh | exists rd]; split; auto.
Qed.

Lemma idle_frame_nonempty : idle_frame <> [].
Proof. vm_compute. discriminate. Qed.

Lemma X5_witness :
  exists a,
    analyze_user_patterns "USER_001" idle_frame fb0 = (Ok (Some a), fb0)
    /\ (0 <= peak_hydration_hour a <= 23)%Z
    /\ (0 <= peak_hydration_day a <= 6)%Z
    /\ (exists r, In r idle_frame
                  /\ dt_hour (timestamp r) = peak_hydration_hour a)
    /\ (exists r, In r idle_frame
                  /\ dt_dayofweek (timestamp r) = peak_hydration_day a).
Proof.
  apply (@X5_peaks_are_observed Firebase.Dashboard "USER_001" idle_frame fb0).
  - exact idle_frame_nonempty.
  - exact idle_frame_finite.
Defined.

(** X6: days_analyzed is the number of distinct dates in the frame, and
    the daily totals come one per date in increasing date order, whatever
    the order of the rows. *)
Theorem X6_days_analyzed_counts_dates (S : Type) (uid : string)
    (data : DataFrame) (s : S) :
  data <> [] -> finite_readings data ->
  exists a,
    analyze_user_patterns uid data s = (Ok (Some a), s)
    /\ days_analyzed a = length (nodup Z.eq_dec (map date data))
    /\ StronglySorted Z.lt (index (daily_totals data))
    /\ forall d, In d (index (daily_totals data)) <-> In d (map date data).
Proof.
  intros Hne Hfin.
  destruct (analyze_fields uid s Hne Hfin) as [a [Ha [_ [_ [_ [_ [_ Hn]]]]]]].
  exists a. split; [exact Ha |].
  split; [| split; [apply groupby_sum_sorted | apply groupby_sum_index]].
  rewrite Hn, <- index_length.
  apply Permutation_length, NoDup_Permutation.
  - apply sorted_lt_NoDup, groupby_sum_sorted.
  - apply NoDup_nodup.
  - intro d. unfold daily_totals. rewrite groupby_sum_index, nodup_In.
    reflexivity.
Qed.

Lemma X6_witness :
  exists a,
    analyze_user_patterns "USER_001" idle_frame fb0 = (Ok (Some a), fb0)
    /\ days_analyzed a = length (nodup Z.eq_dec (map date idle_frame))
    /\ StronglySorted Z.lt (index (daily_totals idle_frame))
    /\ forall d, In d (index (daily_totals idle_frame))
                 <-> In d (map date idle_frame).
Proof.
  apply (@X6_days_analyzed_counts_dates Firebase.Dashboard "USER_001"
           idle_frame fb0).
  - exact idle_frame_nonempty.
  - exact idle_frame_finite.
Defined.

(** X7: the peak hour is an arg-max of the hourly totals with ties
    broken towards the earliest hour: no hour has a larger total than the
    peak hour, and every earlier hour has a strictly smaller one.  The
    same holds for the peak day among the days of the week. *)
Theorem X7_peak_is_first_maximum (S : Type) (uid : string)
    (data : DataFrame) (s : S) :
  data <> [] -> finite_readings data ->
  exists a top_hour top_day,
    analyze_user_patterns uid data s = (Ok (Some a), s)
    /\ In (peak_hydration_hour a, top_hour) (hourly_pattern data)
    /\ (forall h v, In (h, v) (hourly_pattern data) ->
          fle v top_hour = true
          /\ ((h < peak_hydration_hour a)%Z -> flt v top_hour = true))
    /\ In (peak_hydration_day a, top_day) (weekly_pattern data)
    /\ (forall d v, In (d, v) (weekly_pattern data) ->
          fle v top_day = true
          /\ ((d < peak_hydration_day a)%Z -> flt v top_day = true)).
Proof.
  intros Hne Hfin.
  destruct (analyze_fields uid s Hne Hfin) as [a [Ha [Hh [Hd _]]]].
  apply idxmax_is_argmax in Hh;
    [| apply groupby_sum_finite, Hfin | apply groupby_sum_sorted].
  apply idxmax_is_argmax in Hd;
    [| apply groupby_sum_finite, Hfin | apply groupby_sum_sorted].
  destruct Hh as [th [Hin_h Hmax_h]]. destruct Hd as [td [Hin_d Hmax_d]].
  exists a, th, td. repeat split; try assumption.
  - apply (Hmax_h h v H).
  - apply (Hmax_h h v H).
  - apply (Hmax_d d v H).
  - apply (Hmax_d d v H).
Qed.

Lemma X7_witness :
  exists a top_hour top_day,
    analyze_user_patterns "USER_001" idle_frame fb0 = (Ok (Some a), fb0)
    /\ In (peak_hydration_hour a, top_hour) (hourly_pattern idle_frame)
    /\ (forall h v, In (h, v) (hourly_pattern idle_frame) ->
          fle v top_hour = true
          /\ ((h < peak_hydration_hour a)%Z -> flt v top_hour = true))
    /\ In (peak_hydration_day a, top_day) (weekly_pattern idle_frame)
    /\ (forall d v, In (d, v) (weekly_pattern idle_frame) ->
          fle v top_day = true
          /\ ((d < peak_hydration_day a)%Z -> flt v top_day = true)).
Proof.
  apply (@X7_peak_is_first_maximum Firebase.Dashboard "USER_001"
           idle_frame fb0).
  - exact idle_frame_nonempty.
  - exact idle_frame_finite.
Defined.

(** ** Sums over rows and over groups *)

Lemma nanadd_qval (a : Q) (v : pyfloat) :
  no_inf v = true ->
  exists b, nanadd (Fin a) v = Fin b /\ b == a + qval v.
Proof.
  destruct v as [q | | |]; simpl; intro H; try discriminate.
  - exists (a + q). split; [reflexivity | lra].
  - exists a. split; [reflexivity | lra].
Qed.

Lemma fold_nanadd_qsum (xs : list pyfloat) (a : Q) :
  Forall (fun x => no_inf x = true) xs ->
  exists t, fold_left nanadd xs (Fin a) = Fin t /\ t == a + qsum xs.
Proof.
  revert a. induction xs as [| x r IH]; intros a H; simpl.
  - exists a. split; [reflexivity | lra].
  - inversion H as [| ? ? Hx Hr]; subst.
    destruct (@nanadd_qval a x Hx) as [b [Eb Hb]]. rewrite Eb.
    destruct (IH b Hr) as [t [Et Ht]]. exists t. split; [exact Et | lra].
Qed.

Lemma series_sum_qsum (xs : list pyfloat) :
  Forall (fun x => no_inf x = true) xs ->
  exists t, series_sum xs = Fin t /\ t == qsum xs.
Proof.
  intro H. destruct (@fold_nanadd_qsum xs 0 H) as [t [Et Ht]].
  exists t. split; [exact Et | lra].
Qed.

Lemma group_add_qsum (k : Z) (v : pyfloat) (acc : series) :
  no_inf v = true -> all_finite acc ->
  qsum (values (group_add k v acc)) == qsum (values acc) + qval v.
Proof.
  intros Hv. unfold values.
  induction acc as [| [k' s] rest IH]; intro Hacc; simpl.
  - destruct (@nanadd_qval 0 v Hv) as [b [Eb Hb]]. rewrite Eb. simpl. lra.
  - inversion Hacc as [| ? ? Hs Hrest]; subst. simpl in Hs.
    destruct (k <? k')%Z; simpl.
    + destruct (@nanadd_qval 0 v Hv) as [b [Eb Hb]]. rewrite Eb. simpl. lra.
    + destruct (k =? k')%Z; simpl.
      * destruct s as [q | | |]; try discriminate.
        destruct (@nanadd_qval q v Hv) as [b [Eb Hb]]. rewrite Eb. simpl. lra.
      * specialize (IH Hrest). lra.
Qed.

Section GroupSums.

Variable R : Type.
Variable key : R -> Z.
Variable col : R -> pyfloat.

Lemma groupby_fold_qsum (frame : list R) (acc : series) :
  Forall (fun r => no_inf (col r) = true) frame -> all_finite acc ->
  qsum (values (fold_left (fun acc r => group_add (key r) (col r) acc)
                  frame acc))
  == qsum (values acc) + qsum (map col frame).
Proof.
  revert acc. induction frame as [| r rest IH]; intros acc Hf Hacc; simpl.
  - lra.
  - inversion Hf as [| ? ? Hr Hrest]; subst.
    rewrite IH; [| exact Hrest | apply group_add_finite; assumption].
    rewrite group_add_qsum by assumption. lra.
Qed.

(** Grouping loses nothing: the group sums add up to the sum of the
    column. *)
Lemma groupby_sum_qsum (frame : list R) :
  Forall (fun r => no_inf (col r) = true) frame ->
  qsum (values (groupby_sum key col frame)) == qsum (map col frame).
Proof.
  intro Hf. unfold groupby_sum.
  rewrite groupby_fold_qsum; [simpl; lra | exact Hf | constructor].
Qed.

End GroupSums.

Lemma all_finite_values (s : series) :
  all_finite s -> Forall (fun x => is_finite x = true) (values s).
Proof.
  unfold all_finite, values. intro H. apply Forall_forall. intros x Hx.
  apply in_map_iff in Hx. destruct Hx as [kv [<- Hkv]].
  rewrite Forall_forall in H. apply H, Hkv.
Qed.

Lemma finite_no_inf (xs : list pyfloat) :
  Forall (fun x => is_finite x = true) xs ->
  Forall (fun x => no_inf x = true) xs.
Proof.
  apply Forall_impl. intros x H. destruct x; try discriminate; reflexivity.
Qed.

Lemma count_finite (xs : list pyfloat) :
  Forall (fun x => is_finite x = true) xs -> count xs = length xs.
Proof.
  unfold count, dropna. induction 1 as [| x r Hx _ IH]; simpl.
  - reflexivity.
  - destruct x; try discriminate. simpl. f_equal. exact IH.
Qed.

(** The mean of a non-empty finite series: its sum over its length. *)
Lemma series_mean_finite (xs : list pyfloat) :
  xs <> [] -> Forall (fun x => is_finite x = true) xs ->
  exists m, series_mean xs = Fin m
    /\ m * inject_Z (Z.of_nat (length xs)) == qsum xs.
Proof.
  intros Hne Hfin.
  destruct (@series_sum_qsum _ (@finite_no_inf _ Hfin)) as [t [Et Ht]].
  unfold series_mean. rewrite (@count_finite _ Hfin), Et.
  destruct xs as [| x r]; [congruence |].
  remember (length (x :: r)) as n eqn:En.
  assert (Hn : (0 < Z.of_nat n)%Z) by (subst n; simpl; lia).
  destruct n as [| n']; [simpl in Hn; lia |].
  assert (Hq : ~ Qnat (S n') == 0).
  { unfold Qnat, Qeq. simpl. lia. }
  simpl fdiv.
  destruct (Qeq_bool (Qnat (S n')) 0) eqn:E;
    [apply Qeq_bool_iff in E; contradiction |].
  exists (t / Qnat (S n')). split; [reflexivity |].
  fold (Qnat (S n')). rewrite <- Ht. field. exact Hq.
Qed.

Lemma finite_readings_no_inf (data : DataFrame) :
  finite_readings data ->
  Forall (fun x => no_inf x = true) (map consumption_ml data).
Proof.
  intro H. apply Forall_forall. intros x Hx.
  apply in_map_iff in Hx. destruct Hx as [r [<- Hr]].
  unfold finite_readings in H. rewrite Forall_forall in H. apply H, Hr.
Qed.

Lemma values_nonempty (s : series) : s <> [] -> values s <> [].
Proof. destruct s; [congruence | discriminate]. Qed.

Lemma values_length (s : series) : length (values s) = length s.
Proof. unfold values. apply length_map. Qed.

Lemma analyze_summary (S : Type) (uid : string) (data : DataFrame) (s : S) :
  data <> [] -> finite_readings data ->
  exists a total avg,
    analyze_user_patterns uid data s = (Ok (Some a), s)
    /\ total_consumption_ml a = Fin total
    /\ avg_daily_consumption_ml a = Fin avg
    /\ avg * inject_Z (Z.of_nat (days_analyzed a)) == total
    /\ total == qsum (map consumption_ml data).
Proof.
  intros Hne Hfin.
  destruct (analyze_fields uid s Hne Hfin)
    as [a [Ha [_ [_ [Ht [Havg [_ Hn]]]]]]].
  destruct (@series_sum_qsum _ (@finite_readings_no_inf _ Hfin)) as [t [Et Hqt]].
  assert (Hd : all_finite (daily_totals data))
    by (apply groupby_sum_finite, Hfin).
  destruct (@series_mean_finite (values (daily_totals data))
              (@values_nonempty _ (@groupby_sum_nonempty _ date consumption_ml
                                     data Hne))
              (@all_finite_values _ Hd)) as [m [Em Hm]].
  exists a, t, m. split; [exact Ha |].
  split; [rewrite Ht; exact Et |].
  split; [rewrite Havg; exact Em |].
  split; [| exact Hqt].
  rewrite Hn, <- (values_length (daily_totals data)).
  fold (daily_totals data) in Hm. rewrite Hm, Hqt.
  unfold daily_totals. apply groupby_sum_qsum. exact Hfin.
Qed.

(** X8: the summary is consistent: on a non-empty frame of finite
    readings the total consumption and the daily average are finite, and
    the daily average times the number of days analysed is the total
    consumption (grouping by date loses no reading, and the NaN of the
    first row counts for nothing on either side). *)
Theorem X8_average_times_days_is_total (S : Type) (uid : string)
    (data : DataFrame) (s : S) :
  data <> [] -> finite_readings data ->
  exists a total avg,
    analyze_user_patterns uid data s = (Ok (Some a), s)
    /\ total_consumption_ml a = Fin total
    /\ avg_daily_consumption_ml a = Fin avg
    /\ avg * inject_Z (Z.of_nat (days_analyzed a)) == total
    /\ total == qsum (map consumption_ml data).
Proof. apply analyze_summary. Qed.

Lemma X8_witness :
  exists a total avg,
    analyze_user_patterns "USER_001" idle_frame fb0 = (Ok (Some a), fb0)
    /\ total_consumption_ml a = Fin total
    /\ avg_daily_consumption_ml a = Fin avg
    /\ avg * inject_Z (Z.of_nat (days_analyzed a)) == total
    /\ total == qsum (map consumption_ml idle_frame).
Proof.
  apply (@X8_average_times_days_is_total Firebase.Dashboard "USER_001"
           idle_frame fb0).
  - exact idle_frame_nonempty.
  - exact idle_frame_finite.
Defined.

(** ** What the sign of the consumption column does downstream *)

Lemma diff_from_no_inf (prev : pyfloat) (xs : list pyfloat) :
  is_finite prev = true -> finite_levels xs ->
  Forall (fun d => is_finite d = true) (diff_from prev xs).
Proof.
  unfold finite_levels. intros Hp H. revert prev Hp.
  induction H as [| x r Hx _ IH]; intros prev Hp; simpl.
  - constructor.
  - constructor; [| apply IH, Hx].
    destruct x, prev; try discriminate; reflexivity.
Qed.

(** On finite volumes every entry of the consumption column is NaN or a
    finite value that is not positive. *)
Lemma consumption_column_finite (volumes : list pyfloat) :
  finite_levels volumes ->
  Forall (fun c => no_inf c = true /\ qval c <= 0)
         (consumption_column volumes).
Proof.
  intro H. unfold consumption_column.
  assert (Hd : Forall (fun d => no_inf d = true) (diff volumes)).
  { destruct H as [| x r Hx Hr]; simpl; [constructor |].
    constructor; [reflexivity |].
    apply finite_no_inf, diff_from_no_inf; assumption. }
  apply Forall_forall. intros c Hc.
  apply in_map_iff in Hc. destruct Hc as [y [<- Hy]].
  apply in_map_iff in Hy. destruct Hy as [d [<- Hin]].
  rewrite Forall_forall in Hd. specialize (Hd d Hin).
  unfold clip_lower.
  destruct d as [q | | |]; try discriminate; simpl.
  - destruct (Qlt_bool q 0) eqn:E; simpl; split; try reflexivity;
      to_Q; lra.
  - split; [reflexivity | lra].
Qed.

Lemma frame_consumption_in_column (uid : string) (timestamps : list Z)
    (water_levels : list pyfloat) (r : Row) :
  In r (_generate_simulated_data uid timestamps water_levels) ->
  In (consumption_ml r)
     (consumption_column (map (fun level => fmul level (Fin 10)) water_levels)).
Proof.
  intro Hr. unfold _generate_simulated_data in Hr.
  apply in_map_iff in Hr.
  destruct Hr as [[ts [lvl [vol [c [ev [d dc]]]]]] [<- Hin]].
  do 3 apply in_combine_r in Hin. apply in_combine_l in Hin. exact Hin.
Qed.

Lemma volumes_finite (water_levels : list pyfloat) :
  finite_levels water_levels ->
  finite_levels (map (fun level => fmul level (Fin 10)) water_levels).
Proof.
  unfold finite_levels. intro H. apply Forall_forall. intros v Hv.
  apply in_map_iff in Hv. destruct Hv as [l [<- Hl]].
  rewrite Forall_forall in H. specialize (H l Hl).
  destruct l; try discriminate; reflexivity.
Qed.

Lemma frame_rows_spec (uid : string) (timestamps : list Z)
    (water_levels : list pyfloat) :
  finite_levels water_levels ->
  Forall (fun r => no_inf (consumption_ml r) = true
                   /\ qval (consumption_ml r) <= 0
                   /\ is_drinking_event r = false)
         (_generate_simulated_data uid timestamps water_levels).
Proof.
  intro H. apply Forall_forall. intros r Hr.
  pose proof (consumption_column_finite (volumes_finite H)) as Hc.
  rewrite Forall_forall in Hc.
  destruct (Hc _ (frame_consumption_in_column _ _ _ _ Hr)) as [H1 H2].
  pose proof (frame_never_positive uid timestamps water_levels) as Hf.
  rewrite Forall_forall in Hf. destruct (Hf r Hr) as [_ H3].
  repeat split; assumption.
Qed.

Lemma frame_finite_readings (uid : string) (timestamps : list Z)
    (water_levels : list pyfloat) :
  finite_levels water_levels ->
  finite_readings (_generate_simulated_data uid timestamps water_levels).
Proof.
  intro H. unfold finite_readings.
  eapply Forall_impl; [| apply frame_rows_spec, H].
  intros r [H1 _]. exact H1.
Qed.

Lemma qsum_nonpositive (xs : list pyfloat) :
  Forall (fun x => qval x <= 0) xs -> qsum xs <= 0.
Proof.
  induction 1 as [| x r Hx _ IH]; simpl; lra.
Qed.

Lemma qsum_zero (xs : list pyfloat) :
  Forall (fun x => qval x == 0) xs -> qsum xs == 0.
Proof.
  induction 1 as [| x r Hx _ IH]; simpl; lra.
Qed.

Lemma Qnat_length_pos (A : Type) (l : list A) :
  l <> [] -> 0 < inject_Z (Z.of_nat (length l)).
Proof.
  intro H. destruct l; [congruence |].
  unfold Qlt. simpl. lia.
Qed.

(** The analysis of a generated frame. *)
Lemma simulated_analysis (S : Type) (uid : string) (timestamps : list Z)
    (water_levels : list pyfloat) (s : S) :
  finite_levels water_levels ->
  _generate_simulated_data uid timestamps water_levels <> [] ->
  exists a total avg events,
    analyze_user_patterns uid
      (_generate_simulated_data uid timestamps water_levels) s
      = (Ok (Some a), s)
    /\ total_consumption_ml a = Fin total /\ total <= 0
    /\ avg_daily_consumption_ml a = Fin avg /\ avg <= 0
    /\ avg_drinking_events_per_day a = Fin events /\ events == 0.
Proof.
  intros Hlv Hne.
  set (data := _generate_simulated_data uid timestamps water_levels) in *.
  pose proof (frame_rows_spec uid timestamps Hlv) as Hrows.
  fold data in Hrows.
  pose proof (frame_finite_readings uid timestamps Hlv) as Hfin.
  fold data in Hfin.
  destruct (analyze_summary uid s Hne Hfin)
    as [a [total [avg [Ha [Ht [Havg [Hmul Hsum]]]]]]].
  destruct (analyze_fields uid s Hne Hfin)
    as [a' [Ha' [_ [_ [_ [_ [Hev Hn]]]]]]].
  rewrite Ha in Ha'. injection Ha' as <-.
  assert (Htot : total <= 0).
  { rewrite Hsum. apply qsum_nonpositive.
    apply Forall_forall. intros x Hx.
    apply in_map_iff in Hx. destruct Hx as [r [<- Hr]].
    rewrite Forall_forall in Hrows. apply (Hrows r Hr). }
  assert (Hpos : 0 < inject_Z (Z.of_nat (days_analyzed a))).
  { rewrite Hn. apply Qnat_length_pos.
    apply groupby_sum_nonempty, Hne. }
  assert (Hde : all_finite (drinking_events data)).
  { apply groupby_sum_finite. apply Forall_forall. intros r _.
    destruct (is_drinking_event r); reflexivity. }
  destruct (@series_mean_finite (values (drinking_events data))
              (@values_nonempty _
                 (@groupby_sum_nonempty _ date
                    (fun r => float_of_bool (is_drinking_event r)) data Hne))
              (@all_finite_values _ Hde)) as [e [Ee He]].
  assert (He0 : qsum (values (drinking_events data)) == 0).
  { unfold drinking_events. rewrite groupby_sum_qsum.
    - apply qsum_zero. apply Forall_forall. intros x Hx.
      apply in_map_iff in Hx. destruct Hx as [r [<- Hr]].
      rewrite Forall_forall in Hrows.
      destruct (Hrows r Hr) as [_ [_ ->]]. simpl. lra.
    - apply Forall_forall. intros r _.
      destruct (is_drinking_event r); reflexivity. }
  assert (Hlen : 0 < inject_Z (Z.of_nat (length (values (drinking_events data))))).
  { apply Qnat_length_pos, values_nonempty, groupby_sum_nonempty, Hne. }
  exists a, total, avg, e.
  split; [exact Ha |]. split; [exact Ht |]. split; [exact Htot |].
  split; [exact Havg |]. split; [| split; [rewrite Hev; exact Ee |]].
  - rewrite <- Hmul in Htot.
    destruct (Qlt_le_dec 0 avg) as [L | L]; [| exact L].
    exfalso.
    pose proof (Qmult_lt_0_compat _ _ L Hpos) as P. lra.
  - rewrite He0 in He. apply Qmult_integral in He.
    destruct He as [He | He]; [exact He | lra].
Qed.

(** X9: on a generated frame with finite levels (any timestamps, any
    levels, not only simulated ones) the analysis reports a total and a
    daily average that are never positive and no drinking event at all:
    the consumption column holds only zeros, negative refills and the NaN
    of the first row. *)
Theorem X9_generated_frames_show_no_intake (S : Type) (uid : string)
    (timestamps : list Z) (water_levels : list pyfloat) (s : S) :
  finite_levels water_levels ->
  _generate_simulated_data uid timestamps water_levels <> [] ->
  exists a total avg events,
    analyze_user_patterns uid
      (_generate_simulated_data uid timestamps water_levels) s
      = (Ok (Some a), s)
    /\ total_consumption_ml a = Fin total /\ total <= 0
    /\ avg_daily_consumption_ml a = Fin avg /\ avg <= 0
    /\ avg_drinking_events_per_day a = Fin events /\ events == 0.
Proof. apply simulated_analysis. Qed.

Lemma X9_witness :
  exists a total avg events,
    analyze_user_patterns "USER_001"
      (_generate_simulated_data "USER_001" [t0; (t0 + 1800)%Z]
         [Fin 100; Fin 90]) fb0
      = (Ok (Some a), fb0)
    /\ total_consumption_ml a = Fin total /\ total <= 0
    /\ avg_daily_consumption_ml a = Fin avg /\ avg <= 0
    /\ avg_drinking_events_per_day a = Fin events /\ events == 0.
Proof.
  apply (@X9_generated_frames_show_no_intake Firebase.Dashboard "USER_001"
           [t0; (t0 + 1800)%Z] [Fin 100; Fin 90] fb0).
  - repeat constructor.
  - vm_compute. discriminate.
Defined.

(** ** The loop of [main] on simulated users *)

Lemma bind_ok (S A B : Type) (m : Py S A) (k : A -> Py S B) (s s' : S)
    (a : A) :
  m s = (Ok a, s') -> bind m k s = k a s'.
Proof. intro H. unfold bind. rewrite H. reflexivity. Qed.

Lemma generated_frame_nonempty (end_time : Z) (pattern draws : nat -> Q)
    (uid : string) (days : Z) :
  (0 <= days)%Z ->
  generated_frame pattern draws uid (half_hours end_time days) <> [].
Proof.
  intros H E.
  pose proof (generated_frame_length pattern draws uid
                (half_hours end_time days)) as L.
  rewrite E in L. simpl in L.
  pose proof (half_hours_length end_time H) as L'. lia.
Qed.

Lemma generated_frame_analysis (S : Type) (end_time : Z)
    (pattern draws : nat -> Q) (uid : string) (days : Z) (s : S) :
  (0 <= days)%Z ->
  exists a avg,
    analyze_user_patterns uid
      (generated_frame pattern draws uid (half_hours end_time days)) s
      = (Ok (Some a), s)
    /\ avg_daily_consumption_ml a = Fin avg /\ avg <= 0.
Proof.
  intro H.
  destruct (@simulated_analysis S uid (half_hours end_time days)
              (map Fin (walk draws (100, O)
                          (map pattern
                             (seq 0 (length (half_hours end_time days))))))
              s)
    as [a [total [avg [events [Ha [_ [_ [Havg [Hle _]]]]]]]]].
  - apply Forall_forall. intros l Hl.
    apply in_map_iff in Hl. destruct Hl as [q [<- _]]. reflexivity.
  - apply (generated_frame_nonempty end_time pattern draws uid H).
  - exists a, avg. split; [exact Ha |]. split; assumption.
Qed.

(** A daily average that is not positive is below 70% of the goal. *)
Lemma ratio_low (q : Q) :
  q <= 0 ->
  flt (fdiv (Fin q) (Fin 2000)) (Fin (7 # 10)) = true
  /\ fge (fdiv (Fin q) (Fin 2000)) (Fin (9 # 10)) = false.
Proof.
  intro H. unfold fge.
  change (fdiv (Fin q) (Fin 2000)) with (Fin (q / 2000)).
  simpl. split.
  - to_Q. apply Qlt_shift_div_r; lra.
  - destruct (Qle_bool (9 # 10) (q / 2000)) eqn:E; [| reflexivity].
    to_Q. exfalso.
    assert (q / 2000 <= 0) by (apply Qle_shift_div_r; lra). lra.
Qed.

Lemma intake_fired_high (a : Analysis) (q : Q) (rest : list Recommendation) :
  avg_daily_consumption_ml a = Fin q -> q <= 0 ->
  filter is_intake rest = [] ->
  intake_fired
    ([intake_recommendation (avg_daily_consumption_ml a)
        (fdiv (avg_daily_consumption_ml a) (Fin 2000))] ++ rest)
  = [(HIGH, "Increase Intake"%string)].
Proof.
  intros Ha Hq Hrest. rewrite Ha.
  destruct (@ratio_low q Hq) as [Hlt _].
  unfold intake_fired, intake_recommendation. rewrite Hlt.
  simpl. rewrite Hrest. reflexivity.
Qed.

(** X10: one turn of the loop of [main], for any pattern and draws.  At
    a clock whose 14-day window lies within the timestamp range it never
    raises and leaves the dashboard alone; the Windows version always
    ends with a recommendation set whose intake recommendation is HIGH
    "Increase Intake" and whose meeting_goal is false, whatever the
    simulated user drank; the Firebase version does the same whenever its
    forecast is non-empty, and has no recommendation set when it is
    empty.  At any other clock the timestamps cannot be made: the Windows
    version raises and the Firebase version skips the user. *)
Theorem X10_simulated_user_is_always_below_goal
    (holt_winters arima : series -> Z -> result series) (has : bool)
    (end_time : Z) (pattern draws : nat -> Q) (uid : string)
    (s : Firebase.Dashboard) (w : Windows.Dashboard) :
  if window_in_range end_time 14 then
    (exists a f rs,
       WindowsApp.process_user has arima end_time pattern draws uid w
         = (Ok (Some (Some a, f, Some rs)), w)
       /\ intake_fired (recommendations rs)
          = [(HIGH, "Increase Intake"%string)]
       /\ meeting_goal rs = false)
    /\ (exists a f r,
          FirebaseApp.process_user holt_winters arima end_time pattern draws
            uid s = (Ok (Some (Some a, f, r)), s)
          /\ ((f = [] /\ r = None)
              \/ (f <> []
                  /\ exists rs, r = Some rs
                       /\ intake_fired (recommendations rs)
                          = [(HIGH, "Increase Intake"%string)]
                       /\ meeting_goal rs = false)))
  else
    (exists x,
       WindowsApp.process_user has arima end_time pattern draws uid w
         = (Err x, w))
    /\ FirebaseApp.process_user holt_winters arima end_time pattern draws
         uid s = (Ok None, s).
Proof.
  destruct (window_in_range end_time 14) eqn:Hw.
  2: { split.
       - destruct (@windows_fetch_err end_time pattern draws uid 14 w Hw) as [x [E _]].
         exists x. unfold WindowsApp.process_user, bind. rewrite E.
         reflexivity.
       - unfold FirebaseApp.process_user, bind.
         rewrite (@firebase_fetch_err end_time pattern draws uid 14 s Hw). reflexivity. }
  assert (H14 : (0 <= 14)%Z) by lia.
  pose proof (generated_frame_nonempty end_time pattern draws uid H14) as Hne.
  split.
  - destruct (@generated_frame_analysis Windows.Dashboard end_time pattern
                draws uid 14 w H14) as [a [avg [Ha [Havg Hle]]]].
    destruct (windows_never_raises has arima
                (generated_frame pattern draws uid (half_hours end_time 14)) 7 w)
      as [fc [Hfc _]].
    unfold WindowsApp.process_user.
    rewrite (@bind_ok _ _ _ _ _ _ _ _
               (@windows_fetch_ok end_time pattern draws uid 14 w Hw)).
    remember (generated_frame pattern draws uid (half_hours end_time 14)) as data.
    destruct data as [| r0 data']; [congruence |].
    rewrite (@bind_ok _ _ _ _ _ _ _ _ (Ha)), (@bind_ok _ _ _ _ _ _ _ _ (Hfc)).
    rewrite (@bind_ok _ _ _ _ _ _ _ _ ((windows_recommendations_spec a fc w))).
    eexists _, _, _. split; [reflexivity |]. simpl. split.
    + apply (@intake_fired_high a avg _ Havg Hle).
      destruct (flt (consistency_score a) (Fin (7 # 10))); reflexivity.
    + rewrite Havg. apply (@ratio_low avg Hle).
  - destruct (@generated_frame_analysis Firebase.Dashboard end_time pattern
                draws uid 14 s H14) as [a [avg [Ha [Havg Hle]]]].
    destruct (firebase_never_raises holt_winters arima
                (generated_frame pattern draws uid (half_hours end_time 14)) 7 s)
      as [fc [Hfc _]].
    unfold FirebaseApp.process_user.
    rewrite (@bind_ok _ _ _ _ _ _ _ _
               (@firebase_fetch_ok end_time pattern draws uid 14 s Hw)).
    remember (generated_frame pattern draws uid (half_hours end_time 14)) as data.
    destruct data as [| r0 data']; [congruence |].
    rewrite (@bind_ok _ _ _ _ _ _ _ _ (Ha)), (@bind_ok _ _ _ _ _ _ _ _ (Hfc)).
    destruct fc as [| p fc'].
    + rewrite (@bind_ok _ _ _ _ _ _ _ _ (firebase_empty_forecast (Some a) s)).
      eexists _, _, _. split; [reflexivity |]. left. split; reflexivity.
    + assert (Hnf : p :: fc' <> []) by discriminate.
      rewrite (@bind_ok _ _ _ _ _ _ _ _ ((firebase_recommendations_spec a s Hnf))).
      eexists _, _, _. split; [reflexivity |]. right.
      split; [exact Hnf |]. eexists. split; [reflexivity |]. simpl. split.
      * unfold rule_sequence.
        apply (@intake_fired_high a avg _ Havg Hle).
        apply conditional_rules_not_intake.
      * rewrite Havg. apply (@ratio_low avg Hle).
Qed.

(** ** More on the forecaster *)

Lemma sorted_snoc_max (l : list Z) (k : Z) :
  StronglySorted Z.lt (l ++ [k]) -> Forall (fun x => (x < k)%Z) l.
Proof.
  induction l as [| x l IH]; simpl; intro H.
  - constructor.
  - inversion H as [| ? ? Hs Hall]; subst.
    constructor; [| apply IH, Hs].
    rewrite Forall_forall in Hall. apply Hall.
    apply in_or_app. right. left. reflexivity.
Qed.

(** The last index of an increasing series is its largest. *)
Lemma index_last_max (s : series) (k : Z) :
  StronglySorted Z.lt (index s) -> index_last s = Ok k ->
  In k (index s) /\ forall k', In k' (index s) -> (k' <= k)%Z.
Proof.
  unfold index_last. intros Hs Hk.
  destruct (rev (index s)) as [| k0 r] eqn:E; [discriminate |].
  injection Hk as ->.
  assert (Hi : index s = rev r ++ [k]).
  { rewrite <- (rev_involutive (index s)), E. reflexivity. }
  rewrite Hi in *. split.
  - apply in_or_app. right. left. reflexivity.
  - intros k' Hin. apply in_app_or in Hin. destruct Hin as [Hin | [<- | []]].
    + pose proof (@sorted_snoc_max _ _ Hs) as F.
      rewrite Forall_forall in F. specialize (F k' Hin). lia.
    + lia.
Qed.

(** X11: when neither fit succeeds and the dates of the frame and the
    days of the horizon after them are dates a timestamp can hold, both
    versions return the same frame: the historical mean of the daily
    totals on each of the forecast_days days that follow the latest date
    of the frame (the largest date, in whatever order the rows come). *)
Theorem X11_fallback_starts_after_latest_date
    (holt_winters arima : series -> Z -> result series) (has : bool)
    (data : DataFrame) (forecast_days : Z) (e1 e2 : exn)
    (s : Firebase.Dashboard) (w : Windows.Dashboard) :
  (48 <= Z.of_nat (length data))%Z -> (0 <= forecast_days)%Z ->
  within_timestamp_range data forecast_days = true ->
  holt_winters (daily_totals data) forecast_days = Err e1 ->
  arima (daily_totals data) forecast_days = Err e2 ->
  exists latest fc,
    Firebase.forecast_consumption holt_winters arima data forecast_days s
      = (Ok fc, s)
    /\ Windows.forecast_consumption has arima data forecast_days w
       = (Ok fc, w)
    /\ In latest (map date data)
    /\ (forall r, In r data -> (date r <= latest)%Z)
    /\ map forecast_date fc
       = map (fun i => (latest + 1 + Z.of_nat i)%Z)
             (seq 0 (Z.to_nat forecast_days))
    /\ map forecasted_consumption_ml fc
       = repeat (series_mean (values (daily_totals data)))
                (Z.to_nat forecast_days).
Proof.
  intros Hlen Hn Hr Hhw Har.
  destruct (@index_last_defined _ (@daily_totals_nonempty data Hlen))
    as [latest Hlast].
  destruct (@index_last_max _ _ (groupby_sum_sorted date consumption_ml data)
              Hlast) as [Hin Hmax].
  destruct (within_range_date data forecast_days latest Hr Hin)
    as [Hlo Hhi].
  destruct (@flat_mean_series_eq Firebase.Dashboard _ _ _ s Hlast Hn Hlo Hhi)
    as [fv [Hfv [Hidx Hvals]]].
  destruct (@flat_mean_series_eq Windows.Dashboard _ _ _ w Hlast Hn Hlo Hhi)
    as [fv' [Hfv' [Hidx' Hvals']]].
  assert (Efv : fv' = fv).
  { unfold flat_mean_series, bind, call in Hfv, Hfv'.
    rewrite Hlast in Hfv, Hfv'.
    destruct (add_days latest 1) as [start | e]; [| discriminate].
    destruct (date_range start forecast_days) as [idx | e];
      [| discriminate].
    destruct (make_series _ idx) as [x | e]; [| discriminate].
    congruence. }
  subst fv'.
  exists latest, (forecast_frame fv).
  assert (E48 : (Z.of_nat (length data) <? 48)%Z = false)
    by (apply Z.ltb_ge; lia).
  split; [| split; [| split; [| split; [| split]]]].
  - unfold Firebase.forecast_consumption. rewrite E48.
    unfold try_except_Exception.
    rewrite firebase_body_spec, (within_range_to_datetime data _ Hr).
    rewrite Hhw, Har. simpl. rewrite Hfv. reflexivity.
  - unfold Windows.forecast_consumption. rewrite E48.
    unfold try_except_Exception.
    rewrite windows_body_spec, (within_range_to_datetime data _ Hr).
    rewrite Har. destruct has; rewrite Hfv'; reflexivity.
  - apply (groupby_sum_index date consumption_ml data), Hin.
  - intros r Hrow. apply Hmax.
    apply (groupby_sum_index date consumption_ml data).
    apply in_map. exact Hrow.
  - unfold forecast_frame. rewrite map_map. simpl. exact Hidx.
  - rewrite forecast_frame_values. exact Hvals.
Qed.

Lemma X11_witness :
  exists latest fc,
    Firebase.forecast_consumption fit_fails fit_fails one_day_frame 7 fb0
      = (Ok fc, fb0)
    /\ Windows.forecast_consumption true fit_fails one_day_frame 7 win0
       = (Ok fc, win0)
    /\ In latest (map date one_day_frame)
    /\ (forall r, In r one_day_frame -> (date r <= latest)%Z)
    /\ map forecast_date fc
       = map (fun i => (latest + 1 + Z.of_nat i)%Z) (seq 0 (Z.to_nat 7))
    /\ map forecasted_consumption_ml fc
       = repeat (series_mean (values (daily_totals one_day_frame)))
                (Z.to_nat 7).
Proof.
  apply (@X11_fallback_starts_after_latest_date fit_fails fit_fails true
           one_day_frame 7 ValueError ValueError fb0 win0).
  - exact one_day_frame_length.
  - lia.
  - reflexivity.
  - reflexivity.
  - reflexivity.
Defined.

Lemma forecast_frame_band_order (fv : series) :
  Forall band_ordered (forecast_frame fv).
Proof.
  unfold forecast_frame. apply Forall_forall. intros p Hp.
  apply in_map_iff in Hp. destruct Hp as [[k v] [<- _]].
  unfold band_ordered. simpl.
  destruct v as [q | | |]; simpl; split; intro H; try discriminate;
    try (split; reflexivity); to_Q; split; to_Q; lra.
Qed.

(** X12: in every frame either forecaster returns, whatever the fits do,
    the band of each point lies around its estimate: lower_bound is at
    most the estimate and upper_bound at least when the estimate is not
    negative, and the two bounds swap sides when the estimate is not
    positive. *)
Theorem X12_band_lies_around_estimate
    (holt_winters arima : series -> Z -> result series) (has : bool)
    (data : DataFrame) (forecast_days : Z)
    (s : Firebase.Dashboard) (w : Windows.Dashboard) :
  (exists fc,
     Firebase.forecast_consumption holt_winters arima data forecast_days s
       = (Ok fc, s)
     /\ Forall band_ordered fc)
  /\ (exists fc,
        Windows.forecast_consumption has arima data forecast_days w
          = (Ok fc, w)
        /\ Forall band_ordered fc).
Proof.
  split.
  - destruct (firebase_never_raises holt_winters arima data forecast_days s)
      as [fc [Hfc [-> | [fv ->]]]];
      eexists; (split; [exact Hfc |]);
      [constructor | apply forecast_frame_band_order].
  - destruct (windows_never_raises has arima data forecast_days w)
      as [fc [Hfc [-> | [fv ->]]]];
      eexists; (split; [exact Hfc |]);
      [constructor | apply forecast_frame_band_order].
Qed.

(** A negative estimate has its bounds the wrong way round. *)
Example band_of_negative_estimate :
  map (fun p => (lower_bound p, upper_bound p))
      (forecast_frame [(19677%Z, Fin (- (100)))])
  = [(Fin (- (100) * (8 # 10)), Fin (- (100) * (12 # 10)))].
Proof. reflexivity. Qed.

(** X13: when neither fit succeeds and the horizon is zero or negative,
    [forecast_consumption] returns the empty frame without raising (the
    error of the negative period count is swallowed), for every frame;
    the Firebase [generate_recommendations] then returns the empty
    dictionary for every analysis. *)
Theorem X13_nonpositive_horizon_gives_nothing
    (holt_winters arima : series -> Z -> result series) (has : bool)
    (data : DataFrame) (forecast_days : Z) (e1 e2 : exn)
    (analysis : option Analysis)
    (s : Firebase.Dashboard) (w : Windows.Dashboard) :
  (forecast_days <= 0)%Z ->
  holt_winters (daily_totals data) forecast_days = Err e1 ->
  arima (daily_totals data) forecast_days = Err e2 ->
  Firebase.forecast_consumption holt_winters arima data forecast_days s
    = (Ok [], s)
  /\ Windows.forecast_consumption has arima data forecast_days w
     = (Ok [], w)
  /\ Firebase.generate_recommendations analysis [] s = (Ok None, s).
Proof.
  intros Hn Hhw Har.
  assert (Hflat : forall (S : Type) (st : S),
            flat_mean_series (daily_totals data) forecast_days st
              = (Ok [], st)
            \/ exists e,
                 flat_mean_series (daily_totals data) forecast_days st
                   = (Err e, st) /\ is_Exception e = true).
  { intros S st.
    unfold flat_mean_series, bind, call, index_last, add_days, date_range,
      make_series.
    destruct (rev (index (daily_totals data))) as [| k r].
    - right. exists IndexError. split; reflexivity.
    - destruct (in_timestamp_range (k + 1));
        [| right; exists OutOfBoundsDatetime; split; reflexivity].
      destruct (forecast_days <? 0)%Z eqn:E.
      + right. exists ValueError. split; reflexivity.
      + apply Z.ltb_ge in E. assert (forecast_days = 0%Z) by lia. subst.
        left. reflexivity. }
  split; [| split; [| apply firebase_empty_forecast]].
  - unfold Firebase.forecast_consumption.
    destruct (Z.of_nat (length data) <? 48)%Z; [reflexivity |].
    unfold try_except_Exception. rewrite firebase_body_spec.
    destruct (to_datetime_cases (daily_totals data)) as [E | E]; rewrite E;
      [| reflexivity].
    rewrite Hhw, Har. simpl.
    destruct (Hflat Firebase.Dashboard s) as [H | [e [H He]]]; rewrite H;
      [reflexivity | rewrite He; reflexivity].
  - unfold Windows.forecast_consumption.
    destruct (Z.of_nat (length data) <? 48)%Z; [reflexivity |].
    unfold try_except_Exception. rewrite windows_body_spec.
    destruct (to_datetime_cases (daily_totals data)) as [E | E]; rewrite E;
      [| reflexivity].
    rewrite Har.
    destruct (Hflat Windows.Dashboard w) as [H | [e [H He]]];
      destruct has; rewrite H; try rewrite He; reflexivity.
Qed.

Lemma X13_witness :
  Firebase.forecast_consumption fit_fails fit_fails one_day_frame (-3) fb0
    = (Ok [], fb0)
  /\ Windows.forecast_consumption true fit_fails one_day_frame (-3) win0
     = (Ok [], win0)
  /\ Firebase.generate_recommendations (Some evening_analysis) [] fb0
     = (Ok None, fb0).
Proof.
  apply (@X13_nonpositive_horizon_gives_nothing fit_fails fit_fails true
           one_day_frame (-3) ValueError ValueError (Some evening_analysis)
           fb0 win0).
  - lia.
  - reflexivity.
  - reflexivity.
Defined.

(** ** More on the recommendations *)

(** X14: in every recommendation set returned for an analysis whose daily
    average is a number, the summary flag and the intake recommendation
    agree: meeting_goal is true exactly when the intake recommendation is
    INFO "Great Job!".  Both versions. *)
Theorem X14_meeting_goal_matches_intake (a : Analysis)
    (forecast forecast' : Forecast)
    (s : Firebase.Dashboard) (w : Windows.Dashboard) :
  is_nan (avg_daily_consumption_ml a) = false ->
  forecast <> [] ->
  (exists rs,
     Firebase.generate_recommendations (Some a) forecast s = (Ok (Some rs), s)
     /\ (meeting_goal rs = true
         <-> intake_fired (recommendations rs)
             = [(INFO, "Great Job!"%string)]))
  /\ (exists rs,
        Windows.generate_recommendations (Some a) forecast' w
          = (Ok (Some rs), w)
        /\ (meeting_goal rs = true
            <-> intake_fired (recommendations rs)
                = [(INFO, "Great Job!"%string)])).
Proof.
  intros Hnan Hne. apply ratio_not_nan in Hnan.
  assert (Hkey : forall rest, filter is_intake rest = [] ->
            (fge (fdiv (avg_daily_consumption_ml a) (Fin 2000))
                 (Fin (9 # 10)) = true
             <-> intake_fired
                   ([intake_recommendation (avg_daily_consumption_ml a)
                       (fdiv (avg_daily_consumption_ml a) (Fin 2000))]
                    ++ rest)
                 = [(INFO, "Great Job!"%string)])).
  { intros rest Hrest.
    destruct (@intake_verdict_intro (avg_daily_consumption_ml a) _ rest
                Hnan Hrest) as [p [c [Hfired [_ [_ Hinfo]]]]].
    rewrite Hfired. rewrite <- Hinfo. split.
    - intros [-> ->]. reflexivity.
    - intro E. injection E as -> ->. split; reflexivity. }
  split.
  - eexists. split; [apply firebase_recommendations_spec, Hne |].
    simpl. unfold rule_sequence. apply Hkey.
    apply conditional_rules_not_intake.
  - eexists. split; [apply windows_recommendations_spec |].
    simpl. apply Hkey.
    destruct (flt (consistency_score a) (Fin (7 # 10))); reflexivity.
Qed.

Lemma X14_witness :
  (exists rs,
     Firebase.generate_recommendations (Some good_analysis)
       (flat_forecast 1000) fb0 = (Ok (Some rs), fb0)
     /\ (meeting_goal rs = true
         <-> intake_fired (recommendations rs)
             = [(INFO, "Great Job!"%string)]))
  /\ (exists rs,
        Windows.generate_recommendations (Some good_analysis) [] win0
          = (Ok (Some rs), win0)
        /\ (meeting_goal rs = true
            <-> intake_fired (recommendations rs)
                = [(INFO, "Great Job!"%string)])).
Proof.
  apply (@X14_meeting_goal_matches_intake good_analysis (flat_forecast 1000)
           [] fb0 win0).
  - reflexivity.
  - apply flat_forecast_nonempty.
Defined.

(** X15: a returned recommendation set is never without recommendation:
    the Firebase version gives between one and four, the Windows version
    one or two, and the first is always the intake recommendation. *)
Theorem X15_recommendation_count (a : Analysis)
    (forecast forecast' : Forecast)
    (s : Firebase.Dashboard) (w : Windows.Dashboard) :
  forecast <> [] ->
  (exists rs,
     Firebase.generate_recommendations (Some a) forecast s = (Ok (Some rs), s)
     /\ (1 <= length (recommendations rs) <= 4)%nat
     /\ hd_error (recommendations rs)
        = Some (intake_recommendation (avg_daily_consumption_ml a)
                  (performance_ratio rs)))
  /\ (exists rs,
        Windows.generate_recommendations (Some a) forecast' w
          = (Ok (Some rs), w)
        /\ (1 <= length (recommendations rs) <= 2)%nat
        /\ hd_error (recommendations rs)
           = Some (intake_recommendation (avg_daily_consumption_ml a)
                     (performance_ratio rs))).
Proof.
  intro Hne. split.
  - eexists. split; [apply firebase_recommendations_spec, Hne |].
    simpl. unfold rule_sequence. split; [| reflexivity].
    destruct (flt (consistency_score a) (Fin (7 # 10)));
      destruct (18 <? peak_hydration_hour a)%Z;
      destruct (negb (Nat.eqb (length forecast) 0)
                && flt (series_mean (map forecasted_consumption_ml forecast))
                       (Fin (2000 * (8 # 10))));
      simpl; lia.
  - eexists. split; [apply windows_recommendations_spec |].
    simpl. split; [| reflexivity].
    destruct (flt (consistency_score a) (Fin (7 # 10))); simpl; lia.
Qed.

Lemma X15_witness :
  (exists rs,
     Firebase.generate_recommendations (Some good_analysis)
       (flat_forecast 1000) fb0 = (Ok (Some rs), fb0)
     /\ (1 <= length (recommendations rs) <= 4)%nat
     /\ hd_error (recommendations rs)
        = Some (intake_recommendation (avg_daily_consumption_ml good_analysis)
                  (performance_ratio rs)))
  /\ (exists rs,
        Windows.generate_recommendations (Some good_analysis) [] win0
          = (Ok (Some rs), win0)
        /\ (1 <= length (recommendations rs) <= 2)%nat
        /\ hd_error (recommendations rs)
           = Some (intake_recommendation
                     (avg_daily_consumption_ml good_analysis)
                     (performance_ratio rs))).
Proof.
  apply (@X15_recommendation_count good_analysis (flat_forecast 1000) []
           fb0 win0).
  apply flat_forecast_nonempty.
Defined.

(** ** The performance gauge *)

Lemma fge_capped (r : pyfloat) :
  fge (fmin2 r (Fin (15 # 10))) (Fin (9 # 10)) = fge r (Fin (9 # 10)).
Proof.
  unfold fmin2, fge.
  destruct (flt (Fin (15 # 10)) r) eqn:E; [| reflexivity].
  destruct r as [q | | |]; simpl in E; try discriminate.
  - change (Qle_bool (9 # 10) (15 # 10) = Qle_bool (9 # 10) q).
    transitivity true; [reflexivity |]. symmetry. to_Q. lra.
  - reflexivity.
Qed.

Lemma fmin2_capped (r : pyfloat) :
  fgt (fmin2 r (Fin (15 # 10))) (Fin (15 # 10)) = false.
Proof.
  unfold fmin2, fgt.
  destruct (flt (Fin (15 # 10)) r) eqn:E; [reflexivity | exact E].
Qed.

(** X16: the gauge of the dashboard agrees with the recommendations: it
    is drawn green exactly when the recommendation set of the same
    analysis has meeting_goal true (a NaN average gives red and false);
    the performance shown is never above 1.5; and an empty analysis gives
    performance 0, drawn red. *)
Theorem X16_gauge_agrees_with_meeting_goal (a : Analysis)
    (forecast : Forecast) (rs : RecommendationSet)
    (s : Firebase.Dashboard) (w : Windows.Dashboard) :
  Firebase.generate_recommendations (Some a) forecast s = (Ok (Some rs), s)
  \/ Windows.generate_recommendations (Some a) forecast w
     = (Ok (Some rs), w) ->
  (gauge_color (gauge_performance (Some a)) = "#4ECDC4"%string
   <-> meeting_goal rs = true)
  /\ fgt (gauge_performance (Some a)) (Fin (15 # 10)) = false
  /\ gauge_color (gauge_performance None) = "#FF6B6B"%string.
Proof.
  intro H.
  assert (Hm : meeting_goal rs
               = fge (fdiv (avg_daily_consumption_ml a) (Fin 2000))
                     (Fin (9 # 10))).
  { destruct H as [H | H].
    - destruct forecast as [| p f].
      + rewrite firebase_empty_forecast in H. discriminate.
      + rewrite firebase_recommendations_spec in H by discriminate.
        injection H as <-. reflexivity.
    - rewrite windows_recommendations_spec in H.
      injection H as <-. reflexivity. }
  split; [| split; [apply fmin2_capped | reflexivity]].
  unfold gauge_color, gauge_performance. rewrite fge_capped, Hm.
  destruct (fge (fdiv (avg_daily_consumption_ml a) (Fin 2000)) (Fin (9 # 10)));
    split; intro E; try reflexivity; discriminate.
Qed.

Lemma X16_witness :
  (gauge_color (gauge_performance (Some good_analysis)) = "#4ECDC4"%string
   <-> meeting_goal
         {| rs_user_id := "USER_001";
            current_daily_avg_ml := Fin 2000;
            recommended_daily_ml := Fin 2000;
            performance_ratio := fdiv (Fin 2000) (Fin 2000);
            meeting_goal := fge (fdiv (Fin 2000) (Fin 2000)) (Fin (9 # 10));
            recommendations :=
              [intake_recommendation (Fin 2000) (fdiv (Fin 2000) (Fin 2000))]
              ++ [consistency_recommendation] |} = true)
  /\ fgt (gauge_performance (Some good_analysis)) (Fin (15 # 10)) = false
  /\ gauge_color (gauge_performance None) = "#FF6B6B"%string.
Proof.
  apply (@X16_gauge_agrees_with_meeting_goal good_analysis []
           _ fb0 win0).
  right. reflexivity.
Defined.

(** ** The fallback forecast and the shortfall rule *)

Lemma qsum_repeat (m : Q) (n : nat) :
  qsum (repeat (Fin m) n) == inject_Z (Z.of_nat n) * m.
Proof.
  induction n as [| n IH].
  - change (inject_Z (Z.of_nat 0)) with 0. simpl. lra.
  - rewrite Nat2Z.inj_succ. unfold Z.succ. rewrite inject_Z_plus.
    simpl repeat. simpl qsum. rewrite IH.
    change (inject_Z 1) with 1. lra.
Qed.

(** The mean of a constant series is the constant. *)
Lemma series_mean_repeat (m : Q) (k : nat) :
  exists m', series_mean (repeat (Fin m) (S k)) = Fin m' /\ m' == m.
Proof.
  destruct (@series_mean_finite (repeat (Fin m) (S k))) as [m' [E H]].
  - discriminate.
  - apply Forall_forall. intros x Hx. apply repeat_spec in Hx. subst.
    reflexivity.
  - exists m'. split; [exact E |].
    rewrite qsum_repeat, repeat_length in H.
    assert (P : 0 < inject_Z (Z.of_nat (S k))).
    { unfold Qlt. simpl. lia. }
    apply (Qmult_inj_r _ _ (inject_Z (Z.of_nat (S k)))); [lra |].
    rewrite H. ring.
Qed.

Lemma shortfall_in_sequence (a : Analysis) (forecast : Forecast) :
  In "Projected Shortfall"%string (map category (rule_sequence a forecast))
  <-> negb (Nat.eqb (length forecast) 0)
      && flt (series_mean (map forecasted_consumption_ml forecast))
             (Fin (2000 * (8 # 10))) = true.
Proof.
  unfold rule_sequence, intake_recommendation.
  destruct (flt (fdiv (avg_daily_consumption_ml a) (Fin 2000)) (Fin (7 # 10)));
    [| destruct (flt (fdiv (avg_daily_consumption_ml a) (Fin 2000))
                     (Fin (9 # 10)))];
    destruct (flt (consistency_score a) (Fin (7 # 10)));
    destruct (18 <? peak_hydration_hour a)%Z;
    destruct (negb (Nat.eqb (length forecast) 0)
              && flt (series_mean (map forecasted_consumption_ml forecast))
                     (Fin (2000 * (8 # 10))));
    simpl; split; intro H; try reflexivity; try discriminate;
    try (repeat (destruct H as [H | H]; try discriminate); contradiction);
    auto 10.
Qed.

(** X17: when neither fit succeeds the forecast only echoes the history:
    for a frame of finite readings that passes the length guard and a
    horizon of at least one day that stays within the dates a timestamp
    can hold, the Firebase recommendations built from the analysis and
    the forecast of the same frame contain "Projected Shortfall" exactly
    when the analysed daily average is below 1600 ml. *)
Theorem X17_fallback_shortfall_mirrors_average
    (holt_winters arima : series -> Z -> result series)
    (uid : string) (data : DataFrame) (forecast_days : Z) (e1 e2 : exn)
    (s : Firebase.Dashboard) :
  (48 <= Z.of_nat (length data))%Z -> (1 <= forecast_days)%Z ->
  within_timestamp_range data forecast_days = true ->
  finite_readings data ->
  holt_winters (daily_totals data) forecast_days = Err e1 ->
  arima (daily_totals data) forecast_days = Err e2 ->
  exists a fc rs,
    analyze_user_patterns uid data s = (Ok (Some a), s)
    /\ Firebase.forecast_consumption holt_winters arima data forecast_days s
       = (Ok fc, s)
    /\ Firebase.generate_recommendations (Some a) fc s = (Ok (Some rs), s)
    /\ (In "Projected Shortfall"%string (map category (recommendations rs))
        <-> flt (avg_daily_consumption_ml a) (Fin 1600) = true).
Proof.
  intros Hlen Hn Hr Hfin Hhw Har.
  assert (Hne : data <> []) by (destruct data; [simpl in Hlen; lia | discriminate]).
  destruct (analyze_summary uid s Hne Hfin)
    as [a [total [avg [Ha [_ [Havg _]]]]]].
  destruct (analyze_fields uid s Hne Hfin) as [a' [Ha' [_ [_ [_ [Hmean _]]]]]].
  rewrite Ha in Ha'. injection Ha' as <-.
  assert (Hn0 : (0 <= forecast_days)%Z) by lia.
  assert (Hidx : forall f g,
            holt_winters (daily_totals data) forecast_days = Ok f ->
            arima (daily_totals data) forecast_days = Ok g ->
            index f = index g) by (intros f g E; congruence).
  destruct (firebase_forecast_spec holt_winters arima data s Hlen Hn0 Hr
              Hidx) as [fv [Hrun Hvals]].
  rewrite Hhw, Har in Hvals. simpl in Hvals.
  rewrite <- Hmean, Havg in Hvals.
  destruct (Z.to_nat forecast_days) as [| k] eqn:Ek; [lia |].
  assert (Hfc : forecast_frame fv <> []).
  { intro E. apply (f_equal (@length _)) in E.
    rewrite forecast_frame_length, <- values_length, Hvals in E.
    simpl in E. discriminate. }
  exists a, (forecast_frame fv). eexists.
  split; [exact Ha |]. split; [exact Hrun |].
  split; [apply firebase_recommendations_spec, Hfc |].
  cbn [recommendations]. rewrite shortfall_in_sequence.
  rewrite forecast_frame_values, Hvals.
  destruct (series_mean_repeat avg k) as [m' [Em Hm]]. rewrite Em.
  assert (Hl : negb (Nat.eqb (length (forecast_frame fv)) 0) = true).
  { destruct (forecast_frame fv); [congruence | reflexivity]. }
  rewrite Hl, Havg. simpl.
  split; intro H; to_Q; lra.
Qed.

Lemma X17_witness :
  exists a fc rs,
    analyze_user_patterns "USER_001" one_day_frame fb0 = (Ok (Some a), fb0)
    /\ Firebase.forecast_consumption fit_fails fit_fails one_day_frame 7 fb0
       = (Ok fc, fb0)
    /\ Firebase.generate_recommendations (Some a) fc fb0
       = (Ok (Some rs), fb0)
    /\ (In "Projected Shortfall"%string (map category (recommendations rs))
        <-> flt (avg_daily_consumption_ml a) (Fin 1600) = true).
Proof.
  apply (@X17_fallback_shortfall_mirrors_average fit_fails fit_fails
           "USER_001" one_day_frame 7 ValueError ValueError fb0).
  - exact one_day_frame_length.
  - lia.
  - reflexivity.
  - apply frame_finite_readings. repeat constructor.
  - reflexivity.
  - reflexivity.
Defined.

(** ** The standard deviation *)

Lemma dropna_finite (xs : list pyfloat) :
  Forall (fun x => is_finite x = true) xs -> dropna xs = xs.
Proof.
  unfold dropna. induction 1 as [| x r Hx _ IH]; simpl; [reflexivity |].
  destruct x; try discriminate. simpl. f_equal. exact IH.
Qed.

Lemma sqrtQ_nonneg (q : Q) : 0 <= sqrtQ q.
Proof.
  unfold sqrtQ, Qle. simpl. rewrite Z.mul_1_r. apply Z.sqrt_nonneg.
Qed.

Lemma sqrtQ_zero (q : Q) : q == 0 -> sqrtQ q == 0.
Proof.
  unfold sqrtQ, Qeq. simpl. intro H. rewrite Z.mul_1_r in *.
  rewrite H. reflexivity.
Qed.

Lemma Qsquare_nonneg (x : Q) : 0 <= x * x.
Proof.
  destruct (Qlt_le_dec x 0) as [L | L].
  - assert (E : x * x == (- x) * (- x)) by ring. rewrite E.
    apply Qmult_le_0_compat; lra.
  - apply Qmult_le_0_compat; assumption.
Qed.

(** Squared deviations from a finite mean: finite, not negative, and all
    zero when every value equals the mean. *)
Lemma deviations_spec (mq : Q) (xs : list pyfloat) :
  Forall (fun x => is_finite x = true) xs ->
  Forall (fun y => is_finite y = true)
         (map (fun x => fmul (fsub x (Fin mq)) (fsub x (Fin mq))) xs)
  /\ 0 <= qsum (map (fun x => fmul (fsub x (Fin mq)) (fsub x (Fin mq))) xs)
  /\ (Forall (fun x => qval x == mq) xs ->
      qsum (map (fun x => fmul (fsub x (Fin mq)) (fsub x (Fin mq))) xs) == 0).
Proof.
  induction 1 as [| x r Hx Hr IH]; simpl.
  - split; [constructor |]. split; [lra | intros _; lra].
  - destruct IH as [IH1 [IH2 IH3]].
    destruct x as [q | | |]; try discriminate. simpl.
    split; [constructor; [reflexivity | exact IH1] |]. split.
    + pose proof (Qsquare_nonneg (q + - mq)). lra.
    + intro Hall. inversion Hall as [| ? ? Hq Hrest]; subst. simpl in Hq.
      rewrite (IH3 Hrest).
      assert (E : q + - mq == 0) by lra. rewrite E. lra.
Qed.

(** The standard deviation of a finite series: NaN (fewer than two
    values) or a finite value that is not negative, and zero when all the
    values are equal. *)
Lemma series_std_spec (xs : list pyfloat) :
  Forall (fun x => is_finite x = true) xs ->
  ((length xs < 2)%nat /\ series_std xs = NaN)
  \/ ((2 <= length xs)%nat
      /\ exists sd, series_std xs = Fin sd /\ 0 <= sd
           /\ forall c, Forall (fun x => qval x == c) xs -> sd == 0).
Proof.
  intro Hfin. unfold series_std.
  rewrite (@count_finite _ Hfin), (@dropna_finite _ Hfin).
  destruct xs as [| x0 [| x1 r]];
    [left; split; [simpl; lia | reflexivity]
    | left; split; [simpl; lia | reflexivity] |].
  right. split; [simpl; lia |].
  destruct (@series_mean_finite (x0 :: x1 :: r) ltac:(discriminate) Hfin)
    as [mq [Em Hm]].
  rewrite Em. cbv zeta.
  destruct (@deviations_spec mq (x0 :: x1 :: r) Hfin) as [Hsq [Hpos Hzero]].
  destruct (@series_sum_qsum _ (@finite_no_inf _ Hsq)) as [t [Et Ht]].
  cbn [length]. rewrite Et.
  set (N := Qnat (S (S (length r)) - 1)).
  assert (HN : 0 < N).
  { unfold N, Qnat, Qlt. simpl. lia. }
  assert (EN : Qeq_bool N 0 = false).
  { destruct (Qeq_bool N 0) eqn:E; [| reflexivity].
    apply Qeq_bool_iff in E. lra. }
  unfold fdiv. rewrite EN. unfold fsqrt.
  assert (Hq : 0 <= t / N).
  { apply Qle_shift_div_l; [exact HN | lra]. }
  assert (EQ : Qlt_bool (t / N) 0 = false) by (to_Q; exact Hq).
  rewrite EQ.
  exists (sqrtQ (t / N)). split; [reflexivity |].
  split; [apply sqrtQ_nonneg |].
  intros c Hc. apply sqrtQ_zero.
  assert (Hmc : mq == c).
  { assert (Hs : qsum (x0 :: x1 :: r)
                 == inject_Z (Z.of_nat (length (x0 :: x1 :: r))) * c).
    { clear - Hc. induction Hc as [| x l Hx _ IH].
      - change (inject_Z (Z.of_nat (length (@nil pyfloat)))) with 0.
        simpl. lra.
      - cbn [length]. rewrite Nat2Z.inj_succ. unfold Z.succ.
        rewrite inject_Z_plus. change (inject_Z 1) with 1.
        simpl qsum. rewrite IH, Hx. lra. }
    assert (P : 0 < inject_Z (Z.of_nat (length (x0 :: x1 :: r)))).
    { unfold Qlt. simpl. lia. }
    apply (Qmult_inj_r _ _ (inject_Z (Z.of_nat (length (x0 :: x1 :: r)))));
      [lra |].
    rewrite Hm, Hs. ring. }
  assert (Ht0 : t == 0).
  { rewrite Ht. apply Hzero.
    eapply Forall_impl; [| exact Hc]. intros x Hx. simpl in Hx. lra. }
  rewrite Ht0. field. lra.
Qed.

(** ** Consistency on generated frames *)

Lemma group_add_nonpos (k : Z) (v : pyfloat) (acc : series) :
  no_inf v = true -> qval v <= 0 -> all_finite acc ->
  Forall (fun kv => qval (snd kv) <= 0) acc ->
  Forall (fun kv => qval (snd kv) <= 0) (group_add k v acc).
Proof.
  intros Hv Hq. induction acc as [| [k' s] rest IH]; intros Hfin Hacc; simpl.
  - destruct (@nanadd_qval 0 v Hv) as [b [Eb Hb]]. rewrite Eb.
    constructor; [simpl; lra | constructor].
  - inversion Hfin as [| ? ? Hs Hfrest]; subst. simpl in Hs.
    inversion Hacc as [| ? ? Hsq Hrest]; subst. simpl in Hsq.
    destruct (k <? k')%Z.
    + destruct (@nanadd_qval 0 v Hv) as [b [Eb Hb]]. rewrite Eb.
      constructor; [simpl; lra | exact Hacc].
    + destruct (k =? k')%Z.
      * destruct s as [q | | |]; try discriminate. simpl in Hsq.
        destruct (@nanadd_qval q v Hv) as [b [Eb Hb]]. rewrite Eb.
        constructor; [simpl; lra | exact Hrest].
      * constructor; [exact Hsq | apply IH; assumption].
Qed.

Lemma groupby_fold_nonpos (R : Type) (key : R -> Z) (col : R -> pyfloat)
    (frame : list R) (acc : series) :
  Forall (fun r => no_inf (col r) = true /\ qval (col r) <= 0) frame ->
  all_finite acc ->
  Forall (fun kv => qval (snd kv) <= 0) acc ->
  Forall (fun kv => qval (snd kv) <= 0)
         (fold_left (fun acc r => group_add (key r) (col r) acc) frame acc).
Proof.
  revert acc. induction frame as [| r rest IH]; intros acc Hf Hfin Hacc; simpl.
  - exact Hacc.
  - inversion Hf as [| ? ? [Hr1 Hr2] Hrest]; subst.
    apply IH; [exact Hrest | apply group_add_finite; assumption |].
    apply group_add_nonpos; assumption.
Qed.

Lemma qsum_zero_all_zero (xs : list pyfloat) :
  Forall (fun x => qval x <= 0) xs -> qsum xs == 0 ->
  Forall (fun x => qval x == 0) xs.
Proof.
  induction 1 as [| x r Hx Hr IH]; simpl; intro H.
  - constructor.
  - pose proof (qsum_nonpositive Hr) as Hs.
    constructor; [lra | apply IH; lra].
Qed.

(** The consistency score from a mean that is not positive and a
    standard deviation as [series_std] gives it. *)
Lemma consistency_of_nonpositive_mean (std : pyfloat) (m : Q) :
  m <= 0 ->
  (std = NaN
   \/ exists sd, std = Fin sd /\ 0 <= sd /\ (m == 0 -> sd == 0)) ->
  let cs := fsub (Fin 1) (fdiv std (Fin m)) in
  cs = NaN \/ exists c, cs = Fin c /\ 1 <= c.
Proof.
  intros Hm [-> | [sd [-> [Hsd Hz]]]]; simpl; [left; reflexivity |].
  destruct (Qeq_bool m 0) eqn:E.
  - apply Qeq_bool_iff in E. specialize (Hz E).
    assert (Hn : Qnum sd = 0%Z).
    { unfold Qeq in Hz. simpl in Hz. lia. }
    rewrite Hn. left. reflexivity.
  - right. eexists. split; [reflexivity |].
    assert (Hne : ~ m == 0).
    { intro H. apply Qeq_bool_iff in H. congruence. }
    assert (Hq : sd / m <= 0).
    { assert (Hlt : m < 0) by lra.
      assert (E2 : sd / m == - (sd / (- m))) by (field; exact Hne).
      rewrite E2.
      assert (0 <= sd / (- m)); [| lra].
      apply Qle_shift_div_l; lra. }
    lra.
Qed.

Lemma generated_consistency (S : Type) (uid : string) (timestamps : list Z)
    (water_levels : list pyfloat) (s : S) (a : Analysis) :
  finite_levels water_levels ->
  analyze_user_patterns uid
    (_generate_simulated_data uid timestamps water_levels) s
    = (Ok (Some a), s) ->
  consistency_score a = NaN
  \/ exists c, consistency_score a = Fin c /\ 1 <= c.
Proof.
  intros Hlv Ha.
  set (data := _generate_simulated_data uid timestamps water_levels) in *.
  assert (Hne : data <> []).
  { intro E. rewrite E in Ha. discriminate. }
  pose proof (frame_rows_spec uid timestamps Hlv) as Hrows.
  fold data in Hrows.
  pose proof (frame_finite_readings uid timestamps Hlv) as Hfin.
  fold data in Hfin.
  destruct (analyze_returns uid s Hne Hfin) as [a' [Ha' [Havg [Hstd Hcs]]]].
  rewrite Ha in Ha'. injection Ha' as <-.
  assert (Hd : all_finite (daily_totals data))
    by (apply groupby_sum_finite, Hfin).
  assert (Hdn : Forall (fun x => qval x <= 0) (values (daily_totals data))).
  { assert (F : Forall (fun kv => qval (snd kv) <= 0) (daily_totals data)).
    { unfold daily_totals, groupby_sum. apply groupby_fold_nonpos.
      - eapply Forall_impl; [| exact Hrows]. intros r [H1 [H2 _]].
        split; assumption.
      - constructor.
      - constructor. }
    unfold values. apply Forall_forall. intros x Hx.
    apply in_map_iff in Hx. destruct Hx as [kv [<- Hkv]].
    rewrite Forall_forall in F. apply F, Hkv. }
  destruct (@series_mean_finite (values (daily_totals data))
              (@values_nonempty _
                 (@groupby_sum_nonempty _ date consumption_ml data Hne))
              (@all_finite_values _ Hd)) as [m [Em Hm]].
  assert (Hpos : 0 < inject_Z (Z.of_nat (length (values (daily_totals data))))).
  { apply Qnat_length_pos, values_nonempty, groupby_sum_nonempty, Hne. }
  pose proof (qsum_nonpositive Hdn) as Hsum.
  assert (Hmle : m <= 0).
  { destruct (Qlt_le_dec 0 m) as [L | L]; [| exact L]. exfalso.
    pose proof (Qmult_lt_0_compat _ _ L Hpos) as P. lra. }
  rewrite Hcs, Hstd, Havg, Em.
  apply consistency_of_nonpositive_mean; [exact Hmle |].
  destruct (@series_std_spec _ (@all_finite_values _ Hd))
    as [[_ ->] | [_ [sd [-> [Hsd Hall]]]]]; [left; reflexivity | right].
  exists sd. split; [reflexivity |]. split; [exact Hsd |].
  intro Hm0. apply (Hall 0).
  apply qsum_zero_all_zero; [exact Hdn |].
  rewrite <- Hm, Hm0. ring.
Qed.

(** X18: on a generated frame with finite levels the consistency score is
    NaN or at least 1 (the daily mean is never positive, so the ratio
    std/mean is never positive): it is never below 0.7, and the
    consistency rule never fires. *)
Theorem X18_generated_frames_look_consistent (S : Type) (uid : string)
    (timestamps : list Z) (water_levels : list pyfloat) (s : S) :
  finite_levels water_levels ->
  _generate_simulated_data uid timestamps water_levels <> [] ->
  exists a,
    analyze_user_patterns uid
      (_generate_simulated_data uid timestamps water_levels) s
      = (Ok (Some a), s)
    /\ (consistency_score a = NaN
        \/ exists c, consistency_score a = Fin c /\ 1 <= c)
    /\ flt (consistency_score a) (Fin (7 # 10)) = false.
Proof.
  intros Hlv Hne.
  destruct (@simulated_analysis S uid timestamps water_levels s Hlv Hne)
    as [a [_ [_ [_ [Ha _]]]]].
  exists a. split; [exact Ha |].
  pose proof (@generated_consistency S uid timestamps water_levels s a Hlv Ha) as Hcs.
  split; [exact Hcs |].
  destruct Hcs as [-> | [c [-> Hc]]]; [reflexivity |].
  simpl. to_Q. lra.
Qed.

Lemma X18_witness :
  exists a,
    analyze_user_patterns "USER_001" one_day_frame fb0 = (Ok (Some a), fb0)
    /\ (consistency_score a = NaN
        \/ exists c, consistency_score a = Fin c /\ 1 <= c)
    /\ flt (consistency_score a) (Fin (7 # 10)) = false.
Proof.
  apply (@X18_generated_frames_look_consistent Firebase.Dashboard "USER_001"
           (map (fun i => (t0 + 1800 * Z.of_nat i)%Z) (seq 0 48))
           (repeat (Fin 100) 48) fb0).
  - repeat constructor.
  - vm_compute. discriminate.
Defined.

(** X19: at a clock whose 14-day window lies within the timestamp
    range, the Windows loop of [main] gives every simulated user the same
    advice: exactly one recommendation, HIGH "Increase Intake", for any
    pattern and draws, and the Firebase loop never recommends "Improve
    Consistency" to a simulated user.  At any other clock the timestamps
    cannot be made: the Windows version raises and the Firebase version
    skips the user. *)
Theorem X19_simulated_users_get_the_same_advice
    (holt_winters arima : series -> Z -> result series) (has : bool)
    (end_time : Z) (pattern draws : nat -> Q) (uid : string)
    (s : Firebase.Dashboard) (w : Windows.Dashboard) :
  if window_in_range end_time 14 then
    (exists a f rs,
       WindowsApp.process_user has arima end_time pattern draws uid w
         = (Ok (Some (Some a, f, Some rs)), w)
       /\ map (fun r => (priority r, category r)) (recommendations rs)
          = [(HIGH, "Increase Intake"%string)])
    /\ (exists a f r,
          FirebaseApp.process_user holt_winters arima end_time pattern draws
            uid s = (Ok (Some (Some a, f, r)), s)
          /\ forall rs, r = Some rs ->
               ~ In "Improve Consistency"%string
                    (map category (recommendations rs)))
  else
    (exists x,
       WindowsApp.process_user has arima end_time pattern draws uid w
         = (Err x, w))
    /\ FirebaseApp.process_user holt_winters arima end_time pattern draws
         uid s = (Ok None, s).
Proof.
  destruct (window_in_range end_time 14) eqn:Hw.
  2: { split.
       - destruct (@windows_fetch_err end_time pattern draws uid 14 w Hw) as [x [E _]].
         exists x. unfold WindowsApp.process_user, bind. rewrite E.
         reflexivity.
       - unfold FirebaseApp.process_user, bind.
         rewrite (@firebase_fetch_err end_time pattern draws uid 14 s Hw). reflexivity. }
  assert (H14 : (0 <= 14)%Z) by lia.
  pose proof (generated_frame_nonempty end_time pattern draws uid H14) as Hne.
  assert (Hlv : finite_levels
                  (map Fin (walk draws (100, O)
                     (map pattern
                        (seq 0 (length (half_hours end_time 14))))))).
  { apply Forall_forall. intros l Hl.
    apply in_map_iff in Hl. destruct Hl as [q [<- _]]. reflexivity. }
  split.
  - destruct (@generated_frame_analysis Windows.Dashboard end_time pattern
                draws uid 14 w H14) as [a [avg [Ha [Havg Hle]]]].
    pose proof (@generated_consistency Windows.Dashboard uid
                  (half_hours end_time 14) _ w a Hlv Ha) as Hcs.
    assert (Hc : flt (consistency_score a) (Fin (7 # 10)) = false).
    { destruct Hcs as [-> | [c [-> Hc]]]; [reflexivity |].
      simpl. to_Q. lra. }
    destruct (windows_never_raises has arima
                (generated_frame pattern draws uid (half_hours end_time 14)) 7 w)
      as [fc [Hfc _]].
    unfold WindowsApp.process_user.
    rewrite (@bind_ok _ _ _ _ _ _ _ _
               (@windows_fetch_ok end_time pattern draws uid 14 w Hw)).
    remember (generated_frame pattern draws uid (half_hours end_time 14)) as data.
    destruct data as [| r0 data']; [congruence |].
    rewrite (@bind_ok _ _ _ _ _ _ _ _ Ha), (@bind_ok _ _ _ _ _ _ _ _ Hfc).
    rewrite (@bind_ok _ _ _ _ _ _ _ _ (windows_recommendations_spec a fc w)).
    eexists _, _, _. split; [reflexivity |].
    cbn [recommendations]. rewrite Hc, Havg.
    destruct (@ratio_low avg Hle) as [Hlt _].
    unfold intake_recommendation. rewrite Hlt. reflexivity.
  - destruct (@generated_frame_analysis Firebase.Dashboard end_time pattern
                draws uid 14 s H14) as [a [avg [Ha [Havg Hle]]]].
    pose proof (@generated_consistency Firebase.Dashboard uid
                  (half_hours end_time 14) _ s a Hlv Ha) as Hcs.
    assert (Hc : flt (consistency_score a) (Fin (7 # 10)) = false).
    { destruct Hcs as [-> | [c [-> Hc]]]; [reflexivity |].
      simpl. to_Q. lra. }
    destruct (firebase_never_raises holt_winters arima
                (generated_frame pattern draws uid (half_hours end_time 14)) 7 s)
      as [fc [Hfc _]].
    unfold FirebaseApp.process_user.
    rewrite (@bind_ok _ _ _ _ _ _ _ _
               (@firebase_fetch_ok end_time pattern draws uid 14 s Hw)).
    remember (generated_frame pattern draws uid (half_hours end_time 14)) as data.
    destruct data as [| r0 data']; [congruence |].
    rewrite (@bind_ok _ _ _ _ _ _ _ _ Ha), (@bind_ok _ _ _ _ _ _ _ _ Hfc).
    destruct fc as [| p fc'].
    + rewrite (@bind_ok _ _ _ _ _ _ _ _ (firebase_empty_forecast (Some a) s)).
      eexists _, _, _. split; [reflexivity |]. intros rs E. discriminate.
    + assert (Hnf : p :: fc' <> []) by discriminate.
      rewrite (@bind_ok _ _ _ _ _ _ _ _
                 (firebase_recommendations_spec a s Hnf)).
      eexists _, _, _. split; [reflexivity |].
      intros rs E. injection E as <-. cbn [recommendations].
      unfold rule_sequence. rewrite Hc, Havg.
      destruct (@ratio_low avg Hle) as [Hlt _].
      unfold intake_recommendation. rewrite Hlt.
      destruct (18 <? peak_hydration_hour a)%Z;
        destruct (negb (Nat.eqb (length (p :: fc')) 0)
                  && flt (series_mean
                            (map forecasted_consumption_ml (p :: fc')))
                         (Fin (2000 * (8 # 10))));
        simpl; intro H;
        repeat (destruct H as [H | H]; try discriminate); contradiction.
Qed.

(** X20: the consistency score of an analysis of finite readings.  With a
    single date in the frame it is NaN (the sample standard deviation of
    one value), so the consistency rule cannot fire.  With two dates or
    more and a positive daily average it is finite and at most 1, and it
    is 1 when all the daily totals are equal. *)
Theorem X20_consistency_score_range (S : Type) (uid : string)
    (data : DataFrame) (s : S) :
  data <> [] -> finite_readings data ->
  exists a,
    analyze_user_patterns uid data s = (Ok (Some a), s)
    /\ ((days_analyzed a < 2)%nat ->
        consistency_score a = NaN
        /\ flt (consistency_score a) (Fin (7 # 10)) = false)
    /\ ((2 <= days_analyzed a)%nat ->
        forall avg, avg_daily_consumption_ml a = Fin avg -> 0 < avg ->
        exists c, consistency_score a = Fin c /\ c <= 1
          /\ (forall t, Forall (fun x => qval x == t)
                               (values (daily_totals data)) -> c == 1)).
Proof.
  intros Hne Hfin.
  destruct (analyze_returns uid s Hne Hfin) as [a [Ha [Havg [Hstd Hcs]]]].
  destruct (analyze_fields uid s Hne Hfin)
    as [a' [Ha' [_ [_ [_ [_ [_ Hn]]]]]]].
  rewrite Ha in Ha'. injection Ha' as <-.
  assert (Hd : all_finite (daily_totals data))
    by (apply groupby_sum_finite, Hfin).
  exists a. split; [exact Ha |].
  rewrite Hn, <- (values_length (daily_totals data)).
  destruct (@series_std_spec _ (@all_finite_values _ Hd))
    as [[Hlen Hs] | [Hlen [sd [Hs [Hsd Hall]]]]].
  - split; [| intro; lia].
    intros _. rewrite Hcs, Hstd, Hs. split; reflexivity.
  - split; [intro; lia |].
    intros _ avg Eavg Hpos.
    rewrite Hcs, Hstd, Hs, Eavg. simpl.
    destruct (Qeq_bool avg 0) eqn:E;
      [apply Qeq_bool_iff in E; lra |].
    eexists. split; [reflexivity |].
    assert (Hq : 0 <= sd / avg) by (apply Qle_shift_div_l; lra).
    split; [lra |].
    intros t Ht. specialize (Hall t Ht).
    assert (E0 : sd / avg == 0) by (rewrite Hall; field; lra).
    lra.
Qed.

Lemma steady_drinker_finite : finite_readings steady_drinker.
Proof. repeat constructor. Qed.

Lemma X20_witness :
  exists a,
    analyze_user_patterns "USER_001" steady_drinker fb0 = (Ok (Some a), fb0)
    /\ ((days_analyzed a < 2)%nat ->
        consistency_score a = NaN
        /\ flt (consistency_score a) (Fin (7 # 10)) = false)
    /\ ((2 <= days_analyzed a)%nat ->
        forall avg, avg_daily_consumption_ml a = Fin avg -> 0 < avg ->
        exists c, consistency_score a = Fin c /\ c <= 1
          /\ (forall t, Forall (fun x => qval x == t)
                               (values (daily_totals steady_drinker)) ->
               c == 1)).
Proof.
  apply (@X20_consistency_score_range Firebase.Dashboard "USER_001"
           steady_drinker fb0).
  - discriminate.
  - exact steady_drinker_finite.
Defined.

(** Three days at 2000 ml: the average is 2000, the score is 1, nothing
    but "Great Job!" is recommended and the gauge is green. *)
Example steady_drinker_meets_goal :
  match fst (analyze_user_patterns "USER_001" steady_drinker win0) with
  | Ok (Some a) =>
      days_analyzed a = 3%nat
      /\ Qeq_bool (qval (avg_daily_consumption_ml a)) 2000 = true
      /\ Qeq_bool (qval (consistency_score a)) 1 = true
      /\ is_finite (consistency_score a) = true
      /\ peak_hydration_hour a = 12%Z
      /\ gauge_color (gauge_performance (Some a)) = "#4ECDC4"%string
      /\ match fst (Windows.generate_recommendations (Some a) [] win0) with
         | Ok (Some rs) =>
             map category (recommendations rs) = ["Great Job!"%string]
             /\ meeting_goal rs = true
         | _ => False
         end
  | _ => False
  end.
Proof. vm_compute. repeat split. Qed.
